(** * Thorlabs MTD415T driver: a shallow embedding and its properties

    The development follows the two modules of the driver:
    [serial_device.py] (class [SerialDevice]) and [mtd415t_device.py]
    (class [MTD415TDevice]).  Python objects become a record that is
    threaded through a state-and-exception monad; the serial port, the
    wall clock and the console are an explicit environment inside that
    record, so every effect of the driver is observable in the model. *)

From Stdlib Require Import ZArith QArith Qround Qabs Qpower Lqa Lia List Bool Ascii String.
From Stdlib Require Import DecimalString DecimalZ.
Import ListNotations.

Set Implicit Arguments.

(* ================================================================== *)
(** ** Python data *)

(** Text.  Python [bytes] are modelled as [string], one character per
    byte; a [str] is modelled as a [string] of ASCII characters, so that
    [encode('ascii')] is the identity, and [decode('ascii')] is the
    identity on bytes below 128 and fails on the others (see
    [Py.decode_ascii]). *)
Abbreviation bytes := string (only parsing).

Definition LF : ascii := "010"%char.
Definition nl : bytes := String LF EmptyString.

(** The line with which the instrument rejects a command. *)
Definition unknown_command : bytes := ("unknown command" ++ nl)%string.

(** The dynamically typed values that reach the property setters and
    come back from the getters.  [PyFloat q] is the float of value [q];
    the floats of the interpreter are the binary64 numbers
    ([Py.binary64]).  Comparisons and [int()] are exact on the value;
    the product [value*1e3], whose rounding decides the integer on the
    wire, is rounded as binary64 arithmetic rounds it ([Py.fmul]), and a
    float that a getter returns stands for the binary64 number nearest
    to its value ([Py.fl64]).  Infinities and NaN are not among the
    values. *)
Inductive pyval : Type :=
| PyNone
| PyInt (z : Z)
| PyFloat (q : Q)
| PyStr (s : string)
| PyFlags (t : list bool)
| PyNames (t : list string).

(** Exceptions of the driver.  [Blocked] is not a Python exception: it
    marks a read on a link whose scripted future is exhausted (the call
    never returns). *)
Inductive exn : Type :=
| TypeError (msg : string)
| RangeError (name : string) (lo hi : Q) (unit_label : string)
| ValueError (msg : string)
| RuntimeError (msg : string)
| AttributeError (msg : string)
| IndexError (msg : string)
| UnicodeDecodeError (msg : string)
| RecursionError
| Blocked.

Inductive outcome (A : Type) : Type :=
| Ok (a : A)
| Raise (e : exn).
Arguments Raise {A} e.

(** Python's [>] and [<] on idealised floats. *)
Definition Qltb (x y : Q) : bool := negb (Qle_bool y x).

(* ================================================================== *)
(** ** The environment and the device object *)

(** One record of the communication log: the dict
    [{'kind': .., 'time': .., 'content': ..}] built by [_logger]. *)
Record log_entry : Type := mkEntry {
  kind : string;
  time : Q;
  content : option bytes
}.

(** What the driver does to the outside world, in order of occurrence. *)
Inductive event : Type :=
| EOpen                              (* _serial.open() *)
| EClose                             (* _serial.close() *)
| ETx (data : bytes)                 (* _serial.write(data) *)
| ESleep (d : Q)                     (* time.sleep(d) *)
| EPrint (line : string)             (* print(line) *)
| EPrintLog (l : list log_entry).    (* print(self.dump_log) *)

(** The object state of an [MTD415TDevice] together with its environment.

    - [now] is the wall clock read by [time()];
    - [rx] scripts the future of the byte link: each [_serial.readline()]
      call consumes one item [(d, r)], takes [d] seconds and returns [r];
    - [trace] lists the effects so far, each stamped with the clock. *)
Record device : Type := mkDevice {
  now : Q;
  rx : list (Q * option bytes);
  port_open : bool;
  trace : list (Q * event);
  timeout : option Q;
  _log : list log_entry;
  _max_log_length : nat;
  _log_file : option (list log_entry);
  _auto_save : bool;
  last_query_time_s : Q;
  min_query_interval_s : Q
}.

Definition with_now (t : Q) (d : device) : device :=
  mkDevice t (rx d) (port_open d) (trace d) (timeout d) (_log d)
           (_max_log_length d) (_log_file d) (_auto_save d)
           (last_query_time_s d) (min_query_interval_s d).

Definition with_rx (l : list (Q * option bytes)) (d : device) : device :=
  mkDevice (now d) l (port_open d) (trace d) (timeout d) (_log d)
           (_max_log_length d) (_log_file d) (_auto_save d)
           (last_query_time_s d) (min_query_interval_s d).

Definition with_port_open (b : bool) (d : device) : device :=
  mkDevice (now d) (rx d) b (trace d) (timeout d) (_log d)
           (_max_log_length d) (_log_file d) (_auto_save d)
           (last_query_time_s d) (min_query_interval_s d).

Definition with_trace (tr : list (Q * event)) (d : device) : device :=
  mkDevice (now d) (rx d) (port_open d) tr (timeout d) (_log d)
           (_max_log_length d) (_log_file d) (_auto_save d)
           (last_query_time_s d) (min_query_interval_s d).

Definition with_log (l : list log_entry) (d : device) : device :=
  mkDevice (now d) (rx d) (port_open d) (trace d) (timeout d) l
           (_max_log_length d) (_log_file d) (_auto_save d)
           (last_query_time_s d) (min_query_interval_s d).

Definition with_log_file (f : option (list log_entry)) (d : device) : device :=
  mkDevice (now d) (rx d) (port_open d) (trace d) (timeout d) (_log d)
           (_max_log_length d) f (_auto_save d)
           (last_query_time_s d) (min_query_interval_s d).

Definition with_auto_save (b : bool) (d : device) : device :=
  mkDevice (now d) (rx d) (port_open d) (trace d) (timeout d) (_log d)
           (_max_log_length d) (_log_file d) b
           (last_query_time_s d) (min_query_interval_s d).

Definition with_last_query_time_s (t : Q) (d : device) : device :=
  mkDevice (now d) (rx d) (port_open d) (trace d) (timeout d) (_log d)
           (_max_log_length d) (_log_file d) (_auto_save d)
           t (min_query_interval_s d).

(* ================================================================== *)
(** ** The state-and-exception monad *)

Definition M (A : Type) : Type := device -> outcome A * device.

Definition ret {A} (a : A) : M A := fun d => (Ok a, d).

Definition raise {A} (e : exn) : M A := fun d => (Raise e, d).

Definition bind {A B} (m : M A) (k : A -> M B) : M B :=
  fun d =>
    match m d with
    | (Ok a, d') => k a d'
    | (Raise e, d') => (Raise e, d')
    end.

Definition gets {A} (f : device -> A) : M A := fun d => (Ok (f d), d).

Definition modify (f : device -> device) : M unit := fun d => (Ok tt, f d).

Declare Scope py_scope.
Delimit Scope py_scope with py.
Notation "x <- m ;; k" := (bind m (fun x => k))
  (at level 61, m at next level, right associativity) : py_scope.
Notation "m ;; k" := (bind m (fun _ => k))
  (at level 61, right associativity) : py_scope.
Open Scope py_scope.

(** The effect record left behind by an effect at the current time. *)
Definition emit (e : event) : M unit :=
  modify (fun d => with_trace (trace d ++ [(now d, e)]) d).

(** [time.sleep(d)]: the caller blocks for [d] seconds. *)
Definition sleep (dt : Q) : M unit :=
  emit (ESleep dt) ;; modify (fun d => with_now (now d + dt) d).

(** [print(line)]. *)
Definition print (line : string) : M unit := emit (EPrint line).

(** The effects of a trace without their time stamps. *)
Definition effects (tr : list (Q * event)) : list event := map snd tr.

(** The byte strings put on the wire, oldest first. *)
Fixpoint wire (tr : list (Q * event)) : list bytes :=
  match tr with
  | [] => []
  | (_, ETx b) :: tr' => b :: wire tr'
  | _ :: tr' => wire tr'
  end.

(* ================================================================== *)
(** ** serial_device.py *)

(** The keyword arguments a caller may forward to the constructor. *)
Record kwargs : Type := mkKwargs {
  kw_timeout : option Q;
  kw_max_log_length : option nat
}.

Definition no_kwargs : kwargs := mkKwargs None None.

Module SerialDevice.

(** [SerialDevice.__init__]; [clock] and [script] are the environment
    the object is created in, [log_file] a file-like sink (the branch for
    a path given as a string is not modelled).  [serial_for_url] hands
    back an opened port.  The fields of the subclass get placeholders
    that [MTD415TDevice.__init__] overwrites. *)
Definition __init__ (clock : Q) (script : list (Q * option bytes))
    (max_log_length : nat) (log_file : option (list log_entry))
    (kw : kwargs) : device :=
  {| now := clock; rx := script; port_open := true; trace := [];
     timeout := kw_timeout kw;
     _log := [];
     _max_log_length := max_log_length;
     _log_file := log_file;
     _auto_save := false;
     last_query_time_s := 0;
     min_query_interval_s := 0 |}.

(** [_logger(kind, message)]. *)
Definition _logger (knd : string) (message : option bytes) : M unit :=
  log <- gets _log ;;
  max <- gets _max_log_length ;;
  (* remove first entry if log is too long *)
  let log := if (max <? List.length log)%nat then tl log else log in
  t <- gets now ;;
  let entry := mkEntry knd t message in
  modify (fun d => with_log_file
                     (option_map (fun f => f ++ [entry]) (_log_file d)) d) ;;
  modify (with_log (log ++ [entry])).

(** [open()] on a link that works: [_serial.open()] returns.  The
    exceptions with which pyserial reports a port that cannot be opened,
    written or read are outside the model, here and in [write] and
    [read]: every statement about these operations is about a working
    link. *)
Definition open : M unit :=
  emit EOpen ;; modify (with_port_open true).

Definition close : M unit :=
  emit EClose ;; modify (with_port_open false).

Definition is_open : M bool := gets port_open.

(** [write(data, line_ending=b'\n')]. *)
Definition write (data : bytes) (line_ending : bytes) : M unit :=
  opened <- is_open ;;
  (if negb opened then open else ret tt) ;;
  let string := (data ++ line_ending)%string in
  _logger "write" (Some string) ;;
  emit (ETx string).

(** The test [self.timeout is not None and time() - start > self.timeout]. *)
Definition timed_out (tmo : option Q) (start t : Q) : bool :=
  match tmo with
  | None => false
  | Some limit => Qltb limit (t - start)
  end.

(** The polling loop of [read]: call [readline] until it yields a line
    or the deadline has passed.  The result is the loop's [result]
    ([None] for the scripted future running out), the clock and the
    remaining script. *)
Fixpoint poll (tmo : option Q) (start t : Q) (script : list (Q * option bytes))
  : option (option bytes) * Q * list (Q * option bytes) :=
  match script with
  | [] => (None, t, [])
  | (dt, r) :: rest =>
      let t' := t + dt in
      if timed_out tmo start t' then (Some None, t', rest)
      else match r with
           | Some line => (Some (Some line), t', rest)
           | None => poll tmo start t' rest
           end
  end.

(** [read()]. *)
Definition read : M (option bytes) :=
  opened <- is_open ;;
  (if negb opened then open else ret tt) ;;
  start <- gets now ;;
  tmo <- gets timeout ;;
  script <- gets rx ;;
  match poll tmo start start script with
  | (None, t, rest) =>
      modify (fun d => with_rx rest (with_now t d)) ;; raise Blocked
  | (Some result, t, rest) =>
      modify (fun d => with_rx rest (with_now t d)) ;;
      _logger "read" result ;;
      ret result
  end.

(** [query(cmd)]. *)
Definition query (cmd : bytes) : M (option bytes) :=
  write cmd nl ;;
  read.

(** [dump_log] renders the records of [_log], oldest first; the
    rendering itself is left to the console event. *)
Definition dump_log : M (list log_entry) := gets _log.

Definition print_dump_log : M unit :=
  print "------- MTD415 COMMUNICATION LOG DUMP ---------" ;;
  l <- dump_log ;;
  emit (EPrintLog l) ;;
  print "--------- COMMUNICATION LOG DUMP END ----------".

End SerialDevice.

(* ================================================================== *)
(** ** Python built-ins used by mtd415t_device.py *)

Module Py.

(** ASCII whitespace, as removed by [bytes.strip()]:
    space, [\t], [\n], [\v], [\f], [\r]. *)
Definition is_space (c : ascii) : bool :=
  let n := nat_of_ascii c in
  ((n =? 32) || ((9 <=? n) && (n <=? 13)))%nat.

Fixpoint lstrip (s : string) : string :=
  match s with
  | EmptyString => EmptyString
  | String c s' => if is_space c then lstrip s' else s
  end.

Fixpoint rstrip (s : string) : string :=
  match s with
  | EmptyString => EmptyString
  | String c s' =>
      match rstrip s' with
      | EmptyString => if is_space c then EmptyString else String c EmptyString
      | r => String c r
      end
  end.

Definition strip (s : string) : string := rstrip (lstrip s).

(** ['{:d}'.format(value)]: the canonical decimal form of an integer. *)
Definition format_d (value : Z) : string :=
  NilZero.string_of_int (Z.to_int value).

Definition is_digit (c : ascii) : bool :=
  let n := nat_of_ascii c in ((48 <=? n) && (n <=? 57))%nat.

(** Removes the digit-group underscores of a numeric literal; each of
    them has to be followed by a digit. *)
Fixpoint ungroup (s : string) : option string :=
  match s with
  | EmptyString => Some EmptyString
  | String c s' =>
      if Ascii.eqb c "_" then
        match s' with
        | String c' _ => if is_digit c' then ungroup s' else None
        | EmptyString => None
        end
      else option_map (String c) (ungroup s')
  end.

(** A non-empty run of decimal digits, read as a number.  Single
    underscores may group the digits: [1_000] is one thousand, while
    [_1], [1_] and [1__0] are no numbers. *)
Definition digits_value (s : string) : option Z :=
  match s with
  | EmptyString => None
  | String c _ =>
      if Ascii.eqb c "_" then None
      else match ungroup s with
           | Some t => option_map Z.of_uint (NilEmpty.uint_of_string t)
           | None => None
           end
  end.

(** Optional sign followed by [body]. *)
Definition signed {A} (body : string -> option A) (neg : A -> A)
    (s : string) : option A :=
  match s with
  | String c s' =>
      if Ascii.eqb c "-" then option_map neg (body s')
      else if Ascii.eqb c "+" then body s'
      else body s
  | EmptyString => None
  end.

(** [int(text)] on ASCII text: surrounding whitespace, an optional sign
    and decimal digits, possibly grouped by underscores ([None] stands
    for [ValueError]).  The interpreter's limit on the number of digits
    is not modelled. *)
Definition int_of_text (s : string) : option Z :=
  signed digits_value Z.opp (strip s).

(** Splits at the first ['.']. *)
Fixpoint split_dot (s : string) : string * option string :=
  match s with
  | EmptyString => (EmptyString, None)
  | String c s' =>
      if Ascii.eqb c "." then (EmptyString, Some s')
      else let (a, b) := split_dot s' in (String c a, b)
  end.

Definition digits_or_zero (s : string) : option Z :=
  match s with
  | EmptyString => Some 0%Z
  | _ => digits_value s
  end.

(** The number of digits in a run of grouped digits. *)
Definition digit_count (s : string) : nat :=
  List.length (filter is_digit (list_ascii_of_string s)).

(** Unsigned decimal literal [ddd], [ddd.ddd], [ddd.] or [.ddd]. *)
Definition decimal_value (s : string) : option Q :=
  match split_dot s with
  | (ip, None) => option_map inject_Z (digits_value ip)
  | (ip, Some fp) =>
      match ip, fp with
      | EmptyString, EmptyString => None
      | _, _ =>
          match digits_or_zero ip, digits_or_zero fp with
          | Some i, Some f =>
              Some (inject_Z i
                    + inject_Z f / inject_Z (10 ^ Z.of_nat (digit_count fp)))%Q
          | _, _ => None
          end
      end
  end.

(** [float(text)] on text ([None] stands for [ValueError]); the result
    is the number as written, before it is rounded to a float.  Literals
    with an exponent, [inf] and [nan] are not modelled. *)
Definition float_of_text (s : string) : option Q :=
  signed decimal_value Qopp (strip s).

(** [int(x)] on a float: truncation towards zero. *)
Definition trunc (x : Q) : Z := Z.quot (Qnum x) (Zpos (Qden x)).

(** [round(x)] on a float: the nearest integer, ties to the even one. *)
Definition round (x : Q) : Z :=
  let f := Qfloor x in
  match ((x - inject_Z f) ?= (1 # 2))%Q with
  | Lt => f
  | Gt => (f + 1)%Z
  | Eq => if Z.even f then f else (f + 1)%Z
  end.

(** [int(value)] on a dynamically typed value. *)
Definition int (value : pyval) : M Z :=
  match value with
  | PyInt z => ret z
  | PyFloat q => ret (trunc q)
  | PyStr s =>
      match int_of_text s with
      | Some z => ret z
      | None => raise (ValueError "invalid literal for int()")
      end
  | _ => raise (TypeError "int() argument must be a string or a number")
  end.

(** The number behind a numeric value. *)
Definition number (value : pyval) : option Q :=
  match value with
  | PyInt z => Some (inject_Z z)
  | PyFloat q => Some q
  | _ => None
  end.

(** [b.decode('ascii')]. *)
Definition is_ascii (b : bytes) : bool :=
  forallb (fun c => (nat_of_ascii c <? 128)%nat) (list_ascii_of_string b).

Definition decode_ascii (b : bytes) : M string :=
  if is_ascii b then ret b
  else raise (UnicodeDecodeError "'ascii' codec can't decode byte").

(** *** Binary64 arithmetic

    A float is a rational number [m * 2^e] with [|m| < 2^53] and
    [e >= -1074].  Overflow to an infinity is not modelled: the model
    follows the interpreter for results below [2^1024] in magnitude. *)

Definition pow2 (e : Z) : Q := 2 ^ e.

(** The integer part of the binary logarithm of a positive rational. *)
Definition ilog2 (q : Q) : Z :=
  let k := (Z.log2 (Qnum q) - Z.log2 (Zpos (Qden q)))%Z in
  if Qle_bool (pow2 k) q then k else (k - 1)%Z.

(** The exponent of the last mantissa bit of the float nearest to [q]:
    53 bits of precision, and the fixed exponent of the subnormal
    numbers at the bottom. *)
Definition ulp_exponent (q : Q) : Z := Z.max (ilog2 (Qabs q) - 52) (-1074).

(** The binary64 number nearest to [q], ties to the even mantissa: the
    float that the literal [q] denotes, and the rounding of every
    arithmetic operation. *)
Definition fl64 (q : Q) : Q :=
  let e := ulp_exponent q in
  Qred (inject_Z (round (q / pow2 e)) * pow2 e).

(** [a * b] on floats. *)
Definition fmul (a b : Q) : Q := fl64 (a * b).

(** [q] is a binary64 number: rounding leaves it as it is, and it lies
    below the overflow threshold. *)
Definition binary64 (q : Q) : Prop := fl64 q == q /\ Qabs q < pow2 1024.

(** *** [str(b)] for a byte string

    [str] of a [bytes] object is its [repr]: the literal [b'...'], in
    double quotes when the text holds a single quote and no double
    quote, with the quote character and the backslash escaped, tab,
    newline and carriage return as [\t], [\n] and [\r], and every
    other byte outside the printable ASCII range as [\xhh]. *)

Definition single_quote : ascii := "039"%char.
Definition double_quote : ascii := "034"%char.
Definition backslash : ascii := "092"%char.

Fixpoint contains (c : ascii) (s : string) : bool :=
  match s with
  | EmptyString => false
  | String c' s' => Ascii.eqb c' c || contains c s'
  end.

Definition hex_digit (n : nat) : ascii :=
  nth n (list_ascii_of_string "0123456789abcdef") "0"%char.

Definition repr_byte (quote c : ascii) : string :=
  let n := nat_of_ascii c in
  if Ascii.eqb c quote || Ascii.eqb c backslash
  then String backslash (String c EmptyString)
  else if (n =? 9)%nat then String backslash "t"
  else if (n =? 10)%nat then String backslash "n"
  else if (n =? 13)%nat then String backslash "r"
  else if ((n <? 32) || (127 <=? n))%nat
  then String backslash
         (String "x"
            (String (hex_digit (n / 16))
               (String (hex_digit (n mod 16)) EmptyString)))
  else String c EmptyString.

Fixpoint repr_body (quote : ascii) (b : bytes) : string :=
  match b with
  | EmptyString => EmptyString
  | String c b' => (repr_byte quote c ++ repr_body quote b')%string
  end.

Definition repr_quote (b : bytes) : ascii :=
  if contains single_quote b && negb (contains double_quote b)
  then double_quote else single_quote.

Definition str_bytes (b : bytes) : string :=
  let quote := repr_quote b in
  String "b" (String quote (repr_body quote b ++ String quote EmptyString)).

(** Binary digits of a positive number, least significant first. *)
Fixpoint bits_lsb (p : positive) : list ascii :=
  match p with
  | xH => ["1"%char]
  | xO p' => "0"%char :: bits_lsb p'
  | xI p' => "1"%char :: bits_lsb p'
  end.

(** ['{:016b}'.format(n)]: sign, then binary digits zero-padded so that
    the whole text has at least 16 characters. *)
Definition format_016b (n : Z) : list ascii :=
  let digits := match n with
                | Z0 => ["0"%char]
                | Zpos p | Zneg p => rev (bits_lsb p)
                end in
  let sign := if (n <? 0)%Z then ["-"%char] else [] in
  sign ++ repeat "0"%char (16 - List.length sign - List.length digits) ++ digits.

End Py.

(* ================================================================== *)
(** ** helpers.py *)

Module helpers.

(** Modelled from the spec: [helpers.py], which defines
    [validate_is_float_or_int], is not among the sources.  The spec's
    words: "validate the input is numeric (integer or floating point) --
    reject otherwise with a type error naming the setting". *)
Definition validate_is_float_or_int (value : pyval) (name : string) : M unit :=
  match value with
  | PyInt _ | PyFloat _ => ret tt
  | _ => raise (TypeError name)
  end.

(** Modelled from the spec: [helpers.py], which defines
    [validate_is_in_range], is not among the sources.  The spec's words:
    "validate it falls within [valid_min, valid_max] inclusive -- reject
    otherwise with a range error that names the setting, the bound, and
    the unit label". *)
Definition validate_is_in_range (value : pyval) (lo hi : Q)
    (name unit_label : string) : M unit :=
  match Py.number value with
  | Some x =>
      if Qltb x lo || Qltb hi x
      then raise (RangeError name lo hi unit_label)
      else ret tt
  | None => raise (TypeError name)
  end.

End helpers.

(* ================================================================== *)
(** ** mtd415t_device.py *)

Definition with_min_query_interval_s (t : Q) (d : device) : device :=
  mkDevice (now d) (rx d) (port_open d) (trace d) (timeout d) (_log d)
           (_max_log_length d) (_log_file d) (_auto_save d)
           (last_query_time_s d) t.

(** The unit label of the temperature settings, byte for byte as it is
    in the source file, followed by [" C"]. *)
Definition degree_C : string :=
  String "236" (String "167" (String "184" " C")).

Module MTD415TDevice.

Import helpers.
Local Open Scope string_scope.

(** error bits, see MTD415T datasheet, p. 18 *)
Definition _ERRORS : list (nat * string) :=
  [ (0%nat,  "not enabled"%string);
    (1%nat,  "internal temperature too high"%string);
    (2%nat,  "thermal latch-up"%string);
    (3%nat,  "cycling time too small"%string);
    (4%nat,  "no sensor"%string);
    (5%nat,  "no tec"%string);
    (6%nat,  "tec polarity reversed"%string);
    (13%nat, "value out of range"%string);
    (14%nat, "invalid command"%string) ].

(** [MTD415TDevice.__init__]; [clock] and [script] are the environment
    the object is created in.  The base class is initialised with its
    default [max_log_length] unless the keyword arguments carry one. *)
Definition __init__ (clock : Q) (script : list (Q * option bytes))
    (port : string) (auto_save : bool)
    (communication_log : option (list log_entry))
    (minimal_query_interval_s : Q) (kw : kwargs) : device :=
  let self :=
    SerialDevice.__init__ clock script
      (match kw_max_log_length kw with Some n => n | None => 100%nat end)
      communication_log kw in
  with_min_query_interval_s 0.01
    (with_last_query_time_s clock
       (with_auto_save auto_save self)).

(** [query(setting, retry=False)].  [depth] is the number of nested
    calls the interpreter still allows; running out of it is Python's
    [RecursionError]. *)
Fixpoint query (depth : nat) (setting : bytes) (retry : bool)
  : M (option bytes) :=
  match depth with
  | O => raise RecursionError
  | S depth' =>
      t <- gets now ;;
      last <- gets last_query_time_s ;;
      interval <- gets min_query_interval_s ;;
      let idle_time_s := (interval - (t - last))%Q in
      (if Qltb 0 idle_time_s then sleep idle_time_s else ret tt) ;;
      let cmd := (setting ++ "?")%string in
      result <- SerialDevice.query cmd ;;
      t' <- gets now ;;
      modify (with_last_query_time_s t') ;;
      if retry && match result with
                  | Some line => String.eqb line ("unknown command" ++ nl)
                  | None => true
                  end
      then
        sleep 0.1 ;;  (* wait 100ms before retrying the same command *)
        query depth' setting true
      else ret result
  end.

(** [write(data)]. *)
Definition write (data : string) : M unit :=
  SerialDevice.write data nl.

(** [save()]. *)
Definition save : M unit :=
  print "WARNING: Saving config to flash memory." ;;
  write "M" ;;
  (* ensure returned data is removed from the buffer *)
  SerialDevice.read ;;
  ret tt.

(** [set(setting, value)].  [self.read().strip()] is a method call on
    the value that [read] returned, so it fails on [None]. *)
Definition set (setting : string) (value : pyval) : M unit :=
  value <- Py.int value ;;
  let value_str := Py.format_d value in
  let cmd := (setting ++ value_str)%string in
  write cmd ;;
  line <- SerialDevice.read ;;
  confirmation <-
    match line with
    | Some l => ret (Some (Py.strip l))
    | None =>
        raise (AttributeError "'NoneType' object has no attribute 'strip'")
    end ;;
  match confirmation with
  | None =>
      SerialDevice.print_dump_log ;;
      raise (RuntimeError ("Timeout for setting " ++ setting ++ " to "
                             ++ Py.str_bytes value_str))
  | Some confirmation =>
      if negb (String.eqb confirmation value_str) then
        SerialDevice.print_dump_log ;;
        raise (ValueError ("Device reported an error in '" ++ setting
                             ++ "' setting to " ++ Py.str_bytes value_str
                             ++ ", error: " ++ Py.str_bytes confirmation))
      else
        autosave <- gets _auto_save ;;
        if autosave then
          print "WARNING: Using auto-save mode! This warning persists." ;;
          save
        else ret tt
  end.

(** [clear_errors()]. *)
Definition clear_errors : M unit :=
  write "c" ;;
  SerialDevice.read ;;
  ret tt.

Definition auto_save : M bool := gets _auto_save.

Definition auto_save_set (value : bool) : M unit :=
  modify (with_auto_save value).

(** The body shared by [idn] and [uid]. *)
Definition text_reading (limit : nat) (code : string) : M pyval :=
  res <- query limit code true ;;
  match res with
  | Some res => text <- Py.decode_ascii res ;; ret (PyStr text)
  | None => ret (PyStr "<timeout>")
  end.

Definition idn (limit : nat) : M pyval := text_reading limit "m".

Definition uid (limit : nat) : M pyval := text_reading limit "u".

(** [error_flags]: the error register as a tuple, LSB first. *)
Definition error_flags (limit : nat) : M pyval :=
  val <- query limit "E" true ;;
  match val with
  | None => ret (PyStr "<timeout>")
  | Some val =>
      text <- Py.decode_ascii val ;;
      match Py.int_of_text text with
      | None => raise (ValueError "invalid literal for int()")
      | Some err =>
          ret (PyFlags (map (fun c => Ascii.eqb c "1")
                            (rev (Py.format_016b err))))
      end
  end.

(** The loop of [errors] over [_ERRORS.items()]. *)
Fixpoint collect_errors (flags : list bool) (table : list (nat * string))
  : option (list string) :=
  match table with
  | [] => Some []
  | (idx, err) :: table' =>
      match nth_error flags idx with
      | None => None
      | Some false => collect_errors flags table'
      | Some true => option_map (cons err) (collect_errors flags table')
      end
  end.

(** [errors]. *)
Definition errors (limit : nat) : M pyval :=
  flags <- error_flags limit ;;
  match flags with
  | PyStr _ => ret flags
  | PyFlags flags =>
      match collect_errors flags _ERRORS with
      | Some errs => ret (PyNames errs)
      | None => raise (IndexError "tuple index out of range")
      end
  | _ => raise (TypeError "object is not subscriptable")
  end.

(** The body shared by the getters that return [float(value) / 1e3]. *)
Definition scaled_reading (limit : nat) (code : string) (retry : bool)
  : M pyval :=
  value <- query limit code retry ;;
  match value with
  | None => ret (PyStr "<timeout>")
  | Some value =>
      match Py.float_of_text value with
      | Some x => ret (PyFloat (x / 1000))
      | None => raise (ValueError "could not convert string to float")
      end
  end.

(** The body shared by the setters that send [round(value*1e3)]: the
    product is the float product of the float behind [value] and 1000,
    and [round] takes that float to the nearest integer. *)
Definition scaled_setter (name : string) (lo hi : Q) (unit_label : string)
    (code : string) (value : pyval) : M unit :=
  validate_is_float_or_int value name ;;
  validate_is_in_range value lo hi name unit_label ;;
  match Py.number value with
  | Some x => set code (PyInt (Py.round (Py.fmul (Py.fl64 x) 1000)))
  | None => raise (TypeError "unsupported operand type(s) for *")
  end.

Definition tec_current_limit (limit : nat) : M pyval :=
  scaled_reading limit "L" true.

Definition tec_current_limit_set : pyval -> M unit :=
  scaled_setter "TEC current limit" 0.2 2 " A" "L".

Definition tec_current (limit : nat) : M pyval :=
  scaled_reading limit "A" true.

Definition tec_voltage (limit : nat) : M pyval :=
  scaled_reading limit "U" false.

Definition temp (limit : nat) : M pyval :=
  scaled_reading limit "Te" true.

Definition temp_setpoint (limit : nat) : M pyval :=
  scaled_reading limit "T" true.

Definition temp_setpoint_set : pyval -> M unit :=
  scaled_setter "Temperature setpoint" 5 45 degree_C "T".

Definition status_temp_window (limit : nat) : M pyval :=
  scaled_reading limit "W" true.

Definition status_temp_window_set : pyval -> M unit :=
  scaled_setter "Status temperature window" 1e-3 32.768 degree_C "W".

Definition status_delay (limit : nat) : M pyval :=
  value <- query limit "d" true ;;
  match value with
  | None => ret (PyStr "<timeout>")
  | Some value =>
      match Py.int_of_text value with
      | Some n => ret (PyInt n)
      | None => raise (ValueError "invalid literal for int()")
      end
  end.

Definition status_delay_set (value : pyval) : M unit :=
  validate_is_float_or_int value "Status delay" ;;
  value <- Py.int value ;;
  validate_is_in_range (PyInt value) 1 32768 "Status delay" " s" ;;
  set "d" (PyInt value).

Definition critical_gain (limit : nat) : M pyval :=
  scaled_reading limit "G" true.

Definition critical_gain_set : pyval -> M unit :=
  scaled_setter "Critical gain" 10e-3 100 " A/K" "G".

Definition critical_period (limit : nat) : M pyval :=
  scaled_reading limit "O" true.

Definition critical_period_set : pyval -> M unit :=
  scaled_setter "Critical period" 100e-3 100e3 " s" "O".

Definition cycling_time (limit : nat) : M pyval :=
  scaled_reading limit "C" true.

Definition cycling_time_set : pyval -> M unit :=
  scaled_setter "Cycling time" 1e-3 1 " s" "C".

Definition p_gain (limit : nat) : M pyval :=
  scaled_reading limit "P" true.

Definition p_gain_set : pyval -> M unit :=
  scaled_setter "P gain" 0 100 " A/K" "P".

Definition i_gain (limit : nat) : M pyval :=
  scaled_reading limit "I" true.

Definition i_gain_set : pyval -> M unit :=
  scaled_setter "I gain" 0 100 " A/(K x s)" "I".

Definition d_gain (limit : nat) : M pyval :=
  scaled_reading limit "D" true.

Definition d_gain_set : pyval -> M unit :=
  scaled_setter "D gain" 0 100 " (A x s)/K" "D".

End MTD415TDevice.

(* ================================================================== *)
(** ** The settings, as a table over the properties of the class *)

(** The ten properties that have a setter. *)
Inductive setting : Type :=
| TecCurrentLimit | TempSetpoint | StatusTempWindow | StatusDelay
| CriticalGain | CriticalPeriod | CyclingTime | PGain | IGain | DGain.

(** All properties with a getter. *)
Inductive reading : Type :=
| Idn | Uid | ErrorFlags | Errors | TecCurrent | TecVoltage | Temp
| Of (s : setting).

Definition all_settings : list setting :=
  [TecCurrentLimit; TempSetpoint; StatusTempWindow; StatusDelay;
   CriticalGain; CriticalPeriod; CyclingTime; PGain; IGain; DGain].

Definition setter (s : setting) : pyval -> M unit :=
  match s with
  | TecCurrentLimit => MTD415TDevice.tec_current_limit_set
  | TempSetpoint => MTD415TDevice.temp_setpoint_set
  | StatusTempWindow => MTD415TDevice.status_temp_window_set
  | StatusDelay => MTD415TDevice.status_delay_set
  | CriticalGain => MTD415TDevice.critical_gain_set
  | CriticalPeriod => MTD415TDevice.critical_period_set
  | CyclingTime => MTD415TDevice.cycling_time_set
  | PGain => MTD415TDevice.p_gain_set
  | IGain => MTD415TDevice.i_gain_set
  | DGain => MTD415TDevice.d_gain_set
  end.

Definition getter (r : reading) : nat -> M pyval :=
  match r with
  | Idn => MTD415TDevice.idn
  | Uid => MTD415TDevice.uid
  | ErrorFlags => MTD415TDevice.error_flags
  | Errors => MTD415TDevice.errors
  | TecCurrent => MTD415TDevice.tec_current
  | TecVoltage => MTD415TDevice.tec_voltage
  | Temp => MTD415TDevice.temp
  | Of TecCurrentLimit => MTD415TDevice.tec_current_limit
  | Of TempSetpoint => MTD415TDevice.temp_setpoint
  | Of StatusTempWindow => MTD415TDevice.status_temp_window
  | Of StatusDelay => MTD415TDevice.status_delay
  | Of CriticalGain => MTD415TDevice.critical_gain
  | Of CriticalPeriod => MTD415TDevice.critical_period
  | Of CyclingTime => MTD415TDevice.cycling_time
  | Of PGain => MTD415TDevice.p_gain
  | Of IGain => MTD415TDevice.i_gain
  | Of DGain => MTD415TDevice.d_gain
  end.

(** The wire code of a setting. *)
Definition setting_code (s : setting) : string :=
  match s with
  | TecCurrentLimit => "L" | TempSetpoint => "T" | StatusTempWindow => "W"
  | StatusDelay => "d" | CriticalGain => "G" | CriticalPeriod => "O"
  | CyclingTime => "C" | PGain => "P" | IGain => "I" | DGain => "D"
  end.

(** The wire code a getter asks for. *)
Definition reading_code (r : reading) : string :=
  match r with
  | Idn => "m" | Uid => "u" | ErrorFlags => "E" | Errors => "E"
  | TecCurrent => "A" | TecVoltage => "U" | Temp => "Te"
  | Of s => setting_code s
  end.


Definition unit_label (s : setting) : string :=
  match s with
  | TecCurrentLimit => " A"
  | TempSetpoint | StatusTempWindow => degree_C
  | StatusDelay | CriticalPeriod | CyclingTime => " s"
  | CriticalGain | PGain => " A/K"
  | IGain => " A/(K x s)"
  | DGain => " (A x s)/K"
  end.

(** The documented valid range of a setting, in physical units. *)
Definition valid_min (s : setting) : Q :=
  match s with
  | TecCurrentLimit => 0.2 | TempSetpoint => 5 | StatusTempWindow => 1e-3
  | StatusDelay => 1 | CriticalGain => 10e-3 | CriticalPeriod => 100e-3
  | CyclingTime => 1e-3 | PGain | IGain | DGain => 0
  end.

Definition valid_max (s : setting) : Q :=
  match s with
  | TecCurrentLimit => 2 | TempSetpoint => 45 | StatusTempWindow => 32.768
  | StatusDelay => 32768 | CriticalGain => 100 | CriticalPeriod => 100e3
  | CyclingTime => 1 | PGain | IGain | DGain => 100
  end.

(** The integer a setter puts on the wire for the number [x]. *)
Definition wire_integer (s : setting) (x : Q) : Z :=
  match s with
  | StatusDelay => Py.trunc x
  | _ => Py.round (Py.fmul (Py.fl64 x) 1000)
  end.


(** The number the setter's range check is applied to. *)
Definition checked_number (s : setting) (x : Q) : Q :=
  match s with
  | StatusDelay => inject_Z (Py.trunc x)
  | _ => x
  end.

(** The setter of [s] accepts the value [v]: it is the number [x], and
    the number that the setter checks lies in the valid range. *)
Definition accepted (s : setting) (v : pyval) (x : Q) : Prop :=
  Py.number v = Some x
  /\ valid_min s <= checked_number s x
  /\ checked_number s x <= valid_max s.

(** A run of [_logger] calls, as a sequence of writes and reads makes them. *)
Fixpoint log_all (records : list (string * option bytes)) : M unit :=
  match records with
  | [] => ret tt
  | (k, m) :: records' => SerialDevice._logger k m ;; log_all records'
  end.

(** The [EOpen] effect of an implicit [open()], if the port is closed. *)
Definition opening (d : device) : list (Q * event) :=
  if port_open d then [] else [(now d, EOpen)].

(** A reply that [read] hands back: it took [dt] seconds and the deadline,
    if there is one, had not passed. *)
Definition in_time (tmo : option Q) (dt : Q) : Prop :=
  match tmo with
  | None => True
  | Some limit => dt <= limit
  end.

(** A reply that [read] discards: the deadline had passed. *)
Definition too_late (tmo : option Q) (dt : Q) : Prop :=
  match tmo with
  | None => False
  | Some limit => limit < dt
  end.

(** The replies to which a retrying [query] reacts with a retry. *)
Definition failing (tmo : option Q) (item : Q * option bytes) : Prop :=
  too_late tmo (fst item)
  \/ (in_time tmo (fst item)
      /\ snd item = Some ("unknown command" ++ nl)%string).

(** The command line a query for [code] puts on the wire. *)
Definition query_command (code : string) : bytes := (code ++ "?" ++ nl)%string.

(** The throttling delay of a query issued in state [d], as an effect. *)
Definition throttling (d : device) : list event :=
  let idle_time_s := min_query_interval_s d - (now d - last_query_time_s d) in
  if Qltb 0 idle_time_s then [ESleep idle_time_s] else [].

(** [n] retries of a query: each one waits 100 ms and sends the command
    again. *)
Definition retries (n : nat) (code : string) : list event :=
  List.concat (repeat [ESleep 0.1; ETx (query_command code)] n).

(** The replies after which a retrying query tries again. *)
Definition retryable (result : option bytes) : bool :=
  match result with
  | Some line => String.eqb line unknown_command
  | None => true
  end.

(** The clock when a query that was issued in state [d] transmits. *)
Definition transmit_time (d : device) : Q :=
  let idle_time_s := min_query_interval_s d - (now d - last_query_time_s d) in
  if Qltb 0 idle_time_s then now d + idle_time_s else now d.

(** The effects of one attempt up to and including the transmission. *)
Definition attempt_prefix (code : string) (d : device) : list (Q * event) :=
  map (fun e => (now d, e)) (throttling d)
  ++ (if port_open d then [] else [(transmit_time d, EOpen)])
  ++ [(transmit_time d, ETx (query_command code))].

(** Every effect in [tr] is stamped with a time between [lo] and [hi]. *)
Definition stamped_between (lo hi : Q) (tr : list (Q * event)) : Prop :=
  Forall (fun te => lo <= fst te /\ fst te <= hi) tr.

(** Bit [i] of [err], for [i] a position in the flag tuple. *)
Definition register_bit (err : Z) (i : nat) : bool := Z.testbit err (Z.of_nat i).

Definition is_one (c : ascii) : bool := Ascii.eqb c "1".

(** No character of [s] is whitespace. *)
Fixpoint no_space (s : string) : bool :=
  match s with
  | EmptyString => true
  | String c s' => negb (Py.is_space c) && no_space s'
  end.

(** The reply that the save command drains, when auto-save is on. *)
Definition save_exchange (d : device) (reply : Q * bytes) : list (Q * option bytes) :=
  if _auto_save d then [(fst reply, Some (snd reply))] else [].

(** What a successful [set] of [n] under [code] puts on the wire. *)
Definition set_commands (d : device) (code : string) (n : Z) : list bytes :=
  (code ++ Py.format_d n ++ nl)%string
    :: (if _auto_save d then [("M" ++ nl)%string] else []).

(** The configuration and the time stamp that no transport operation
    touches. *)
Definition same_config (d d1 : device) : Prop :=
  timeout d1 = timeout d
  /\ _auto_save d1 = _auto_save d
  /\ min_query_interval_s d1 = min_query_interval_s d
  /\ last_query_time_s d1 = last_query_time_s d.

(** The byte strings that a list of effects puts on the wire. *)
Fixpoint transmissions (es : list event) : list bytes :=
  match es with
  | [] => []
  | ETx b :: es' => b :: transmissions es'
  | _ :: es' => transmissions es'
  end.

(** What a confirmed [set] does after it has transmitted the command. *)
Definition auto_save_effects (d : device) : list event :=
  if _auto_save d then
    [EPrint "WARNING: Using auto-save mode! This warning persists.";
     EPrint "WARNING: Saving config to flash memory.";
     ETx ("M" ++ nl)%string]
  else [].

(** Every character of [s] is whitespace. *)
Fixpoint all_space (s : string) : bool :=
  match s with
  | EmptyString => true
  | String c s' => Py.is_space c && all_space s'
  end.

(** Reading a bytes literal back, as [ast.literal_eval] does for the
    literals that [Py.str_bytes] writes. *)
Definition hex_value (c : ascii) : option nat :=
  let n := nat_of_ascii c in
  if Py.is_digit c then Some (n - 48)%nat
  else if ((97 <=? n) && (n <=? 102))%nat then Some (n - 87)%nat
  else None.

Fixpoint literal_body (quote : ascii) (s : string) : option bytes :=
  match s with
  | EmptyString => None
  | String c s1 =>
      if Ascii.eqb c quote then
        match s1 with EmptyString => Some EmptyString | _ => None end
      else if Ascii.eqb c Py.backslash then
        match s1 with
        | EmptyString => None
        | String e s2 =>
            if Ascii.eqb e "x" then
              match s2 with
              | String h (String l s3) =>
                  match hex_value h, hex_value l with
                  | Some a, Some b =>
                      option_map (String (ascii_of_nat (16 * a + b)))
                                 (literal_body quote s3)
                  | _, _ => None
                  end
              | _ => None
              end
            else if Ascii.eqb e "t"
            then option_map (String "009"%char) (literal_body quote s2)
            else if Ascii.eqb e "n"
            then option_map (String "010"%char) (literal_body quote s2)
            else if Ascii.eqb e "r"
            then option_map (String "013"%char) (literal_body quote s2)
            else option_map (String e) (literal_body quote s2)
        end
      else option_map (String c) (literal_body quote s1)
  end.

Definition bytes_of_literal (s : string) : option bytes :=
  match s with
  | String p (String quote body) =>
      if Ascii.eqb p "b" then literal_body quote body else None
  | _ => None
  end.

(** Printable ASCII text without a single quote or a backslash: the text
    that [Py.str_bytes] puts between [b'] and ['] unchanged. *)
Definition plain_byte (c : ascii) : bool :=
  let n := nat_of_ascii c in
  ((32 <=? n) && (n <=? 126))%nat
  && negb (Ascii.eqb c Py.single_quote) && negb (Ascii.eqb c Py.backslash).

Definition plain (b : bytes) : bool :=
  forallb plain_byte (list_ascii_of_string b).

(** A letter of the ASCII alphabet. *)
Definition is_letter (c : ascii) : bool :=
  let n := nat_of_ascii c in
  (((65 <=? n) && (n <=? 90)) || ((97 <=? n) && (n <=? 122)))%nat.

Definition has_letter (s : string) : bool :=
  existsb is_letter (list_ascii_of_string s).

(** The characters of which an integer literal and the whitespace around
    it consist. *)
Definition literal_char (c : ascii) : bool :=
  Py.is_space c || Ascii.eqb c "-" || Ascii.eqb c "+" || Ascii.eqb c "_"
  || Py.is_digit c.

(** Every character of [s] satisfies [P]. *)
Definition chars (P : ascii -> bool) (s : string) : bool :=
  forallb P (list_ascii_of_string s).

(** The record that [_logger] makes of [r] at time [t]. *)
Definition entry_at (t : Q) (r : string * option bytes) : log_entry :=
  mkEntry (fst r) t (snd r).

(** The flag tuple that [error_flags] builds from the register value. *)
Definition flags_of (err : Z) : list bool :=
  map (fun c => Ascii.eqb c "1") (rev (Py.format_016b err)).


(** Every scripted [readline] takes a non-negative time. *)
Definition causal (script : list (Q * option bytes)) : Prop :=
  Forall (fun item => 0 <= fst item) script.


(* ------------------------------------------------------------------ *)
(** *** Concrete devices *)

(** A freshly constructed device on port [/dev/ttyUSB0] at time 0, with a
    one-second read timeout, facing the given script. *)
Definition bench (auto_save : bool) (script : list (Q * option bytes)) : device :=
  MTD415TDevice.__init__ 0 script "/dev/ttyUSB0" auto_save None 0.01
    (mkKwargs (Some 1) None).

(** A line that arrives after one millisecond. *)
Definition prompt (line : string) : Q * option bytes :=
  (0.001, Some (line ++ nl)%string).

(** Two seconds of silence: longer than the bench's timeout. *)
Definition silence : Q * option bytes := (2, Some EmptyString).

(** Answers "unknown command" twice before it answers "500". *)
Definition stubborn_device : device :=
  bench false [prompt "unknown command"; prompt "unknown command"; prompt "500"].

(** Answers two queries, each after one millisecond. *)
Definition two_line_device : device := bench false [prompt "500"; prompt "22"].

Definition after_first_query : device :=
  snd (MTD415TDevice.query 1 "L" true two_line_device).

Definition after_second_query : device :=
  snd (MTD415TDevice.query 1 "T" true after_first_query).

(** Auto-save is on; the device echoes 15025, answers the save command
    and later reports 15025. *)
Definition echoing_device : device :=
  bench true [prompt "15025"; prompt "ok"; prompt "15025"].


(** Answers a query with "unknown command" and falls silent. *)
Definition rejecting_device : device := bench false [prompt "unknown command"].

(** Lets the first read time out, then answers "1200". *)
Definition slow_device : device := bench false [silence; prompt "1200"].

(** No read timeout is configured; the link is silent for three seconds
    and then delivers "ok". *)
Definition patient_device : device :=
  MTD415TDevice.__init__ 0 [(3, None); (1, Some ("ok" ++ nl)%string)]
    "/dev/ttyUSB0" false None 0.01 no_kwargs.

(* ================================================================== *)
(** ** Facts about the model *)

Unset Implicit Arguments.

Lemma Qltb_true (x y : Q) : Qltb x y = true <-> x < y.
Proof.
  unfold Qltb. rewrite negb_true_iff. split; intro H.
  - apply Qnot_le_lt. intro L. apply Qle_bool_iff in L. congruence.
  - destruct (Qle_bool y x) eqn:E; [|reflexivity].
    apply Qle_bool_iff in E. exfalso. apply (Qlt_not_le _ _ H E).
Qed.

Lemma Qltb_false (x y : Q) : Qltb x y = false <-> y <= x.
Proof.
  unfold Qltb. rewrite negb_false_iff. apply Qle_bool_iff.
Qed.

Example format_d_ex : Py.format_d 15025 = "15025"%string /\ Py.format_d (-7) = "-7"%string.
Proof. split; reflexivity. Qed.

Example strip_ex : Py.strip (String LF " 500 " ++ nl) = "500"%string.
Proof. reflexivity. Qed.

Example int_of_text_ex :
  Py.int_of_text ("5" ++ nl) = Some 5%Z
  /\ Py.int_of_text " -1_000 " = Some (-1000)%Z
  /\ Py.int_of_text "1__0" = None
  /\ Py.int_of_text "_1" = None
  /\ Py.int_of_text "1_" = None
  /\ Py.int_of_text "+ 5" = None.
Proof. repeat split; reflexivity. Qed.

Example float_of_text_ex :
  Py.float_of_text ("-12.50" ++ nl) = Some (- (12 + 50 / 100))%Q
  /\ Py.float_of_text ("unknown command" ++ nl) = None.
Proof. split; reflexivity. Qed.

Example round_ex :
  Py.round (5 # 2) = 2%Z /\ Py.round (7 # 2) = 4%Z /\ Py.round (-(5 # 2)) = (-2)%Z
  /\ Py.round (15.025 * 1000) = 15025%Z /\ Py.trunc (-(7 # 2)) = (-3)%Z.
Proof. repeat split; reflexivity. Qed.

Example format_016b_ex :
  string_of_list_ascii (Py.format_016b 5) = "0000000000000101"%string
  /\ string_of_list_ascii (Py.format_016b (-5)) = "-000000000000101"%string
  /\ string_of_list_ascii (Py.format_016b 65536) = "10000000000000000"%string.
Proof. repeat split; reflexivity. Qed.

Lemma timed_out_in_time tmo s dt :
  in_time tmo dt -> SerialDevice.timed_out tmo s (s + dt) = false.
Proof.
  destruct tmo as [limit|]; simpl; [|reflexivity].
  intro H. apply Qltb_false. lra.
Qed.

Lemma timed_out_too_late tmo s dt :
  too_late tmo dt -> SerialDevice.timed_out tmo s (s + dt) = true.
Proof.
  destruct tmo as [limit|]; simpl; [|contradiction].
  intro H. apply Qltb_true. lra.
Qed.

Lemma append_assoc (a b c : string) : ((a ++ b) ++ c = a ++ (b ++ c))%string.
Proof. induction a as [|x a IH]; simpl; [reflexivity | now rewrite IH]. Qed.

Lemma wire_app tr1 tr2 : wire (tr1 ++ tr2) = wire tr1 ++ wire tr2.
Proof.
  induction tr1 as [|[t e] tr1 IH]; simpl; [reflexivity|].
  destruct e; simpl; rewrite IH; reflexivity.
Qed.

(** Unfolds the monadic plumbing down to functions on the device. *)
Ltac run :=
  unfold MTD415TDevice.set, MTD415TDevice.save, MTD415TDevice.write,
    SerialDevice.query, SerialDevice.write, SerialDevice.read,
    SerialDevice.print_dump_log, SerialDevice.dump_log,
    SerialDevice.is_open, SerialDevice.open, SerialDevice._logger,
    Py.int, sleep, print, emit, bind, gets, modify, ret, raise in *.

(* ------------------------------------------------------------------ *)
(** *** The communication log *)

Lemma logger_length knd msg d :
  List.length (_log (snd (SerialDevice._logger knd msg d)))
  = if (_max_log_length d <? List.length (_log d))%nat
    then List.length (_log d)
    else S (List.length (_log d)).
Proof.
  run. cbn [snd _log with_log with_log_file _max_log_length].
  destruct (Nat.ltb_spec (_max_log_length d) (List.length (_log d)));
    rewrite length_app; cbn [List.length].
  - destruct (_log d); simpl in *; lia.
  - lia.
Qed.

Lemma logger_max knd msg d :
  _max_log_length (snd (SerialDevice._logger knd msg d)) = _max_log_length d.
Proof. reflexivity. Qed.

Lemma log_all_length records : forall d,
  (List.length (_log d) <= S (_max_log_length d))%nat ->
  List.length (_log (snd (log_all records d)))
  = Nat.min (List.length (_log d) + List.length records) (S (_max_log_length d)).
Proof.
  induction records as [|[k m] records IH]; intros d Hd; simpl.
  - lia.
  - unfold bind.
    destruct (SerialDevice._logger k m d) as [o d1] eqn:E.
    assert (L := logger_length k m d). assert (X := logger_max k m d).
    rewrite E in L, X. cbn [snd] in L, X.
    assert (O : o = Ok tt) by (revert E; run; simpl; congruence).
    subst o.
    destruct (Nat.ltb_spec (_max_log_length d) (List.length (_log d)));
      rewrite IH; rewrite X, L; lia.
Qed.

(** C2 (the code departs from the claim): starting from a fresh device,
    after any run of log records the communication log holds
    [min n (max_log_length + 1)] entries, where [n] is the number of
    records made; from the [max_log_length + 1]-st record on it holds one
    entry more than [max_log_length]. *)
Theorem log_holds_one_more_than_max :
  forall clock script max log_file kw records,
    List.length (_log (snd (log_all records
        (SerialDevice.__init__ clock script max log_file kw))))
    = Nat.min (List.length records) (S max).
Proof.
  intros. rewrite log_all_length; simpl; [reflexivity | lia].
Qed.

Example log_of_three_writes_with_bound_two :
  let d := SerialDevice.__init__ 0 [] 2 None no_kwargs in
  let run3 := (SerialDevice.write "a" nl ;; SerialDevice.write "b" nl ;;
               SerialDevice.write "c" nl) in
  map content (_log (snd (run3 d)))
  = [Some ("a" ++ nl)%string; Some ("b" ++ nl)%string; Some ("c" ++ nl)%string].
Proof. reflexivity. Qed.

(* ------------------------------------------------------------------ *)
(** *** Construction *)

(** C6 (the code departs from the claim): whatever
    [minimal_query_interval_s] is passed to the constructor, the throttler's
    interval of the new device is 0.01 s; constructing with 0.05 s does not
    make the throttler use 0.05 s. *)
Theorem init_ignores_minimal_query_interval :
  (forall clock script port auto_save communication_log interval kw,
     min_query_interval_s
       (MTD415TDevice.__init__ clock script port auto_save communication_log
          interval kw) = 0.01)
  /\ ~ (min_query_interval_s
          (MTD415TDevice.__init__ 0 [] "/dev/ttyUSB0" false None 0.05 no_kwargs)
        == 0.05).
Proof.
  split; [reflexivity|].
  simpl. intro H. discriminate H.
Qed.

(* ------------------------------------------------------------------ *)
(** *** Confirmation of a set command *)

(** C3 (the code departs from the claim): when the confirmation read of
    [set] times out, the call fails with an [AttributeError] from the
    strip of the absent value; the only effect on the outside world is the
    transmission of the command, so no log dump is printed and no timeout
    error is raised. *)
Theorem set_read_timeout_is_attribute_error :
  forall (code : string) (value : Z) (d : device) t rest,
    SerialDevice.poll (timeout d) (now d) (now d) (rx d) = (Some None, t, rest) ->
    fst (MTD415TDevice.set code (PyInt value) d)
    = Raise (AttributeError "'NoneType' object has no attribute 'strip'")
    /\ trace (snd (MTD415TDevice.set code (PyInt value) d))
       = trace d ++ opening d
           ++ [(now d, ETx (code ++ Py.format_d value ++ nl)%string)].
Proof.
  intros code value d t rest H.
  destruct d as [nw r po tr tmo lg mx lf au lq mq]. simpl in H.
  run. unfold opening. destruct po; simpl; rewrite H; simpl.
  - rewrite append_assoc. auto.
  - rewrite append_assoc, <- app_assoc. auto.
Qed.

Lemma set_read_timeout_witness :
  fst (MTD415TDevice.set "L" (PyInt 500) (bench false [silence]))
  = Raise (AttributeError "'NoneType' object has no attribute 'strip'")
  /\ trace (snd (MTD415TDevice.set "L" (PyInt 500) (bench false [silence])))
     = trace (bench false [silence]) ++ opening (bench false [silence])
         ++ [(now (bench false [silence]),
              ETx ("L" ++ Py.format_d 500 ++ nl)%string)].
Proof.
  apply (set_read_timeout_is_attribute_error "L" 500 (bench false [silence])
           (0 + 2) []).
  reflexivity.
Defined.

(* ------------------------------------------------------------------ *)
(** *** The transport operations, one at a time *)

Lemma write_spec (data line_ending : bytes) (d : device) :
  exists d1,
    SerialDevice.write data line_ending d = (Ok tt, d1)
    /\ now d1 = now d
    /\ rx d1 = rx d
    /\ port_open d1 = true
    /\ trace d1
       = trace d ++ opening d ++ [(now d, ETx (data ++ line_ending)%string)]
    /\ same_config d d1.
Proof.
  destruct d as [nw r po tr tmo lg mx lf au lq mq].
  unfold opening, same_config. run.
  destruct po; simpl; eexists; (split; [reflexivity|]); simpl;
    rewrite <- ?app_assoc; auto 10.
Qed.

Lemma read_spec (d : device) res t rest :
  SerialDevice.poll (timeout d) (now d) (now d) (rx d) = (res, t, rest) ->
  exists d1,
    SerialDevice.read d
    = (match res with Some r => Ok r | None => Raise Blocked end, d1)
    /\ now d1 = t
    /\ rx d1 = rest
    /\ port_open d1 = true
    /\ trace d1 = trace d ++ opening d
    /\ same_config d d1.
Proof.
  intro Hp.
  destruct d as [nw r po tr tmo lg mx lf au lq mq]. simpl in Hp.
  unfold opening, same_config. run.
  destruct po; simpl; rewrite Hp; destruct res; simpl;
    eexists; (split; [reflexivity|]); simpl; rewrite ?app_nil_r; auto 10.
Qed.

Lemma sleep_spec (dt : Q) (d : device) :
  exists d1,
    sleep dt d = (Ok tt, d1)
    /\ now d1 = now d + dt
    /\ rx d1 = rx d
    /\ port_open d1 = port_open d
    /\ trace d1 = trace d ++ [(now d, ESleep dt)]
    /\ same_config d d1.
Proof.
  unfold same_config. run. simpl. eexists. split; [reflexivity|]. simpl. auto 10.
Qed.

Lemma print_spec (line : string) (d : device) :
  exists d1,
    print line d = (Ok tt, d1)
    /\ now d1 = now d
    /\ rx d1 = rx d
    /\ port_open d1 = port_open d
    /\ trace d1 = trace d ++ [(now d, EPrint line)]
    /\ same_config d d1.
Proof.
  unfold same_config. run. simpl. eexists. split; [reflexivity|]. simpl. auto 10.
Qed.

Lemma bind_ok {A B} (m : M A) (k : A -> M B) (d d1 : device) (a : A) :
  m d = (Ok a, d1) -> bind m k d = k a d1.
Proof. intro E. unfold bind. now rewrite E. Qed.

Lemma bind_raise {A B} (m : M A) (k : A -> M B) (d d1 : device) (e : exn) :
  m d = (Raise e, d1) -> bind m k d = (Raise e, d1).
Proof. intro E. unfold bind. now rewrite E. Qed.

Lemma same_config_trans d d1 d2 :
  same_config d d1 -> same_config d1 d2 -> same_config d d2.
Proof.
  unfold same_config. intros (A & B & C & D) (A' & B' & C' & D').
  repeat split; congruence.
Qed.

Lemma serial_query_spec (cmd : bytes) (d : device) res t rest :
  SerialDevice.poll (timeout d) (now d) (now d) (rx d) = (res, t, rest) ->
  exists d2,
    SerialDevice.query cmd d
    = (match res with Some r => Ok r | None => Raise Blocked end, d2)
    /\ now d2 = t
    /\ rx d2 = rest
    /\ port_open d2 = true
    /\ trace d2 = trace d ++ opening d ++ [(now d, ETx (cmd ++ nl)%string)]
    /\ same_config d d2.
Proof.
  intro Hp.
  destruct (write_spec cmd nl d) as (d1 & Ew & Hnow & Hrx & Hpo & Htr & Hcfg).
  assert (Hcfg1 := Hcfg). destruct Hcfg1 as (Htmo & _).
  rewrite <- Htmo, <- Hnow, <- Hrx in Hp.
  destruct (read_spec d1 res t rest Hp)
    as (d2 & Er & Hnow2 & Hrx2 & Hpo2 & Htr2 & Hcfg2).
  exists d2. unfold SerialDevice.query. rewrite (bind_ok _ _ _ _ _ Ew), Er.
  repeat split; try assumption.
  - rewrite Htr2, Htr.
    replace (opening d1) with (@nil (Q * event))
      by (unfold opening; now rewrite Hpo).
    now rewrite app_nil_r.
  - exact (proj1 (same_config_trans d d1 d2 Hcfg Hcfg2)).
  - apply (same_config_trans d d1 d2 Hcfg Hcfg2).
  - apply (same_config_trans d d1 d2 Hcfg Hcfg2).
  - apply (same_config_trans d d1 d2 Hcfg Hcfg2).
Qed.

Lemma throttle_spec (d : device) :
  exists d0,
    (if Qltb 0 (min_query_interval_s d - (now d - last_query_time_s d))
     then sleep (min_query_interval_s d - (now d - last_query_time_s d))
     else ret tt) d = (Ok tt, d0)
    /\ now d0 = transmit_time d
    /\ rx d0 = rx d
    /\ port_open d0 = port_open d
    /\ trace d0 = trace d ++ map (fun e => (now d, e)) (throttling d)
    /\ same_config d d0.
Proof.
  unfold transmit_time, throttling.
  destruct (Qltb 0 _).
  - destruct (sleep_spec (min_query_interval_s d - (now d - last_query_time_s d)) d)
      as (d0 & E & H). exists d0. split; [exact E|]. exact H.
  - exists d. unfold same_config. rewrite app_nil_r. repeat split.
Qed.

(** One attempt of [query], in terms of what the polling loop yields at
    the time of the transmission. *)
Lemma query_attempt (depth : nat) (code : string) (retry : bool) (d : device) :
  match SerialDevice.poll (timeout d) (transmit_time d) (transmit_time d) (rx d) with
  | (None, t', rest') =>
      exists d',
        MTD415TDevice.query (S depth) code retry d = (Raise Blocked, d')
        /\ trace d' = trace d ++ attempt_prefix code d
        /\ now d' = t' /\ rx d' = rest'
        /\ same_config d d'
  | (Some result, t', rest') =>
      if retry && retryable result then
        exists d1,
          MTD415TDevice.query (S depth) code retry d
          = MTD415TDevice.query depth code true d1
          /\ trace d1 = trace d ++ attempt_prefix code d ++ [(t', ESleep 0.1)]
          /\ now d1 = t' + 0.1 /\ rx d1 = rest'
          /\ port_open d1 = true
          /\ last_query_time_s d1 = t'
          /\ timeout d1 = timeout d
          /\ _auto_save d1 = _auto_save d
          /\ min_query_interval_s d1 = min_query_interval_s d
      else
        exists d',
          MTD415TDevice.query (S depth) code retry d = (Ok result, d')
          /\ trace d' = trace d ++ attempt_prefix code d
          /\ now d' = t' /\ rx d' = rest'
          /\ port_open d' = true
          /\ last_query_time_s d' = t'
          /\ timeout d' = timeout d
          /\ _auto_save d' = _auto_save d
          /\ min_query_interval_s d' = min_query_interval_s d
  end.
Proof.
  destruct (SerialDevice.poll (timeout d) (transmit_time d) (transmit_time d)
              (rx d)) as [[res t'] rest'] eqn:Hp.
  destruct (throttle_spec d) as (d0 & E0 & Hnow0 & Hrx0 & Hpo0 & Htr0 & Hcfg0).
  assert (Hcfg0' := Hcfg0). destruct Hcfg0' as (Htmo0 & Hau0 & Hmin0 & Hlast0).
  rewrite <- Htmo0, <- Hnow0, <- Hrx0 in Hp.
  destruct (serial_query_spec (code ++ "?") d0 res t' rest' Hp)
    as (d2 & E2 & Hnow2 & Hrx2 & Hpo2 & Htr2 & Htmo2 & Hau2 & Hmin2 & Hlast2).
  assert (Hprefix : trace d2 = trace d ++ attempt_prefix code d).
  { rewrite Htr2, Htr0. unfold attempt_prefix, opening, query_command.
    rewrite Hpo0, Hnow0, <- !app_assoc, append_assoc. reflexivity. }
  cbn [MTD415TDevice.query bind gets modify ret SerialDevice.query].
  rewrite (bind_ok _ _ _ _ _ E0).
  destruct res as [result|].
  - rewrite (bind_ok _ _ _ _ _ E2).
    unfold gets at 1. unfold bind at 1. unfold modify at 1. unfold bind at 1.
    change (match result with
            | Some line => String.eqb line ("unknown command" ++ nl)
            | None => true
            end) with (retryable result).
    destruct (retry && retryable result).
    + destruct (sleep_spec 0.1 (with_last_query_time_s (now d2) d2))
        as (d3 & E3 & Hnow3 & Hrx3 & Hpo3 & Htr3 & Htmo3 & Hau3 & Hmin3 & Hlast3).
      simpl in Hnow3, Hrx3, Hpo3, Htr3, Htmo3, Hau3, Hmin3, Hlast3.
      exists d3. rewrite (bind_ok _ _ _ _ _ E3).
      split; [reflexivity|].
      rewrite Htr3, Hprefix, Hnow2, <- app_assoc.
      repeat split; congruence.
    + exists (with_last_query_time_s (now d2) d2). split; [reflexivity|].
      simpl. repeat split; congruence.
  - rewrite (bind_raise _ _ _ _ _ E2). exists d2.
    split; [reflexivity|]. split; [exact Hprefix|].
    split; [exact Hnow2|]. split; [exact Hrx2|].
    apply (same_config_trans d d0 d2 Hcfg0).
    unfold same_config. auto.
Qed.

Lemma effects_attempt_prefix code d :
  effects (attempt_prefix code d)
  = throttling d ++ effects (opening d) ++ [ETx (query_command code)].
Proof.
  unfold attempt_prefix, effects, opening. rewrite !map_app, map_map. simpl.
  rewrite map_id. destruct (port_open d); reflexivity.
Qed.

Lemma wire_attempt_prefix code d :
  wire (attempt_prefix code d) = [query_command code].
Proof.
  unfold attempt_prefix, throttling. rewrite !wire_app.
  destruct (Qltb 0 _); destruct (port_open d); reflexivity.
Qed.

(** One step of [query]. *)
Lemma query_step (depth : nat) (code : string) (retry : bool) (d : device) :
  match SerialDevice.poll (timeout d) (transmit_time d) (transmit_time d) (rx d) with
  | (None, t', rest') =>
      exists d',
        MTD415TDevice.query (S depth) code retry d = (Raise Blocked, d')
        /\ trace d' = trace d ++ attempt_prefix code d
        /\ now d' = t' /\ rx d' = rest'
        /\ min_query_interval_s d' = min_query_interval_s d
  | (Some result, t', rest') =>
      if retry && retryable result then
        exists d1,
          MTD415TDevice.query (S depth) code retry d
          = MTD415TDevice.query depth code true d1
          /\ trace d1 = trace d ++ attempt_prefix code d ++ [(t', ESleep 0.1)]
          /\ now d1 = t' + 0.1 /\ rx d1 = rest'
          /\ min_query_interval_s d1 = min_query_interval_s d
      else
        exists d',
          MTD415TDevice.query (S depth) code retry d = (Ok result, d')
          /\ trace d' = trace d ++ attempt_prefix code d
          /\ now d' = t' /\ rx d' = rest'
          /\ min_query_interval_s d' = min_query_interval_s d
          /\ last_query_time_s d' = t'
  end.
Proof.
  assert (A := query_attempt depth code retry d).
  destruct (SerialDevice.poll (timeout d) (transmit_time d) (transmit_time d)
              (rx d)) as [[[result|] t'] rest'].
  - destruct (retry && retryable result).
    + destruct A as (d1 & E & Htr & Hnow & Hrx & _ & _ & _ & _ & Hmin).
      exists d1. auto.
    + destruct A as (d' & E & Htr & Hnow & Hrx & _ & Hlast & _ & _ & Hmin).
      exists d'. auto 10.
  - destruct A as (d' & E & Htr & Hnow & Hrx & _ & _ & Hmin & _).
    exists d'. auto.
Qed.

(** A reply that is not retried: one attempt, and the reply is returned. *)
Lemma query_once (limit : nat) (code : string) (retry : bool) (d : device)
    dt line rest :
  rx d = (dt, Some line) :: rest ->
  in_time (timeout d) dt ->
  retry = false \/ line <> unknown_command ->
  exists d',
    MTD415TDevice.query (S limit) code retry d = (Ok (Some line), d')
    /\ rx d' = rest
    /\ timeout d' = timeout d
    /\ _auto_save d' = _auto_save d
    /\ min_query_interval_s d' = min_query_interval_s d
    /\ last_query_time_s d' = now d'
    /\ effects (trace d')
       = effects (trace d) ++ throttling d ++ effects (opening d)
           ++ [ETx (query_command code)]
    /\ wire (trace d') = wire (trace d) ++ [query_command code].
Proof.
  intros Hrx Hin Hok.
  assert (B : retry && retryable (Some line) = false).
  { destruct Hok as [->|Hne]; [reflexivity|].
    apply andb_false_iff. right. apply String.eqb_neq. exact Hne. }
  assert (A := query_attempt limit code retry d).
  rewrite Hrx in A. cbn [SerialDevice.poll] in A.
  rewrite (timed_out_in_time _ _ _ Hin), B in A.
  destruct A as (d' & E & Htr & Hnow & Hrx' & _ & Hlast & Htmo & Hau & Hmin).
  exists d'. repeat split; try assumption.
  - congruence.
  - rewrite Htr. unfold effects at 1. rewrite map_app.
    fold (effects (trace d)). fold (effects (attempt_prefix code d)).
    now rewrite effects_attempt_prefix.
  - now rewrite Htr, wire_app, wire_attempt_prefix.
Qed.

(** A failing reply under [retry]: the attempt is followed by a wait of
    100 ms and a nested call. *)
Lemma query_retry_step (depth : nat) (code : string) (d : device) item rest :
  rx d = item :: rest ->
  failing (timeout d) item ->
  exists d1,
    MTD415TDevice.query (S depth) code true d
    = MTD415TDevice.query depth code true d1
    /\ rx d1 = rest
    /\ timeout d1 = timeout d
    /\ port_open d1 = true
    /\ min_query_interval_s d1 = min_query_interval_s d
    /\ now d1 = last_query_time_s d1 + 0.1
    /\ effects (trace d1)
       = effects (trace d) ++ throttling d ++ effects (opening d)
           ++ [ETx (query_command code); ESleep 0.1]
    /\ wire (trace d1) = wire (trace d) ++ [query_command code].
Proof.
  intros Hrx Hfail. destruct item as [dt payload].
  assert (A := query_attempt depth code true d).
  rewrite Hrx in A. cbn [SerialDevice.poll] in A.
  assert (G : exists d1 t',
             MTD415TDevice.query (S depth) code true d
             = MTD415TDevice.query depth code true d1
             /\ trace d1 = trace d ++ attempt_prefix code d ++ [(t', ESleep 0.1)]
             /\ now d1 = t' + 0.1 /\ rx d1 = rest
             /\ port_open d1 = true
             /\ last_query_time_s d1 = t'
             /\ timeout d1 = timeout d
             /\ _auto_save d1 = _auto_save d
             /\ min_query_interval_s d1 = min_query_interval_s d).
  { destruct Hfail as [Hlate | [Hin Hpay]]; simpl in *.
    - rewrite (timed_out_too_late _ _ _ Hlate) in A. cbn in A.
      destruct A as (d1 & A). eauto.
    - subst payload. rewrite (timed_out_in_time _ _ _ Hin) in A.
      replace (true && retryable (Some unknown_command)) with true in A
        by reflexivity.
      destruct A as (d1 & A). eauto. }
  destruct G as (d1 & t' & E & Htr & Hnow & Hrx' & Hpo & Hlast & Htmo & Hau & Hmin).
  exists d1. repeat split; try assumption.
  - congruence.
  - rewrite Htr. unfold effects at 1. rewrite !map_app.
    fold (effects (trace d)). fold (effects (attempt_prefix code d)).
    rewrite effects_attempt_prefix, <- !app_assoc. reflexivity.
  - rewrite Htr, !wire_app, wire_attempt_prefix. simpl.
    now rewrite ?app_nil_r.
Qed.

(* ------------------------------------------------------------------ *)
(** *** Queries and their retries *)

(** Right after the 100 ms wait the throttler has nothing to add. *)
Lemma throttling_after_wait (d : device) :
  now d = last_query_time_s d + 0.1 ->
  min_query_interval_s d <= 0.1 ->
  throttling d = [].
Proof.
  intros Hnow Hmin. unfold throttling. rewrite Hnow.
  replace (Qltb _ _) with false; [reflexivity|].
  symmetry. apply Qltb_false. lra.
Qed.

(** C1 (amended): with retry enabled, [query] repeats the attempt, after
    a wait of 100 ms each time, for as long as the reply is the absent
    value or the line "unknown command": when the device gives [n] such
    replies and then another line, [query] returns that line after
    exactly [n + 1] transmissions of the command, which become 2 only for
    [n = 1]. *)
Theorem query_retries_until_answered :
  forall (fs : list (Q * option bytes)) (code : string) (depth : nat)
         (d : device) dt line rest,
    rx d = fs ++ (dt, Some line) :: rest ->
    Forall (failing (timeout d)) fs ->
    in_time (timeout d) dt ->
    line <> unknown_command ->
    min_query_interval_s d <= 0.1 ->
    (List.length fs < depth)%nat ->
    exists d',
      MTD415TDevice.query depth code true d = (Ok (Some line), d')
      /\ rx d' = rest
      /\ effects (trace d')
         = effects (trace d) ++ throttling d ++ effects (opening d)
             ++ ETx (query_command code) :: retries (List.length fs) code
      /\ wire (trace d')
         = wire (trace d) ++ repeat (query_command code) (S (List.length fs)).
Proof.
  induction fs as [|item fs IH];
    intros code depth d dt line rest Hrx Hfs Hin Hline Hmin Hdepth.
  - destruct depth as [|depth]; [simpl in Hdepth; lia|].
    destruct (query_once depth code true d dt line rest Hrx Hin (or_intror Hline))
      as (d' & Hq & Hr & _ & _ & _ & _ & He & Hw).
    exists d'. simpl. auto.
  - destruct depth as [|depth]; [simpl in Hdepth; lia|].
    inversion Hfs as [|? ? Hitem Hfs']; subst.
    destruct (query_retry_step depth code d item _ Hrx Hitem)
      as (d1 & Hq & Hr1 & Ht1 & Hp1 & Hm1 & Hn1 & He1 & Hw1).
    rewrite <- Ht1 in Hfs', Hin. rewrite <- Hm1 in Hmin.
    destruct (IH code depth d1 dt line rest Hr1 Hfs' Hin Hline Hmin)
      as (d' & Hq' & Hr' & He' & Hw').
    { simpl in Hdepth. lia. }
    exists d'. rewrite Hq. split; [exact Hq'|]. split; [exact Hr'|].
    rewrite He', Hw', He1, Hw1.
    rewrite (throttling_after_wait d1 Hn1 Hmin).
    unfold opening. rewrite Hp1. unfold retries. simpl.
    rewrite <- !app_assoc. simpl. auto.
Qed.

Lemma query_retries_until_answered_witness :
  exists d',
    MTD415TDevice.query 3 "L" true
      (bench false [prompt "unknown command"; silence; prompt "500"])
    = (Ok (Some ("500" ++ nl)%string), d')
    /\ rx d' = []
    /\ effects (trace d')
       = [] ++ [ESleep (0.01 - (0 - 0))] ++ []
           ++ ETx (query_command "L") :: retries 2 "L"
    /\ wire (trace d') = [] ++ repeat (query_command "L") 3.
Proof.
  apply (query_retries_until_answered
           [prompt "unknown command"; silence] "L" 3
           (bench false [prompt "unknown command"; silence; prompt "500"])
           0.001 ("500" ++ nl)%string []).
  - reflexivity.
  - apply Forall_cons; [|apply Forall_cons; [|apply Forall_nil]].
    + right. split; [simpl; lra | reflexivity].
    + left. simpl. lra.
  - simpl. lra.
  - discriminate.
  - simpl. lra.
  - simpl. lia.
Defined.

(** C1 (counterexample): a device that answers "unknown command" twice
    before it answers "500" is asked three times by one retrying query,
    not at most twice. *)
Lemma query_retry_exceeds_two_attempts :
  fst (MTD415TDevice.query 10 "L" true stubborn_device)
  = Ok (Some ("500" ++ nl)%string)
  /\ wire (trace (snd (MTD415TDevice.query 10 "L" true stubborn_device)))
     = [query_command "L"; query_command "L"; query_command "L"]
  /\ ~ (List.length
         (wire (trace (snd (MTD415TDevice.query 10 "L" true stubborn_device))))
       <= 2)%nat.
Proof.
  vm_compute. repeat split. lia.
Qed.

(* ------------------------------------------------------------------ *)
(** *** Throttling *)

Lemma poll_progress tmo start : forall script t r t' rest,
  causal script ->
  SerialDevice.poll tmo start t script = (r, t', rest) ->
  t <= t' /\ causal rest.
Proof.
  induction script as [|[dt payload] script IH]; intros t r t' rest Hc Hp;
    simpl in Hp.
  - inversion Hp; subst. split; [lra | constructor].
  - inversion Hc as [|? ? Hdt Hc']; subst. simpl in Hdt.
    destruct (SerialDevice.timed_out tmo start (t + dt)).
    + inversion Hp; subst. split; [lra | assumption].
    + destruct payload as [line|].
      * inversion Hp; subst. split; [lra | assumption].
      * destruct (IH _ _ _ _ Hc' Hp) as [Ht Hr]. split; [lra | assumption].
Qed.

Lemma transmit_time_after_now d : now d <= transmit_time d.
Proof.
  unfold transmit_time.
  destruct (Qltb 0 _) eqn:E; [apply Qltb_true in E|]; lra.
Qed.

Lemma transmit_time_after_interval d :
  last_query_time_s d + min_query_interval_s d <= transmit_time d.
Proof.
  unfold transmit_time.
  destruct (Qltb 0 _) eqn:E; [apply Qltb_true in E | apply Qltb_false in E]; lra.
Qed.

Lemma stamped_between_weaken lo hi lo' hi' tr :
  lo' <= lo -> hi <= hi' -> stamped_between lo hi tr -> stamped_between lo' hi' tr.
Proof.
  intros Hlo Hhi H. unfold stamped_between in *.
  eapply Forall_impl; [|exact H]. simpl. intros te [A B]. split; lra.
Qed.

Lemma attempt_prefix_stamps code d :
  stamped_between (now d) (transmit_time d) (attempt_prefix code d).
Proof.
  assert (A := transmit_time_after_now d).
  unfold attempt_prefix, stamped_between, throttling.
  apply Forall_app; split; [|apply Forall_app; split].
  - destruct (Qltb 0 _); simpl; repeat constructor; simpl; lra.
  - destruct (port_open d); repeat constructor; simpl; lra.
  - repeat constructor; simpl; lra.
Qed.

Lemma attempt_prefix_tx code d t b :
  In (t, ETx b) (attempt_prefix code d) -> t = transmit_time d.
Proof.
  unfold attempt_prefix, throttling. rewrite !in_app_iff.
  intros [H | [H | H]].
  - destruct (Qltb 0 _); simpl in H; [destruct H as [H|[]]|destruct H];
      inversion H.
  - destruct (port_open d); simpl in H; [destruct H|destruct H as [H|[]]];
      inversion H.
  - destruct H as [H|[]]. inversion H. reflexivity.
Qed.

(** What a query does to the clock and to the trace. *)
Lemma query_progress : forall depth code retry d o d',
  causal (rx d) ->
  MTD415TDevice.query depth code retry d = (o, d') ->
  now d <= now d'
  /\ causal (rx d')
  /\ min_query_interval_s d' = min_query_interval_s d
  /\ (forall x, o = Ok x -> last_query_time_s d' = now d')
  /\ exists new,
       trace d' = trace d ++ new
       /\ stamped_between (now d) (now d') new
       /\ forall t b, In (t, ETx b) new ->
                      last_query_time_s d + min_query_interval_s d <= t.
Proof.
  induction depth as [|depth IH]; intros code retry d o d' Hc Hq.
  - simpl in Hq. inversion Hq; subst.
    repeat split; try lra; try assumption; try discriminate.
    exists []. rewrite app_nil_r. repeat split; [constructor | intros ? ? []].
  - assert (Hstep := query_step depth code retry d).
    assert (A := transmit_time_after_now d).
    assert (B := transmit_time_after_interval d).
    assert (P := attempt_prefix_stamps code d).
    destruct (SerialDevice.poll (timeout d) (transmit_time d) (transmit_time d)
                (rx d)) as [[result t'] rest'] eqn:Hp.
    destruct (poll_progress _ _ _ _ _ _ _ Hc Hp) as [Ht Hrest].
    destruct result as [result|].
    + destruct (retry && retryable result).
      * destruct Hstep as (d1 & E & Htr & Hnow & Hrx & Hmin).
        rewrite E in Hq. rewrite <- Hrx in Hrest.
        destruct (IH _ _ _ _ _ Hrest Hq)
          as (N & C & M' & L & new & Htr' & Hst & Htx).
        rewrite Hnow in *.
        repeat split; try lra; try assumption; try congruence.
        exists (attempt_prefix code d ++ [(t', ESleep 0.1)] ++ new).
        rewrite Htr', Htr, <- !app_assoc. split; [reflexivity|]. split.
        -- unfold stamped_between in *.
           apply Forall_app; split; [|apply Forall_app; split].
           ++ eapply stamped_between_weaken; [| |exact P]; lra.
           ++ repeat constructor; simpl; lra.
           ++ eapply stamped_between_weaken; [| |exact Hst]; lra.
        -- intros t b Hin. rewrite !in_app_iff in Hin.
           destruct Hin as [Hin | [Hin | Hin]].
           ++ apply attempt_prefix_tx in Hin. subst. exact B.
           ++ destruct Hin as [Hin|[]]. inversion Hin.
           ++ unfold stamped_between in Hst. rewrite Forall_forall in Hst.
              specialize (Hst _ Hin). simpl in Hst. lra.
      * destruct Hstep as (d'' & E & Htr & Hnow & Hrx & Hmin & Hlast).
        rewrite E in Hq. inversion Hq; subst o d''. rewrite Hnow, Hrx.
        repeat split; try lra; try assumption; try (intros; assumption).
        exists (attempt_prefix code d). split; [assumption|]. split.
        -- eapply stamped_between_weaken; [| |exact P]; lra.
        -- intros t b Hin. apply attempt_prefix_tx in Hin. subst. exact B.
    + destruct Hstep as (d'' & E & Htr & Hnow & Hrx & Hmin).
      rewrite E in Hq. inversion Hq; subst o d''. rewrite Hnow, Hrx.
      repeat split; try lra; try assumption; try discriminate.
      exists (attempt_prefix code d). split; [assumption|]. split.
      -- eapply stamped_between_weaken; [| |exact P]; lra.
      -- intros t b Hin. apply attempt_prefix_tx in Hin. subst. exact B.
Qed.

(** A query starts with its throttling delay, the implicit opening of
    the port and the transmission of the command. *)
Lemma query_starts_with_attempt depth code retry d o d' :
  causal (rx d) ->
  MTD415TDevice.query (S depth) code retry d = (o, d') ->
  exists tail, trace d' = trace d ++ attempt_prefix code d ++ tail.
Proof.
  intros Hc Hq.
  assert (Hstep := query_step depth code retry d).
  destruct (SerialDevice.poll (timeout d) (transmit_time d) (transmit_time d)
              (rx d)) as [[result t'] rest'] eqn:Hp.
  destruct (poll_progress _ _ _ _ _ _ _ Hc Hp) as [Ht Hrest].
  destruct result as [result|].
  - destruct (retry && retryable result).
    + destruct Hstep as (d1 & E & Htr & Hnow & Hrx & Hmin).
      rewrite E in Hq. rewrite <- Hrx in Hrest.
      destruct (query_progress _ _ _ _ _ _ Hrest Hq)
        as (_ & _ & _ & _ & new & Htr' & _).
      exists ([(t', ESleep 0.1)] ++ new).
      rewrite Htr', Htr, <- !app_assoc. reflexivity.
    + destruct Hstep as (d'' & E & Htr & _).
      rewrite E in Hq. inversion Hq; subst. exists []. now rewrite app_nil_r.
  - destruct Hstep as (d'' & E & Htr & _).
    rewrite E in Hq. inversion Hq; subst. exists []. now rewrite app_nil_r.
Qed.

(** C7: a query first blocks for [min_query_interval_s - (now -
    last_query_time_s)] seconds when that is positive and only then
    transmits; when it returns, [last_query_time_s] is the current time;
    hence every transmission of a query that is issued right after
    another one has returned comes at least [min_query_interval_s] after
    every transmission of that one.  The clock is the model's: a sleep
    advances it by its argument and no scripted read takes a negative
    time. *)
Theorem queries_are_throttled :
  forall depth1 code1 retry1 depth2 code2 retry2 d x d1 o2 d2,
    causal (rx d) ->
    MTD415TDevice.query (S depth1) code1 retry1 d = (Ok x, d1) ->
    MTD415TDevice.query (S depth2) code2 retry2 d1 = (o2, d2) ->
    (exists tail, trace d1 = trace d ++ attempt_prefix code1 d ++ tail)
    /\ last_query_time_s d1 = now d1
    /\ exists new1 new2,
         trace d1 = trace d ++ new1
         /\ trace d2 = trace d1 ++ new2
         /\ forall t1 b1 t2 b2,
              In (t1, ETx b1) new1 -> In (t2, ETx b2) new2 ->
              t1 + min_query_interval_s d <= t2.
Proof.
  intros depth1 code1 retry1 depth2 code2 retry2 d x d1 o2 d2 Hc H1 H2.
  destruct (query_progress _ _ _ _ _ _ Hc H1)
    as (N1 & C1 & M1 & L1 & new1 & T1 & S1 & _).
  destruct (query_progress _ _ _ _ _ _ C1 H2)
    as (_ & _ & _ & _ & new2 & T2 & _ & X2).
  split; [exact (query_starts_with_attempt _ _ _ _ _ _ Hc H1)|].
  specialize (L1 x eq_refl). split; [exact L1|].
  exists new1, new2. repeat split; try assumption.
  intros t1 b1 t2 b2 I1 I2.
  specialize (X2 _ _ I2). rewrite L1, M1 in X2.
  unfold stamped_between in S1. rewrite Forall_forall in S1.
  specialize (S1 _ I1). simpl in S1. lra.
Qed.

Lemma queries_are_throttled_witness :
  (exists tail,
      trace after_first_query
      = trace two_line_device ++ attempt_prefix "L" two_line_device ++ tail)
  /\ last_query_time_s after_first_query = now after_first_query
  /\ exists new1 new2,
       trace after_first_query = trace two_line_device ++ new1
       /\ trace after_second_query = trace after_first_query ++ new2
       /\ forall t1 b1 t2 b2,
            In (t1, ETx b1) new1 -> In (t2, ETx b2) new2 ->
            t1 + min_query_interval_s two_line_device <= t2.
Proof.
  apply (queries_are_throttled 0 "L" true 0 "T" true two_line_device
           (Some ("500" ++ nl)%string) after_first_query
           (Ok (Some ("22" ++ nl)%string)) after_second_query).
  - repeat constructor; simpl; lra.
  - vm_compute. reflexivity.
  - vm_compute. reflexivity.
Defined.

(* ------------------------------------------------------------------ *)
(** *** Validation in the setters *)

Lemma range_check_passes (x lo hi : Q) :
  lo <= x -> x <= hi -> Qltb x lo || Qltb hi x = false.
Proof.
  intros A B. apply orb_false_iff. split; apply Qltb_false; assumption.
Qed.


Lemma trunc_inject_Z (z : Z) : Py.trunc (inject_Z z) = z.
Proof. unfold Py.trunc. simpl. apply Z.quot_1_r. Qed.

(** A value that passes the validation of a setter is handed to [set]
    as the wire integer, under the setting's wire code. *)
Lemma setter_calls_set (s : setting) (v : pyval) (x : Q) (d : device) :
  accepted s v x ->
  setter s v d = MTD415TDevice.set (setting_code s) (PyInt (wire_integer s x)) d.
Proof.
  intros (Hv & Hlo & Hhi).
  destruct s, v; simpl in Hv; inversion Hv; subst; clear Hv;
    unfold setter, MTD415TDevice.tec_current_limit_set,
      MTD415TDevice.temp_setpoint_set, MTD415TDevice.status_temp_window_set,
      MTD415TDevice.status_delay_set, MTD415TDevice.critical_gain_set,
      MTD415TDevice.critical_period_set, MTD415TDevice.cycling_time_set,
      MTD415TDevice.p_gain_set, MTD415TDevice.i_gain_set,
      MTD415TDevice.d_gain_set, MTD415TDevice.scaled_setter,
      helpers.validate_is_float_or_int, helpers.validate_is_in_range,
      valid_min, valid_max, checked_number in *;
    unfold Py.int, bind, ret, wire_integer; cbn [Py.number];
    rewrite ?trunc_inject_Z in *;
    rewrite range_check_passes by assumption; reflexivity.
Qed.




(* ------------------------------------------------------------------ *)
(** *** The rendering of a byte string *)

Lemma literal_body_byte (quote c : ascii) (rest : string) :
  quote = Py.single_quote \/ quote = Py.double_quote ->
  literal_body quote (Py.repr_byte quote c ++ rest)
  = option_map (String c) (literal_body quote rest).
Proof.
  intros [-> | ->]; destruct c as [[] [] [] [] [] [] [] []]; reflexivity.
Qed.

Lemma literal_body_repr (quote : ascii) (b : bytes) :
  quote = Py.single_quote \/ quote = Py.double_quote ->
  literal_body quote (Py.repr_body quote b ++ String quote EmptyString)
  = Some b.
Proof.
  intro Hq. induction b as [|c b IH].
  - destruct Hq as [-> | ->]; reflexivity.
  - cbn [Py.repr_body]. rewrite append_assoc, (literal_body_byte _ _ _ Hq), IH.
    reflexivity.
Qed.

(** [str] of a byte string loses nothing: the text can be read back
    from the literal. *)
Lemma bytes_of_literal_str_bytes (b : bytes) :
  bytes_of_literal (Py.str_bytes b) = Some b.
Proof.
  unfold Py.str_bytes, bytes_of_literal.
  change (Ascii.eqb "b" "b") with true. cbv iota.
  apply literal_body_repr. unfold Py.repr_quote.
  destruct (_ && _); auto.
Qed.

Lemma plain_no_quote (b : bytes) :
  plain b = true -> Py.contains Py.single_quote b = false.
Proof.
  unfold plain. induction b as [|c b IH]; [reflexivity|].
  cbn [list_ascii_of_string forallb Py.contains]. intro H.
  apply andb_true_iff in H. destruct H as [Hc Hb]. rewrite (IH Hb).
  unfold plain_byte in Hc. apply andb_true_iff in Hc.
  destruct Hc as [Hc _]. apply andb_true_iff in Hc. destruct Hc as [_ Hc].
  apply negb_true_iff in Hc. now rewrite Hc.
Qed.

Lemma repr_body_plain (b : bytes) :
  plain b = true -> Py.repr_body Py.single_quote b = b.
Proof.
  unfold plain. induction b as [|c b IH]; [reflexivity|].
  cbn [list_ascii_of_string forallb Py.repr_body]. intro H.
  apply andb_true_iff in H. destruct H as [Hc Hb]. rewrite (IH Hb).
  destruct c as [[] [] [] [] [] [] [] []]; try discriminate Hc; reflexivity.
Qed.

(** Plain text is rendered between [b'] and ['] as it is. *)
Lemma str_bytes_plain (b : bytes) :
  plain b = true -> Py.str_bytes b = ("b'" ++ b ++ "'")%string.
Proof.
  intro H. unfold Py.str_bytes, Py.repr_quote.
  rewrite (plain_no_quote b H). cbn [andb].
  rewrite (repr_body_plain b H). reflexivity.
Qed.

Lemma plain_digits (u : Decimal.uint) :
  plain (NilEmpty.string_of_uint u) = true.
Proof. induction u; [reflexivity|..]; exact IHu. Qed.

Lemma plain_nilzero (u : Decimal.uint) :
  plain (NilZero.string_of_uint u) = true.
Proof.
  destruct u; [reflexivity|..];
    match goal with
    | |- plain (NilZero.string_of_uint ?v) = true => exact (plain_digits v)
    end.
Qed.

Lemma plain_format_d (n : Z) : plain (Py.format_d n) = true.
Proof.
  unfold Py.format_d.
  destruct n as [|p|p]; [reflexivity|..]; cbn [Z.to_int NilZero.string_of_int].
  - apply plain_nilzero.
  - change (plain (String "-" (NilZero.string_of_uint (Pos.to_uint p))))
      with (plain_byte "-"
            && plain (NilZero.string_of_uint (Pos.to_uint p))).
    now rewrite plain_nilzero.
Qed.

(** A text with an apostrophe is rendered in double quotes, a line
    break and a byte above 127 as escapes. *)
Example str_bytes_ex :
  Py.str_bytes "can't"
  = ("b" ++ String Py.double_quote "can't" ++ String Py.double_quote "")%string
  /\ Py.str_bytes ("a" ++ nl ++ String "255" "")
     = ("b'a" ++ String Py.backslash "n" ++ String Py.backslash "xff'")%string
  /\ Py.str_bytes "value out of range (200...2000 mA)"
     = "b'value out of range (200...2000 mA)'"%string.
Proof. repeat split. Qed.

(* ------------------------------------------------------------------ *)
(** *** Confirmation of a set command: mismatch *)

Lemma print_dump_log_spec (d : device) :
  exists d1,
    SerialDevice.print_dump_log d = (Ok tt, d1)
    /\ _log d1 = _log d
    /\ trace d1
       = trace d
           ++ [(now d, EPrint "------- MTD415 COMMUNICATION LOG DUMP ---------");
               (now d, EPrintLog (_log d));
               (now d, EPrint "--------- COMMUNICATION LOG DUMP END ----------")].
Proof.
  run. simpl. eexists. split; [reflexivity|]. simpl.
  rewrite <- !app_assoc. auto.
Qed.

(** C4: when the confirmation line is present and its stripped text
    differs from the decimal form of the integer sent, [set] prints the
    log dump and raises a [ValueError] whose message ends with the
    device's text as [str] renders a byte string: the text can be read
    back from the rendering, and plain text stands in the message as it
    is, between [b'] and ['].  The command is transmitted once and
    nothing follows the dump; a property setter that accepted a float
    or an integer yields exactly what [set] yields for the integer it
    sends, so the error reaches its caller. *)
Theorem set_reports_mismatch :
  forall (code : string) (value : Z) (d : device) line t rest,
    SerialDevice.poll (timeout d) (now d) (now d) (rx d)
    = (Some (Some line), t, rest) ->
    Py.strip line <> Py.format_d value ->
    (exists d',
        MTD415TDevice.set code (PyInt value) d
        = (Raise (ValueError ("Device reported an error in '" ++ code
                                ++ "' setting to " ++ Py.str_bytes (Py.format_d value)
                                ++ ", error: " ++ Py.str_bytes (Py.strip line))),
           d')
        /\ trace d'
           = trace d ++ opening d
               ++ [(now d, ETx (code ++ Py.format_d value ++ nl)%string);
                   (t, EPrint "------- MTD415 COMMUNICATION LOG DUMP ---------");
                   (t, EPrintLog (_log d'));
                   (t, EPrint "--------- COMMUNICATION LOG DUMP END ----------")])
    /\ bytes_of_literal (Py.str_bytes (Py.strip line)) = Some (Py.strip line)
    /\ (plain (Py.strip line) = true ->
        fst (MTD415TDevice.set code (PyInt value) d)
        = Raise (ValueError ("Device reported an error in '" ++ code
                               ++ "' setting to b'" ++ Py.format_d value
                               ++ "', error: b'" ++ Py.strip line ++ "'")))
    /\ forall s v x,
         Py.binary64 x ->
         accepted s v x -> setting_code s = code -> wire_integer s x = value ->
         setter s v d = MTD415TDevice.set code (PyInt value) d.
Proof.
  intros code value d line t rest Hp Hne.
  assert (Hset : exists d',
        MTD415TDevice.set code (PyInt value) d
        = (Raise (ValueError ("Device reported an error in '" ++ code
                                ++ "' setting to " ++ Py.str_bytes (Py.format_d value)
                                ++ ", error: " ++ Py.str_bytes (Py.strip line))),
           d')
        /\ trace d'
           = trace d ++ opening d
               ++ [(now d, ETx (code ++ Py.format_d value ++ nl)%string);
                   (t, EPrint "------- MTD415 COMMUNICATION LOG DUMP ---------");
                   (t, EPrintLog (_log d'));
                   (t, EPrint "--------- COMMUNICATION LOG DUMP END ----------")]).
  { apply String.eqb_neq in Hne.
    destruct (write_spec (code ++ Py.format_d value) nl d)
      as (d1 & E1 & Hnow1 & Hrx1 & Hpo1 & Htr1 & Htmo1 & _).
    rewrite <- Htmo1, <- Hnow1, <- Hrx1 in Hp.
    destruct (read_spec d1 _ _ _ Hp) as (d2 & E2 & Hnow2 & Hrx2 & Hpo2 & Htr2 & _).
    destruct (print_dump_log_spec d2) as (d3 & E3 & Hlog3 & Htr3).
    exists d3. unfold MTD415TDevice.set, MTD415TDevice.write. cbn [Py.int].
    rewrite (bind_ok _ _ d d value eq_refl).
    rewrite (bind_ok _ _ _ _ _ E1), (bind_ok _ _ _ _ _ E2).
    rewrite (bind_ok _ _ d2 d2 (Some (Py.strip line)) eq_refl).
    rewrite Hne. cbn [negb]. rewrite (bind_ok _ _ _ _ _ E3).
    split; [reflexivity|].
    rewrite Htr3, Htr2, Htr1, Hlog3, Hnow2.
    replace (opening d1) with (@nil (Q * event))
      by (unfold opening; now rewrite Hpo1).
    rewrite app_nil_r, <- !app_assoc, append_assoc. reflexivity. }
  split; [exact Hset|].
  split; [apply bytes_of_literal_str_bytes|].
  split.
  - intro Hplain. destruct Hset as (d' & E & _). rewrite E. cbn [fst].
    rewrite (str_bytes_plain _ (plain_format_d value)),
      (str_bytes_plain _ Hplain).
    rewrite !append_assoc. reflexivity.
  - intros s v x _ Ha Hc Hv. subst. apply setter_calls_set. exact Ha.
Qed.

Lemma set_reports_mismatch_witness :
  (exists d',
      MTD415TDevice.set "L" (PyInt 500) (bench false [prompt "invalid command"])
      = (Raise (ValueError
                  "Device reported an error in 'L' setting to b'500', error: b'invalid command'"),
         d')
      /\ trace d'
         = [(0, ETx ("L500" ++ nl)%string);
            (0 + 0.001, EPrint "------- MTD415 COMMUNICATION LOG DUMP ---------");
            (0 + 0.001, EPrintLog (_log d'));
            (0 + 0.001, EPrint "--------- COMMUNICATION LOG DUMP END ----------")])
  /\ bytes_of_literal "b'invalid command'" = Some "invalid command"%string
  /\ setter TecCurrentLimit (PyFloat 0.5) (bench false [prompt "invalid command"])
     = MTD415TDevice.set "L" (PyInt 500) (bench false [prompt "invalid command"]).
Proof.
  destruct (set_reports_mismatch "L" 500 (bench false [prompt "invalid command"])
              ("invalid command" ++ nl)%string (0 + 0.001) [])
    as (Hset & Hback & _ & Hsetter).
  - reflexivity.
  - discriminate.
  - split; [exact Hset|]. split; [exact Hback|].
    apply (Hsetter TecCurrentLimit (PyFloat 0.5) 0.5).
    + split; vm_compute; reflexivity.
    + split; [reflexivity|]. split; vm_compute; discriminate.
    + reflexivity.
    + vm_compute. reflexivity.
Defined.

(* ------------------------------------------------------------------ *)
(** *** The error register *)

Lemma bits_lsb_testbit : forall (p : positive) (n : nat),
  (Zpos p < 2 ^ Z.of_nat n)%Z ->
  map is_one (Py.bits_lsb p) ++ repeat false (n - List.length (Py.bits_lsb p))
  = map (register_bit (Zpos p)) (seq 0 n).
Proof.
  assert (Hshift : forall (f : nat -> bool) n,
             map f (seq 0 (S n)) = f 0%nat :: map (fun i => f (S i)) (seq 0 n)).
  { intros f n. simpl. rewrite <- seq_shift, map_map. reflexivity. }
  assert (Hpos : forall n q, (Zpos q < 2 ^ Z.of_nat n)%Z -> exists n', n = S n').
  { intros [|n'] q H; [simpl in H; lia | eauto]. }
  induction p as [p IH | p IH |]; intros n Hn.
  - destruct (Hpos n _ Hn) as [n' ->].
    rewrite Hshift. simpl Py.bits_lsb. cbn [map List.length Nat.sub app].
    rewrite IH.
    + f_equal. apply map_ext. intro i. unfold register_bit.
      rewrite Nat2Z.inj_succ, Pos2Z.inj_xI.
      apply eq_sym, Z.testbit_odd_succ. lia.
    + rewrite Nat2Z.inj_succ, Z.pow_succ_r in Hn; lia.
  - destruct (Hpos n _ Hn) as [n' ->].
    rewrite Hshift. simpl Py.bits_lsb. cbn [map List.length Nat.sub app].
    rewrite IH.
    + f_equal. apply map_ext. intro i. unfold register_bit.
      rewrite Nat2Z.inj_succ, Pos2Z.inj_xO.
      apply eq_sym, Z.testbit_even_succ. lia.
    + rewrite Nat2Z.inj_succ, Z.pow_succ_r in Hn; lia.
  - destruct (Hpos n _ Hn) as [n' ->].
    rewrite Hshift. simpl Py.bits_lsb. cbn [map List.length Nat.sub app].
    rewrite Nat.sub_0_r. f_equal.
    rewrite (map_ext _ (fun _ => false)).
    + clear. generalize 0%nat. induction n' as [|n' IH]; intro k; simpl;
        [reflexivity | now rewrite <- IH].
    + intro i. unfold register_bit. rewrite Nat2Z.inj_succ.
      destruct (Z.of_nat i) eqn:E; try reflexivity; lia.
Qed.

Lemma bits_lsb_length : forall (p : positive) (n : nat),
  (Zpos p < 2 ^ Z.of_nat n)%Z -> (List.length (Py.bits_lsb p) <= n)%nat.
Proof.
  induction p as [p IH | p IH |]; intros [|n] Hn;
    try (simpl in Hn; lia); simpl; try lia;
    apply le_n_S, IH; rewrite Nat2Z.inj_succ, Z.pow_succ_r in Hn; lia.
Qed.

(** The flag tuple of a 16-bit register value holds its bits, bit 0
    first. *)
Lemma decode_flags (err : Z) :
  (0 <= err < 65536)%Z ->
  map (fun c => Ascii.eqb c "1") (rev (Py.format_016b err))
  = map (register_bit err) (seq 0 16).
Proof.
  intros [Hlo Hhi]. destruct err as [|p|p]; [reflexivity | | lia].
  assert (Hp : (Zpos p < 2 ^ Z.of_nat 16)%Z) by (simpl; lia).
  rewrite <- (bits_lsb_testbit p 16 Hp).
  unfold Py.format_016b.
  replace (Zpos p <? 0)%Z with false by reflexivity.
  cbn [app List.length]. rewrite rev_app_distr, rev_involutive, map_app.
  rewrite length_rev, Nat.sub_0_r. f_equal.
  generalize (16 - List.length (Py.bits_lsb p))%nat. clear.
  induction n as [|n IH]; [reflexivity|].
  simpl. rewrite map_app, IH. simpl.
  clear. induction n as [|n IH]; simpl; [reflexivity | now rewrite IH].
Qed.

(** The loop of [errors] keeps the names whose positions are set, in
    table order. *)
Lemma collect_errors_filter (flags : list bool) : forall table,
  Forall (fun e => (fst e < List.length flags)%nat) table ->
  MTD415TDevice.collect_errors flags table
  = Some (map snd (filter (fun e => nth (fst e) flags false) table)).
Proof.
  induction table as [|[idx name] table IH]; intro H; [reflexivity|].
  inversion H as [|? ? Hidx Htable]; subst. simpl in Hidx. simpl.
  rewrite (IH Htable).
  destruct (nth_error flags idx) as [b|] eqn:E.
  - rewrite (nth_error_nth _ _ false E). destruct b; reflexivity.
  - apply nth_error_None in E. lia.
Qed.

(* ------------------------------------------------------------------ *)
(** *** The characters of an integer literal *)

Lemma chars_cons P c s : chars P (String c s) = P c && chars P s.
Proof. reflexivity. Qed.

Lemma chars_weaken (P R : ascii -> bool) (s : string) :
  (forall c, P c = true -> R c = true) -> chars P s = true -> chars R s = true.
Proof.
  intros HPR. induction s as [|c s IH]; [reflexivity|].
  rewrite !chars_cons. intro H. apply andb_true_iff in H. destruct H as [Hc Hs].
  now rewrite (HPR c Hc), (IH Hs).
Qed.

Lemma uint_of_string_digits (u : string) w :
  NilEmpty.uint_of_string u = Some w -> chars Py.is_digit u = true.
Proof.
  revert w. induction u as [|c u IH]; intros w H; [reflexivity|].
  rewrite chars_cons. cbn [NilEmpty.uint_of_string] in H.
  destruct (NilEmpty.uint_of_string u) as [w'|] eqn:E.
  - rewrite (IH w' eq_refl), andb_true_r.
    destruct c as [[] [] [] [] [] [] [] []]; try discriminate H; reflexivity.
  - destruct c as [[] [] [] [] [] [] [] []]; discriminate H.
Qed.

Lemma ungroup_chars (t u : string) :
  Py.ungroup t = Some u -> chars Py.is_digit u = true ->
  chars literal_char t = true.
Proof.
  revert u. induction t as [|c t IH]; intros u H Hu; [reflexivity|].
  rewrite chars_cons. cbn [Py.ungroup] in H.
  destruct (Ascii.eqb c "_") eqn:Ec.
  - apply Ascii.eqb_eq in Ec. subst c.
    destruct t as [|c' t']; [discriminate|].
    destruct (Py.is_digit c'); [|discriminate].
    rewrite (IH u H Hu). reflexivity.
  - destruct (Py.ungroup t) as [u'|] eqn:E; [|discriminate].
    cbn in H. inversion H; subst u. rewrite chars_cons in Hu.
    apply andb_true_iff in Hu. destruct Hu as [Hc Hu'].
    rewrite (IH u' eq_refl Hu'), andb_true_r.
    unfold literal_char. rewrite Hc. now rewrite !orb_true_r.
Qed.

Lemma digits_value_chars (t : string) z :
  Py.digits_value t = Some z -> chars literal_char t = true.
Proof.
  unfold Py.digits_value. destruct t as [|c t]; [discriminate|].
  destruct (Ascii.eqb c "_"); [discriminate|].
  destruct (Py.ungroup (String c t)) as [u|] eqn:E; [|discriminate].
  destruct (NilEmpty.uint_of_string u) as [w|] eqn:Eu; [|discriminate].
  intros _. exact (ungroup_chars _ _ E (uint_of_string_digits _ _ Eu)).
Qed.

Lemma signed_chars (t : string) z :
  Py.signed Py.digits_value Z.opp t = Some z -> chars literal_char t = true.
Proof.
  unfold Py.signed. destruct t as [|c t]; [discriminate|].
  destruct (Ascii.eqb c "-") eqn:Em.
  - apply Ascii.eqb_eq in Em. subst c.
    destruct (Py.digits_value t) as [z'|] eqn:E; [|discriminate].
    intros _. rewrite chars_cons, (digits_value_chars _ _ E). reflexivity.
  - destruct (Ascii.eqb c "+") eqn:Ep.
    + apply Ascii.eqb_eq in Ep. subst c. intro E.
      rewrite chars_cons, (digits_value_chars _ _ E). reflexivity.
    + apply digits_value_chars.
Qed.

Lemma space_is_literal_char c : Py.is_space c = true -> literal_char c = true.
Proof. intro H. unfold literal_char. now rewrite H. Qed.

Lemma lstrip_chars (s : string) :
  chars literal_char (Py.lstrip s) = true -> chars literal_char s = true.
Proof.
  induction s as [|c s IH]; [reflexivity|].
  cbn [Py.lstrip]. destruct (Py.is_space c) eqn:E; [|trivial].
  intro H. rewrite chars_cons, (IH H), (space_is_literal_char _ E). reflexivity.
Qed.

Lemma rstrip_chars (s : string) :
  chars literal_char (Py.rstrip s) = true -> chars literal_char s = true.
Proof.
  induction s as [|c s IH]; [reflexivity|].
  cbn [Py.rstrip]. destruct (Py.rstrip s) as [|c' r] eqn:E.
  - intro H. rewrite chars_cons, (IH eq_refl), andb_true_r.
    destruct (Py.is_space c) eqn:Ec; [now apply space_is_literal_char|].
    rewrite chars_cons in H. now apply andb_true_iff in H.
  - rewrite !chars_cons. intro H. apply andb_true_iff in H.
    destruct H as [Hc Hr]. rewrite Hc. apply IH. now rewrite chars_cons.
Qed.

Lemma int_of_text_chars (s : string) z :
  Py.int_of_text s = Some z -> chars literal_char s = true.
Proof.
  unfold Py.int_of_text, Py.strip. intro H.
  apply lstrip_chars, rstrip_chars. exact (signed_chars _ _ H).
Qed.

Lemma literal_char_class (c : ascii) :
  literal_char c = true ->
  (nat_of_ascii c <? 128)%nat = true /\ is_letter c = false.
Proof.
  destruct c as [[] [] [] [] [] [] [] []]; intro H;
    try discriminate H; split; reflexivity.
Qed.

Lemma int_of_text_is_ascii (s : string) z :
  Py.int_of_text s = Some z -> Py.is_ascii s = true.
Proof.
  intro H. apply int_of_text_chars in H. revert H.
  apply chars_weaken. intros c Hc. now apply literal_char_class.
Qed.

Lemma int_of_text_letter (s : string) :
  has_letter s = true -> Py.int_of_text s = None.
Proof.
  intro H. destruct (Py.int_of_text s) as [z|] eqn:E; [|reflexivity].
  apply int_of_text_chars in E. exfalso. revert H E.
  unfold has_letter, chars. induction (list_ascii_of_string s) as [|c l IH];
    [discriminate|].
  cbn [existsb forallb]. intros H E. apply andb_true_iff in E.
  destruct E as [Ec El]. apply orb_true_iff in H. destruct H as [H|H].
  - apply literal_char_class in Ec. destruct Ec as [_ Ec]. congruence.
  - exact (IH H El).
Qed.

Lemma decode_ascii_ok (b : bytes) (d : device) :
  Py.is_ascii b = true -> Py.decode_ascii b d = (Ok b, d).
Proof. intro H. unfold Py.decode_ascii. now rewrite H. Qed.

(* ------------------------------------------------------------------ *)
(** *** The error register, decoded *)

(** C8: a 16-bit register value is decoded into the tuple of its sixteen
    bits, bit 0 first, and [errors] lists the names of the set bits among
    the positions of [_ERRORS] -- 0 to 6, 13 and 14 -- in ascending
    position; for the value 5 the flags are set at positions 0 and 2 only
    and the errors are "not enabled" and "thermal latch-up". *)
Theorem error_register_is_decoded_lsb_first :
  forall (limit : nat) (d : device) dt line rest (err : Z),
    rx d = (dt, Some line) :: rest ->
    in_time (timeout d) dt ->
    line <> unknown_command ->
    Py.int_of_text line = Some err ->
    (0 <= err < 65536)%Z ->
    fst (MTD415TDevice.error_flags (S limit) d)
    = Ok (PyFlags (map (register_bit err) (seq 0 16)))
    /\ fst (MTD415TDevice.errors (S limit) d)
       = Ok (PyNames (map snd (filter (fun e => register_bit err (fst e))
                                      MTD415TDevice._ERRORS)))
    /\ map fst MTD415TDevice._ERRORS = [0; 1; 2; 3; 4; 5; 6; 13; 14]%nat
    /\ (err = 5%Z ->
        fst (MTD415TDevice.error_flags (S limit) d)
        = Ok (PyFlags [true; false; true; false; false; false; false; false;
                       false; false; false; false; false; false; false; false])
        /\ fst (MTD415TDevice.errors (S limit) d)
           = Ok (PyNames ["not enabled"%string; "thermal latch-up"%string])).
Proof.
  intros limit d dt line rest err Hrx Hin Hline Hint Herr.
  destruct (query_once limit "E" true d dt line rest Hrx Hin (or_intror Hline))
    as (d' & Hq & _).
  assert (F : MTD415TDevice.error_flags (S limit) d
              = (Ok (PyFlags (map (register_bit err) (seq 0 16))), d')).
  { unfold MTD415TDevice.error_flags, bind. rewrite Hq.
    rewrite (decode_ascii_ok _ d' (int_of_text_is_ascii _ _ Hint)), Hint.
    rewrite (decode_flags err Herr). reflexivity. }
  assert (E : MTD415TDevice.errors (S limit) d
              = (Ok (PyNames (map snd (filter (fun e => register_bit err (fst e))
                                              MTD415TDevice._ERRORS))), d')).
  { unfold MTD415TDevice.errors, bind. rewrite F.
    rewrite collect_errors_filter.
    - reflexivity.
    - unfold MTD415TDevice._ERRORS. repeat constructor; simpl; lia. }
  rewrite F, E. do 3 (split; [reflexivity|]).
  intros ->. split; reflexivity.
Qed.

Lemma error_register_is_decoded_lsb_first_witness :
  fst (MTD415TDevice.error_flags 1 (bench false [prompt "5"]))
  = Ok (PyFlags [true; false; true; false; false; false; false; false;
                 false; false; false; false; false; false; false; false])
  /\ fst (MTD415TDevice.errors 1 (bench false [prompt "5"]))
     = Ok (PyNames ["not enabled"%string; "thermal latch-up"%string]).
Proof.
  refine (proj2 (proj2 (proj2
    (error_register_is_decoded_lsb_first 0 (bench false [prompt "5"])
       0.001 ("5" ++ nl)%string [] 5 _ _ _ _ _))) eq_refl).
  - reflexivity.
  - simpl. lra.
  - discriminate.
  - reflexivity.
  - lia.
Defined.

(* ------------------------------------------------------------------ *)
(** *** Decimal text *)

Lemma rstrip_line (s : string) :
  no_space s = true -> Py.rstrip (s ++ nl) = s.
Proof.
  induction s as [|c s IH]; intro H; [reflexivity|].
  simpl in H. apply andb_true_iff in H. destruct H as [Hc Hs].
  apply negb_true_iff in Hc.
  change (Py.rstrip (String c s ++ nl))
    with (match Py.rstrip (s ++ nl) with
          | EmptyString =>
              if Py.is_space c then EmptyString else String c EmptyString
          | r => String c r
          end).
  rewrite (IH Hs), Hc. destruct s; reflexivity.
Qed.

Lemma strip_line (s : string) :
  no_space s = true -> Py.strip (s ++ nl) = s.
Proof.
  intro H. unfold Py.strip. destruct s as [|c s]; [reflexivity|].
  assert (Hc : Py.is_space c = false).
  { simpl in H. apply andb_true_iff in H. now apply negb_true_iff. }
  change (Py.lstrip (String c s ++ nl))
    with (if Py.is_space c then Py.lstrip (s ++ nl) else String c (s ++ nl)).
  rewrite Hc. apply (rstrip_line (String c s) H).
Qed.

Lemma no_space_digits (u : Decimal.uint) :
  no_space (NilEmpty.string_of_uint u) = true.
Proof. induction u; simpl; auto. Qed.

Lemma digits_nonnil (u : Decimal.uint) :
  u <> Decimal.Nil -> NilZero.string_of_uint u = NilEmpty.string_of_uint u.
Proof. destruct u; intro H; [contradiction|..]; reflexivity. Qed.

Lemma no_space_format_d (n : Z) : no_space (Py.format_d n) = true.
Proof.
  unfold Py.format_d.
  destruct n as [|p|p]; [reflexivity|..]; simpl;
    rewrite (digits_nonnil _ (DecimalPos.Unsigned.to_uint_nonnil p));
    apply no_space_digits.
Qed.









(* ------------------------------------------------------------------ *)
(** *** Rounding *)

Lemma round_is_nearest (y : Q) : Qabs (inject_Z (Py.round y) - y) <= 1 # 2.
Proof.
  assert (Hlo := Qfloor_le y). assert (Hhi := Qlt_floor y).
  rewrite inject_Z_plus in Hhi.
  apply Qabs_Qle_condition. unfold Py.round.
  destruct (y - inject_Z (Qfloor y) ?= 1 # 2) eqn:E.
  - apply Qeq_alt in E.
    destruct (Z.even (Qfloor y)); [|rewrite inject_Z_plus];
      change (inject_Z 1) with 1 in *; lra.
  - apply Qlt_alt in E. lra.
  - apply Qgt_alt in E. rewrite inject_Z_plus.
    change (inject_Z 1) with 1 in *. lra.
Qed.


(* ------------------------------------------------------------------ *)
(** *** Binary64 rounding *)

Lemma pow2_pos (e : Z) : 0 < Py.pow2 e.
Proof. apply Qpower_0_lt. reflexivity. Qed.

Lemma ilog2_le (q : Q) : 0 < q -> Py.pow2 (Py.ilog2 q) <= q.
Proof.
  intro Hq. unfold Py.ilog2.
  set (a := Z.log2 (Qnum q)). set (b := Z.log2 (Zpos (Qden q))).
  destruct (Qle_bool (Py.pow2 (a - b)) q) eqn:E; [now apply Qle_bool_iff|].
  assert (Hn : (0 < Qnum q)%Z).
  { destruct q as [n dn]. unfold Qlt in Hq. simpl in *. lia. }
  destruct (Z.log2_spec (Qnum q) Hn) as [A _].
  destruct (Z.log2_spec (Zpos (Qden q)) eq_refl) as [_ B].
  fold a in A. fold b in B.
  assert (Ha : (0 <= a)%Z) by apply Z.log2_nonneg.
  assert (Hb : (0 <= Z.succ b)%Z) by (pose proof (Z.log2_nonneg (Zpos (Qden q))); lia).
  replace (a - b - 1)%Z with (a - Z.succ b)%Z by lia.
  unfold Py.pow2. rewrite Qpower_minus by discriminate.
  change 2 with (inject_Z 2).
  rewrite <- !Zpower_Qpower by assumption.
  assert (Hp : (0 < 2 ^ Z.succ b)%Z) by (apply Z.pow_pos_nonneg; lia).
  apply Qle_shift_div_r.
  - rewrite <- (Zlt_Qlt 0). exact Hp.
  - destruct q as [n dn]. simpl in *.
    revert A B Hp. generalize (2 ^ a)%Z (2 ^ Z.succ b)%Z. intros u w A B Hp.
    unfold Qle, Qmult, inject_Z. simpl. nia.
Qed.

Lemma ilog2_lt (q : Q) : 0 < q -> q < Py.pow2 (Py.ilog2 q + 1).
Proof.
  intro Hq. unfold Py.ilog2.
  set (a := Z.log2 (Qnum q)). set (b := Z.log2 (Zpos (Qden q))).
  destruct (Qle_bool (Py.pow2 (a - b)) q) eqn:E.
  - assert (Hn : (0 < Qnum q)%Z).
    { destruct q as [n dn]. unfold Qlt in Hq. simpl in *. lia. }
    destruct (Z.log2_spec (Qnum q) Hn) as [_ A].
    destruct (Z.log2_spec (Zpos (Qden q)) eq_refl) as [B _].
    fold a in A. fold b in B.
    assert (Ha : (0 <= Z.succ a)%Z) by (pose proof (Z.log2_nonneg (Qnum q)); lia).
    assert (Hb : (0 <= b)%Z) by apply Z.log2_nonneg.
    replace (a - b + 1)%Z with (Z.succ a - b)%Z by lia.
    unfold Py.pow2. rewrite Qpower_minus by discriminate.
    change 2 with (inject_Z 2).
    rewrite <- !Zpower_Qpower by assumption.
    assert (Hp : (0 < 2 ^ b)%Z) by (apply Z.pow_pos_nonneg; lia).
    apply Qlt_shift_div_l.
    + rewrite <- (Zlt_Qlt 0). exact Hp.
    + destruct q as [n dn]. simpl in *.
      revert A B Hp. generalize (2 ^ Z.succ a)%Z (2 ^ b)%Z. intros u w A B Hp.
      unfold Qlt, Qmult, inject_Z. simpl. nia.
  - replace (a - b - 1 + 1)%Z with (a - b)%Z by lia.
    apply Qnot_le_lt. intro L. apply Qle_bool_iff in L. congruence.
Qed.

(** The mantissa that [fl64] rounds lies between [2^52] and [2^53] for
    a number in the normal range, so that the result has 53 bits. *)
Lemma fl64_mantissa (q : Q) :
  ~ q == 0 -> (-1074 <= Py.ilog2 (Qabs q) - 52)%Z ->
  4503599627370496 <= Qabs q / Py.pow2 (Py.ulp_exponent q)
  /\ Qabs q / Py.pow2 (Py.ulp_exponent q) < 9007199254740992.
Proof.
  intros NZ Hn.
  assert (Hq : 0 < Qabs q) by (apply Qabs_case; intro H; lra).
  assert (L := ilog2_le (Qabs q) Hq). assert (U := ilog2_lt (Qabs q) Hq).
  unfold Py.ulp_exponent. rewrite Z.max_l by exact Hn.
  set (E := Py.ilog2 (Qabs q)) in *.
  assert (P := pow2_pos (E - 52)).
  assert (H1 : Py.pow2 E == 4503599627370496 * Py.pow2 (E - 52)).
  { unfold Py.pow2. rewrite Qpower_minus by discriminate.
    change (2 ^ 52) with 4503599627370496. field. }
  assert (H2 : Py.pow2 (E + 1) == 9007199254740992 * Py.pow2 (E - 52)).
  { unfold Py.pow2. rewrite Qpower_minus, Qpower_plus by discriminate.
    change (2 ^ 52) with 4503599627370496. change (2 ^ 1) with 2. field. }
  split.
  - apply Qle_shift_div_l; [exact P|]. rewrite <- H1. exact L.
  - apply Qlt_shift_div_r; [exact P|]. rewrite <- H2. exact U.
Qed.

Example fl64_ex :
  Py.fl64 0.1 = 3602879701896397 # 36028797018963968
  /\ Py.fl64 8.0005 = 4503881102347207 # 562949953421312
  /\ Py.fl64 (1 # 2) = 1 # 2
  /\ Py.fl64 (inject_Z (2 ^ 53 + 1)) = inject_Z (2 ^ 53)
  /\ Py.fl64 0 = 0.
Proof. vm_compute. repeat split. Qed.

(** The rounding error of a float: half a unit in the last place, which
    is at most the fraction [2^-53] of the number itself, or half the
    spacing of the subnormal numbers. *)
Lemma fl64_error (q : Q) :
  Qabs (Py.fl64 q - q) <= (1 # 9007199254740992) * Qabs q + Py.pow2 (-1075).
Proof.
  assert (T := pow2_pos (-1075)).
  destruct (Qeq_dec q 0) as [Z0|NZ].
  - assert (E : Py.fl64 q == 0).
    { unfold Py.fl64. rewrite Qred_correct.
      assert (P := pow2_pos (Py.ulp_exponent q)). revert P.
      generalize (Py.pow2 (Py.ulp_exponent q)). intros p P.
      assert (Y : q / p == 0) by (rewrite Z0; unfold Qdiv; ring).
      assert (R := round_is_nearest (q / p)).
      apply Qabs_Qle_condition in R. destruct R as [R1 R2].
      assert (A : inject_Z (-1) < inject_Z (Py.round (q / p)))
        by (change (inject_Z (-1)) with (-1); lra).
      assert (B : inject_Z (Py.round (q / p)) < inject_Z 1)
        by (change (inject_Z 1) with 1; lra).
      rewrite <- Zlt_Qlt in A, B.
      replace (Py.round (q / p)) with 0%Z by lia. ring. }
    rewrite E, Z0. change (Qabs (0 - 0)) with 0. change (Qabs 0) with 0. lra.
  - unfold Py.fl64. rewrite Qred_correct.
    assert (Hq : 0 < Qabs q).
    { apply Qabs_case; intro H; lra. }
    assert (L := ilog2_le (Qabs q) Hq).
    set (E := Py.ilog2 (Qabs q)) in *.
    assert (P := pow2_pos (Py.ulp_exponent q)).
    assert (R := round_is_nearest (q / Py.pow2 (Py.ulp_exponent q))).
    assert (K : Qabs (inject_Z (Py.round (q / Py.pow2 (Py.ulp_exponent q)))
                      * Py.pow2 (Py.ulp_exponent q) - q)
                <= (1 # 2) * Py.pow2 (Py.ulp_exponent q)).
    { revert R P. generalize (Py.pow2 (Py.ulp_exponent q)). intros p R P.
      assert (Hy : q == (q / p) * p) by (field; lra).
      revert R Hy. generalize (q / p). intros y R Hy.
      revert R. generalize (inject_Z (Py.round y)). intros r R.
      apply Qabs_Qle_condition in R. apply Qabs_Qle_condition.
      rewrite Hy. destruct R as [R1 R2]. split; nra. }
    eapply Qle_trans; [exact K|].
    unfold Py.ulp_exponent. fold E.
    destruct (Z.max_spec (E - 52) (-1074)) as [[_ M]|[_ M]]; rewrite M.
    + assert (H2 : (1 # 2) * Py.pow2 (-1074) == Py.pow2 (-1075)) by reflexivity.
      rewrite H2. assert (0 <= Qabs q) by lra. nra.
    + assert (H2 : Py.pow2 (E - 52) == Py.pow2 E * (1 # 4503599627370496)).
      { unfold Py.pow2. rewrite Qpower_minus by discriminate. reflexivity. }
      rewrite H2. assert (P2 := pow2_pos E). nra.
Qed.

Lemma round_comp (x y : Q) : x == y -> Py.round x = Py.round y.
Proof.
  intro H. unfold Py.round. rewrite (Qfloor_comp _ _ H).
  assert (E : (x - inject_Z (Qfloor y) ?= 1 # 2) = (y - inject_Z (Qfloor y) ?= 1 # 2)).
  { apply Qcompare_comp; [rewrite H|]; reflexivity. }
  rewrite E. reflexivity.
Qed.

Lemma round_inject_Z (k : Z) : Py.round (inject_Z k) = k.
Proof.
  unfold Py.round. rewrite Qfloor_Z.
  assert (E : (inject_Z k - inject_Z k ?= 1 # 2) = Lt).
  { apply (proj1 (Qlt_alt _ _)). generalize (inject_Z k). intro z. lra. }
  rewrite E. reflexivity.
Qed.

Lemma round_bounded (y : Q) (k : Z) :
  Qabs y <= inject_Z k -> (Z.abs (Py.round y) <= k)%Z.
Proof.
  intro H. assert (R := round_is_nearest y).
  apply Qabs_Qle_condition in H. apply Qabs_Qle_condition in R.
  destruct H as [H1 H2]. destruct R as [R1 R2].
  assert (A : inject_Z (Py.round y) < inject_Z (k + 1)).
  { rewrite inject_Z_plus. change (inject_Z 1) with 1. lra. }
  assert (B : inject_Z (- k - 1) < inject_Z (Py.round y)).
  { unfold Zminus. rewrite inject_Z_plus, inject_Z_opp.
    change (inject_Z (- (1))) with (-1). lra. }
  rewrite <- Zlt_Qlt in A, B. lia.
Qed.

Lemma fl64_eq (q : Q) :
  Py.fl64 q
  == inject_Z (Py.round (q / Py.pow2 (Py.ulp_exponent q)))
     * Py.pow2 (Py.ulp_exponent q).
Proof. unfold Py.fl64. apply Qred_correct. Qed.

Lemma fl64_zero (q : Q) : q == 0 -> Py.fl64 q == 0.
Proof.
  intro Z0. rewrite fl64_eq.
  assert (P := pow2_pos (Py.ulp_exponent q)). revert P.
  generalize (Py.pow2 (Py.ulp_exponent q)). intros p P.
  assert (Y : q / p == 0) by (rewrite Z0; unfold Qdiv; ring).
  rewrite (round_comp _ _ Y). change 0 with (inject_Z 0) at 1.
  rewrite round_inject_Z. ring.
Qed.

Lemma pow2_plus (a b : Z) : Py.pow2 (a + b) == Py.pow2 a * Py.pow2 b.
Proof. unfold Py.pow2. apply Qpower_plus. discriminate. Qed.

Lemma pow2_Z (n : Z) : (0 <= n)%Z -> Py.pow2 n == inject_Z (2 ^ n).
Proof.
  intro H. unfold Py.pow2. change 2 with (inject_Z 2).
  symmetry. apply Zpower_Qpower. exact H.
Qed.

(** A multiple of a power of two that is at least the spacing of the
    floats around it is a float. *)
Lemma fl64_fixed (r : Q) (K e0 : Z) :
  r == inject_Z K * Py.pow2 e0 ->
  (Py.ulp_exponent r <= e0)%Z ->
  Py.fl64 r == r.
Proof.
  intros Hr He. rewrite fl64_eq.
  set (e' := Py.ulp_exponent r) in *.
  assert (P := pow2_pos e').
  assert (S : Py.pow2 e0 == Py.pow2 e' * inject_Z (2 ^ (e0 - e'))).
  { rewrite <- pow2_Z by lia. rewrite <- pow2_plus.
    replace (e' + (e0 - e'))%Z with e0 by lia. reflexivity. }
  assert (Y : r / Py.pow2 e' == inject_Z (K * 2 ^ (e0 - e'))).
  { rewrite Hr, S, inject_Z_mult. field. lra. }
  rewrite (round_comp _ _ Y), round_inject_Z.
  rewrite Hr, S, inject_Z_mult. ring.
Qed.

Lemma ilog2_le_bound (t : Q) (n : Z) :
  0 < t -> t <= Py.pow2 n -> (Py.ilog2 t <= n)%Z.
Proof.
  intros Ht H. assert (L := ilog2_le t Ht).
  apply Qpower_le_compat_l_inv with (q := 2); [|reflexivity].
  exact (Qle_trans _ _ _ L H).
Qed.

Lemma ilog2_lt_bound (t : Q) (n : Z) :
  0 < t -> t < Py.pow2 n -> (Py.ilog2 t < n)%Z.
Proof.
  intros Ht H. assert (L := ilog2_le t Ht).
  apply Qpower_lt_compat_l_inv with (q := 2); [|reflexivity].
  exact (Qle_lt_trans _ _ _ L H).
Qed.

(** The mantissa that [fl64] produces has at most 53 bits, the carry of
    a rounding up to [2^53] included. *)
Lemma fl64_mantissa_bound (q : Q) :
  (Z.abs (Py.round (q / Py.pow2 (Py.ulp_exponent q))) <= 2 ^ 53)%Z.
Proof.
  apply round_bounded.
  assert (P := pow2_pos (Py.ulp_exponent q)).
  rewrite <- pow2_Z by lia.
  destruct (Qeq_dec q 0) as [Z0|NZ].
  - assert (Y : q / Py.pow2 (Py.ulp_exponent q) == 0)
      by (rewrite Z0 at 1; unfold Qdiv; ring).
    rewrite Y. change (Qabs 0) with 0. apply Qlt_le_weak, pow2_pos.
  - assert (Hq : 0 < Qabs q) by (apply Qabs_case; intro H; lra).
    assert (U := ilog2_lt (Qabs q) Hq).
    unfold Qdiv. rewrite Qabs_Qmult.
    rewrite (Qabs_pos (/ Py.pow2 (Py.ulp_exponent q)))
      by (apply Qlt_le_weak, Qinv_lt_0_compat, P).
    apply Qle_shift_div_r; [exact P|].
    rewrite <- pow2_plus.
    apply Qlt_le_weak. eapply Qlt_le_trans; [exact U|].
    apply Qpower_le_compat_l; [|discriminate].
    unfold Py.ulp_exponent. lia.
Qed.

(** Rounding a float again changes nothing. *)
Lemma fl64_idempotent (q : Q) : Py.fl64 (Py.fl64 q) == Py.fl64 q.
Proof.
  assert (E := fl64_eq q). assert (B := fl64_mantissa_bound q).
  set (e := Py.ulp_exponent q) in *.
  set (M := Py.round (q / Py.pow2 e)) in *.
  set (t := Py.fl64 q) in *.
  assert (P := pow2_pos e).
  assert (He : (-1074 <= e)%Z) by (unfold e, Py.ulp_exponent; lia).
  destruct (Z.eq_dec M 0) as [M0|MN].
  - assert (T0 : t == 0) by (rewrite E, M0; ring).
    rewrite (fl64_zero _ T0). symmetry. exact T0.
  - assert (A : Qabs t == inject_Z (Z.abs M) * Py.pow2 e).
    { rewrite E, Qabs_Qmult, (Qabs_pos (Py.pow2 e)) by lra.
      reflexivity. }
    assert (Ht : 0 < Qabs t).
    { rewrite A. apply Qmult_lt_0_compat; [|exact P].
      rewrite <- (Zlt_Qlt 0). lia. }
    destruct (Z.eq_dec (Z.abs M) (2 ^ 53)) as [Top|NTop].
    + apply (fl64_fixed t (M / 2) (e + 1)).
      * rewrite E, pow2_plus. change (Py.pow2 1) with 2.
        assert (M2 : M = (2 * (M / 2))%Z).
        { apply Z.div_exact; [lia|].
          destruct (Z.abs_spec M) as [[_ H]|[_ H]]; rewrite H in Top.
          - rewrite Top. reflexivity.
          - replace M with (- 2 ^ 53)%Z by lia. reflexivity. }
        rewrite M2 at 1. rewrite inject_Z_mult. change (inject_Z 2) with 2. ring.
      * unfold Py.ulp_exponent.
        assert (I : (Py.ilog2 (Qabs t) <= 53 + e)%Z).
        { apply ilog2_le_bound; [exact Ht|].
          rewrite A, Top, pow2_plus, <- pow2_Z by lia. lra. }
        lia.
    + apply (fl64_fixed t M e); [exact E|].
      unfold Py.ulp_exponent.
      assert (I : (Py.ilog2 (Qabs t) < 53 + e)%Z).
      { apply ilog2_lt_bound; [exact Ht|].
        rewrite A, pow2_plus, (pow2_Z 53) by lia.
        apply Qmult_lt_compat_r; [exact P|].
        rewrite <- Zlt_Qlt. lia. }
      lia.
Qed.

(** Every number below [2^1023] in magnitude rounds to a binary64
    number. *)
Lemma fl64_is_binary64 (q : Q) :
  Qabs q <= Py.pow2 1023 -> Py.binary64 (Py.fl64 q).
Proof.
  intro H. split; [apply fl64_idempotent|].
  assert (E := fl64_error q).
  assert (T : Py.pow2 (-1075) <= 1) by (apply Qle_bool_iff; vm_compute; reflexivity).
  assert (V : Py.pow2 1024 == 2 * Py.pow2 1023) by reflexivity.
  assert (O : 2 <= Py.pow2 1023) by (apply Qle_bool_iff; vm_compute; reflexivity).
  rewrite V. revert E H O T.
  generalize (Py.pow2 1023) (Py.pow2 (-1075)) (Py.fl64 q). intros big tiny f E H O T.
  assert (N := Qabs_nonneg q).
  apply Qabs_Qle_condition in E.
  assert (C : Qabs f <= Qabs q + ((1 # 9007199254740992) * Qabs q + tiny)).
  { apply Qabs_Qle_condition. revert E N. apply Qabs_case; intros; lra. }
  lra.
Qed.


(** The products on which the integer sent depends on the rounding of
    the float product: 8.0005 and 0.0005 are no binary64 numbers, and
    the products of the floats they denote with 1000 lie on either side
    of the tie that the exact products would be. *)
Example round_of_float_product_ex :
  Py.round (Py.fmul (Py.fl64 8.0005) 1000) = 8001%Z
  /\ Py.round (Py.fmul (Py.fl64 0.0005) 1000) = 0%Z
  /\ Py.round (Py.fmul (Py.fl64 5.0025) 1000) = 5002%Z
  /\ Py.round (8.0005 * 1000) = 8000%Z.
Proof. vm_compute. repeat split. Qed.

(* ------------------------------------------------------------------ *)
(** *** Set, then get *)

Lemma wire_opening d : wire (opening d) = [].
Proof. unfold opening. destruct (port_open d); reflexivity. Qed.

(** What the polling loop makes of a script that starts with a line. *)
Lemma poll_line tmo s dt line rest :
  SerialDevice.poll tmo s s ((dt, Some line) :: rest)
  = (Some (if SerialDevice.timed_out tmo s (s + dt) then None else Some line),
     s + dt, rest).
Proof. simpl. destruct (SerialDevice.timed_out tmo s (s + dt)); reflexivity. Qed.

Lemma save_spec (d : device) dt line rest :
  rx d = (dt, Some line) :: rest ->
  exists d',
    MTD415TDevice.save d = (Ok tt, d')
    /\ now d' = now d + dt
    /\ rx d' = rest
    /\ port_open d' = true
    /\ trace d'
       = trace d ++ [(now d, EPrint "WARNING: Saving config to flash memory.")]
           ++ opening d ++ [(now d, ETx ("M" ++ nl)%string)]
    /\ same_config d d'.
Proof.
  intro Hrx.
  destruct (print_spec "WARNING: Saving config to flash memory." d)
    as (d1 & E1 & Hnow1 & Hrx1 & Hpo1 & Htr1 & Hcfg1).
  destruct (write_spec "M" nl d1) as (d2 & E2 & Hnow2 & Hrx2 & Hpo2 & Htr2 & Hcfg2).
  assert (Hp := poll_line (timeout d2) (now d2) dt line rest).
  rewrite <- Hrx, <- Hrx1, <- Hrx2 in Hp.
  destruct (read_spec d2 _ _ _ Hp) as (d3 & E3 & Hnow3 & Hrx3 & Hpo3 & Htr3 & Hcfg3).
  exists d3. unfold MTD415TDevice.save, MTD415TDevice.write.
  rewrite (bind_ok _ _ _ _ _ E1), (bind_ok _ _ _ _ _ E2), (bind_ok _ _ _ _ _ E3).
  split; [reflexivity|]. split; [congruence|]. split; [assumption|].
  split; [assumption|]. split.
  - rewrite Htr3, Htr2, Htr1.
    replace (opening d2) with (@nil (Q * event))
      by (unfold opening; now rewrite Hpo2).
    replace (opening d1) with (opening d)
      by (unfold opening; now rewrite Hpo1, Hnow1).
    rewrite Hnow1, app_nil_r, <- !app_assoc. reflexivity.
  - exact (same_config_trans _ _ _ Hcfg1 (same_config_trans _ _ _ Hcfg2 Hcfg3)).
Qed.

Lemma effects_app tr1 tr2 : effects (tr1 ++ tr2) = effects tr1 ++ effects tr2.
Proof. apply map_app. Qed.

(** [set] succeeds when the stripped confirmation is the decimal form of
    the integer sent. *)
Lemma set_confirmed (code : string) (n : Z) (d : device) dt line reply rest :
  rx d = (dt, Some line) :: save_exchange d reply ++ rest ->
  in_time (timeout d) dt ->
  Py.strip line = Py.format_d n ->
  exists d1,
    MTD415TDevice.set code (PyInt n) d = (Ok tt, d1)
    /\ rx d1 = rest
    /\ port_open d1 = true
    /\ effects (trace d1)
       = effects (trace d) ++ effects (opening d)
           ++ ETx (code ++ Py.format_d n ++ nl)%string :: auto_save_effects d
    /\ same_config d d1.
Proof.
  intros Hrx Hin Hs.
  destruct (write_spec (code ++ Py.format_d n) nl d)
    as (d1 & E1 & Hnow1 & Hrx1 & Hpo1 & Htr1 & Hcfg1).
  assert (Hcfg1' := Hcfg1). destruct Hcfg1' as (Htmo1 & Hau1 & _).
  assert (Hp := poll_line (timeout d1) (now d1) dt line
                  (save_exchange d reply ++ rest)).
  rewrite <- Hrx, <- Hrx1 in Hp. rewrite Htmo1 in Hp at 2.
  rewrite (timed_out_in_time _ _ _ Hin) in Hp.
  destruct (read_spec d1 _ _ _ Hp) as (d2 & E2 & Hnow2 & Hrx2 & Hpo2 & Htr2 & Hcfg2).
  assert (Hcfg2' := Hcfg2). destruct Hcfg2' as (Htmo2 & Hau2 & _).
  assert (Htr : effects (trace d2)
                = effects (trace d) ++ effects (opening d)
                    ++ [ETx (code ++ Py.format_d n ++ nl)%string]).
  { rewrite Htr2, Htr1.
    replace (opening d1) with (@nil (Q * event))
      by (unfold opening; now rewrite Hpo1).
    rewrite app_nil_r, !effects_app, append_assoc. reflexivity. }
  unfold MTD415TDevice.set, MTD415TDevice.write.
  cbn [Py.int]. rewrite (bind_ok _ _ d d n eq_refl).
  rewrite (bind_ok _ _ _ _ _ E1), (bind_ok _ _ _ _ _ E2).
  rewrite (bind_ok _ _ d2 d2 (Some (Py.strip line)) eq_refl).
  rewrite Hs, String.eqb_refl. cbn [negb].
  rewrite (bind_ok (gets _auto_save) _ d2 d2 (_auto_save d2) eq_refl).
  unfold auto_save_effects, save_exchange in *.
  rewrite Hau2, Hau1. destruct (_auto_save d) eqn:Hau.
  - destruct (print_spec "WARNING: Using auto-save mode! This warning persists." d2)
      as (d3 & E3 & Hnow3 & Hrx3 & Hpo3 & Htr3 & Hcfg3).
    rewrite (bind_ok _ _ _ _ _ E3).
    assert (Hrx3' : rx d3 = (fst reply, Some (snd reply)) :: rest)
      by (rewrite Hrx3, Hrx2; reflexivity).
    destruct (save_spec d3 _ _ _ Hrx3')
      as (d4 & E4 & Hnow4 & Hrx4 & Hpo4 & Htr4 & Hcfg4).
    exists d4. split; [exact E4|]. split; [exact Hrx4|]. split; [exact Hpo4|].
    split.
    + rewrite Htr4, Htr3.
      replace (opening d3) with (@nil (Q * event))
        by (unfold opening; now rewrite Hpo3, Hpo2).
      rewrite !effects_app, Htr, <- !app_assoc. reflexivity.
    + exact (same_config_trans _ _ _ Hcfg1
               (same_config_trans _ _ _ Hcfg2
                  (same_config_trans _ _ _ Hcfg3 Hcfg4))).
  - exists d2. split; [reflexivity|]. split; [rewrite Hrx2; reflexivity|].
    split; [exact Hpo2|]. split; [exact Htr|].
    exact (same_config_trans _ _ _ Hcfg1 Hcfg2).
Qed.

Lemma wire_transmissions tr : wire tr = transmissions (effects tr).
Proof.
  induction tr as [|[t e] tr IH]; [reflexivity|].
  destruct e; simpl; now rewrite IH.
Qed.

Lemma transmissions_app es1 es2 :
  transmissions (es1 ++ es2) = transmissions es1 ++ transmissions es2.
Proof.
  induction es1 as [|e es1 IH]; [reflexivity|].
  destruct e; simpl; now rewrite IH.
Qed.

(** [set] succeeds when the device echoes the integer. *)
Lemma set_echoed (code : string) (n : Z) (d : device) dt reply rest :
  rx d = (dt, Some (Py.format_d n ++ nl)%string) :: save_exchange d reply ++ rest ->
  in_time (timeout d) dt ->
  exists d1,
    MTD415TDevice.set code (PyInt n) d = (Ok tt, d1)
    /\ rx d1 = rest
    /\ timeout d1 = timeout d
    /\ wire (trace d1) = wire (trace d) ++ set_commands d code n.
Proof.
  intros Hrx Hin.
  destruct (set_confirmed code n d dt _ reply rest Hrx Hin
              (strip_line _ (no_space_format_d n)))
    as (d1 & E & Hrx1 & _ & Htr & Htmo & _).
  exists d1. repeat split; try assumption.
  rewrite !wire_transmissions, Htr, !transmissions_app.
  rewrite <- (wire_transmissions (opening d)), wire_opening.
  unfold set_commands, auto_save_effects.
  destruct (_auto_save d); reflexivity.
Qed.







(* ------------------------------------------------------------------ *)
(** *** Which getters retry *)

(** Without retry a timed-out read is returned as the absent value. *)
Lemma query_timeout_without_retry (limit : nat) (code : string) (d : device)
    item rest :
  rx d = item :: rest ->
  too_late (timeout d) (fst item) ->
  exists d',
    MTD415TDevice.query (S limit) code false d = (Ok None, d')
    /\ wire (trace d') = wire (trace d) ++ [query_command code].
Proof.
  intros Hrx Hlate. destruct item as [dt payload]. simpl in Hlate.
  assert (A := query_attempt limit code false d).
  rewrite Hrx in A. cbn [SerialDevice.poll] in A.
  rewrite (timed_out_too_late _ _ _ Hlate) in A. cbn [andb] in A.
  destruct A as (d' & E & Htr & _).
  exists d'. split; [exact E|].
  now rewrite Htr, wire_app, wire_attempt_prefix.
Qed.

(** With retry one failing reply costs a second transmission. *)
Lemma query_second_attempt (limit : nat) (code : string) (d : device)
    item dt line rest :
  rx d = item :: (dt, Some line) :: rest ->
  failing (timeout d) item ->
  in_time (timeout d) dt ->
  line <> unknown_command ->
  exists d',
    MTD415TDevice.query (S (S limit)) code true d = (Ok (Some line), d')
    /\ wire (trace d')
       = wire (trace d) ++ [query_command code; query_command code].
Proof.
  intros Hrx Hfail Hin Hline.
  destruct (query_retry_step (S limit) code d item _ Hrx Hfail)
    as (d1 & Hq & Hrx1 & Htmo & _ & _ & _ & _ & Hw1).
  rewrite <- Htmo in Hin.
  destruct (query_once limit code true d1 dt line rest Hrx1 Hin (or_intror Hline))
    as (d' & Hq' & _ & _ & _ & _ & _ & _ & Hw').
  exists d'. rewrite Hq, Hw', Hw1, <- app_assoc. auto.
Qed.

(** The final state of a getter is the one its query leaves behind. *)
Lemma getter_keeps_query_state (r : reading) (limit : nat) (d d' : device) res :
  MTD415TDevice.query limit (reading_code r)
    (match r with TecVoltage => false | _ => true end) d = (Ok res, d') ->
  snd (getter r limit d) = d'.
Proof.
  intro Hq.
  destruct r as [| | | | | | | s]; [..|destruct s];
    unfold getter, MTD415TDevice.idn, MTD415TDevice.uid,
      MTD415TDevice.text_reading, MTD415TDevice.errors,
      MTD415TDevice.error_flags, MTD415TDevice.tec_current,
      MTD415TDevice.tec_voltage, MTD415TDevice.temp,
      MTD415TDevice.tec_current_limit,
      MTD415TDevice.temp_setpoint, MTD415TDevice.status_temp_window,
      MTD415TDevice.status_delay, MTD415TDevice.critical_gain,
      MTD415TDevice.critical_period, MTD415TDevice.cycling_time,
      MTD415TDevice.p_gain, MTD415TDevice.i_gain, MTD415TDevice.d_gain,
      MTD415TDevice.scaled_reading, bind;
    simpl reading_code in Hq; rewrite Hq;
    try reflexivity;
    destruct res as [line|]; try reflexivity;
    unfold Py.decode_ascii;
    try (destruct (Py.is_ascii line); [|reflexivity];
         change (ret line d') with (Ok line, d'); cbv beta iota;
         try reflexivity);
    try (destruct (Py.float_of_text line); reflexivity);
    try (destruct (Py.int_of_text line) as [n|]; try reflexivity).
  unfold ret.
  destruct (MTD415TDevice.collect_errors _ _); reflexivity.
Qed.

(** C10 (amended): every getter except [tec_voltage] queries with retry
    enabled -- a failing first reply is followed by a second
    transmission of the same query -- while [tec_voltage] queries with
    retry disabled: after a failing reply it transmits nothing more; a
    timed-out read makes it return the marker "<timeout>", and the line
    "unknown command" makes it raise the conversion error of [float]. *)
Theorem getters_retry_except_tec_voltage :
  forall (r : reading) (limit : nat) (d : device) item dt line rest,
    rx d = item :: (dt, Some line) :: rest ->
    failing (timeout d) item ->
    in_time (timeout d) dt ->
    line <> unknown_command ->
    (r <> TecVoltage ->
     wire (trace (snd (getter r (S (S limit)) d)))
     = wire (trace d)
         ++ [query_command (reading_code r); query_command (reading_code r)])
    /\ wire (trace (snd (getter TecVoltage (S (S limit)) d)))
       = wire (trace d) ++ [query_command "U"]
    /\ (too_late (timeout d) (fst item) ->
        fst (getter TecVoltage (S (S limit)) d) = Ok (PyStr "<timeout>"))
    /\ (in_time (timeout d) (fst item) ->
        fst (getter TecVoltage (S (S limit)) d)
        = Raise (ValueError "could not convert string to float")).
Proof.
  intros r limit d item dt line rest Hrx Hfail Hin Hline.
  split; [|split; [|split]].
  - intro Hr.
    destruct (query_second_attempt limit (reading_code r) d item dt line rest
                Hrx Hfail Hin Hline) as (d' & Hq & Hw).
    rewrite (getter_keeps_query_state r (S (S limit)) d d' (Some line)).
    + exact Hw.
    + destruct r; try exact Hq. contradiction.
  - destruct Hfail as [Hlate | [Hin0 Hitem]].
    + destruct (query_timeout_without_retry (S limit) "U" d item _ Hrx Hlate)
        as (d' & Hq & Hw).
      rewrite (getter_keeps_query_state TecVoltage (S (S limit)) d d' None Hq).
      exact Hw.
    + destruct item as [dt0 payload]. simpl in Hin0, Hitem. subst payload.
      destruct (query_once (S limit) "U" false d dt0 unknown_command _ Hrx Hin0
                  (or_introl eq_refl)) as (d' & Hq & _ & _ & _ & _ & _ & _ & Hw).
      rewrite (getter_keeps_query_state TecVoltage (S (S limit)) d d' _ Hq).
      exact Hw.
  - intro Hlate.
    destruct (query_timeout_without_retry (S limit) "U" d item _ Hrx Hlate)
      as (d' & Hq & _).
    unfold getter, MTD415TDevice.tec_voltage, MTD415TDevice.scaled_reading, bind.
    rewrite Hq. reflexivity.
  - intro Hin0.
    destruct Hfail as [Hlate | [_ Hitem]].
    + exfalso. destruct (timeout d); simpl in *; [lra | contradiction].
    + destruct item as [dt0 payload]. simpl in Hin0, Hitem. subst payload.
      destruct (query_once (S limit) "U" false d dt0 unknown_command _ Hrx Hin0
                  (or_introl eq_refl)) as (d' & Hq & _).
      unfold getter, MTD415TDevice.tec_voltage, MTD415TDevice.scaled_reading, bind.
      rewrite Hq. reflexivity.
Qed.

Lemma getters_retry_except_tec_voltage_witness :
  wire (trace (snd (getter (Of TecCurrentLimit) 2 slow_device)))
  = wire (trace slow_device)
      ++ [query_command (reading_code (Of TecCurrentLimit));
          query_command (reading_code (Of TecCurrentLimit))]
  /\ wire (trace (snd (getter TecVoltage 2 slow_device)))
     = wire (trace slow_device) ++ [query_command "U"]
  /\ fst (getter TecVoltage 2 slow_device) = Ok (PyStr "<timeout>").
Proof.
  destruct (getters_retry_except_tec_voltage (Of TecCurrentLimit) 0 slow_device
              silence 0.001 ("1200" ++ nl)%string [])
    as (Hretry & Hwire & Hmarker & _).
  - reflexivity.
  - left. simpl. lra.
  - simpl. lra.
  - discriminate.
  - split; [apply Hretry; discriminate|].
    split; [exact Hwire|].
    apply Hmarker. simpl. lra.
Defined.

(** C10 (counterexample): the line "unknown command", read once by
    [tec_voltage], does not yield the marker "<timeout>": the getter
    raises. *)
Lemma tec_voltage_raises_on_unknown_command :
  fst (MTD415TDevice.tec_voltage 5 rejecting_device)
  = Raise (ValueError "could not convert string to float")
  /\ fst (MTD415TDevice.tec_voltage 5 rejecting_device)
     <> Ok (PyStr "<timeout>")
  /\ wire (trace (snd (MTD415TDevice.tec_voltage 5 rejecting_device)))
     = [query_command "U"].
Proof.
  vm_compute. repeat split. discriminate.
Qed.

(* ================================================================== *)
(** ** Further properties of the transport session *)

Lemma logger_spec (knd : string) (msg : option bytes) (d : device) :
  exists d1,
    SerialDevice._logger knd msg d = (Ok tt, d1)
    /\ _log d1
       = (if (_max_log_length d <? List.length (_log d))%nat
          then tl (_log d) else _log d) ++ [mkEntry knd (now d) msg]
    /\ _log_file d1
       = option_map (fun f => f ++ [mkEntry knd (now d) msg]) (_log_file d)
    /\ _max_log_length d1 = _max_log_length d
    /\ now d1 = now d
    /\ rx d1 = rx d
    /\ port_open d1 = port_open d
    /\ trace d1 = trace d
    /\ same_config d d1.
Proof.
  unfold same_config. run. simpl. eexists. split; [reflexivity|]. simpl. auto 12.
Qed.

Lemma log_all_entries (records : list (string * option bytes)) : forall d,
  (List.length (_log d) <= S (_max_log_length d))%nat ->
  _log (snd (log_all records d))
  = skipn (List.length (_log d) + List.length records - S (_max_log_length d))
      (_log d ++ map (entry_at (now d)) records)
  /\ _log_file (snd (log_all records d))
     = option_map (fun f => f ++ map (entry_at (now d)) records) (_log_file d).
Proof.
  induction records as [|[k m] records IH]; intros d Hd.
  - simpl. rewrite app_nil_r. split.
    + replace (List.length (_log d) + 0 - S (_max_log_length d))%nat with 0%nat
        by lia. reflexivity.
    + destruct (_log_file d); simpl; [now rewrite app_nil_r | reflexivity].
  - destruct (logger_spec k m d)
      as (d1 & E & Hlog & Hfile & Hmax & Hnow & _).
    cbn [log_all]. rewrite (bind_ok _ _ _ _ _ E).
    assert (Hlen : List.length (_log d1)
                   = Nat.min (S (List.length (_log d))) (S (_max_log_length d))).
    { rewrite Hlog, length_app. cbn [List.length].
      destruct (Nat.ltb_spec (_max_log_length d) (List.length (_log d))).
      - remember (_log d) as l eqn:El. destruct l; cbn [List.length tl] in *; lia.
      - lia. }
    destruct (IH d1) as [IHlog IHfile]; [rewrite Hmax, Hlen; lia|].
    rewrite IHlog, IHfile, Hmax, Hnow, Hfile, Hlen. split.
    + rewrite Hlog. cbn [map List.length].
      change (entry_at (now d) (k, m)) with (mkEntry k (now d) m).
      destruct (Nat.ltb_spec (_max_log_length d) (List.length (_log d))).
      * assert (Hfull : List.length (_log d) = S (_max_log_length d)) by lia.
        destruct (_log d) as [|e0 l0] eqn:El; [simpl in Hfull; lia|].
        cbn [tl List.length] in *.
        replace (Nat.min (S (S (List.length l0))) (S (_max_log_length d))
                 + List.length records - S (_max_log_length d))%nat
          with (List.length records) by lia.
        replace (S (List.length l0) + S (List.length records)
                 - S (_max_log_length d))%nat
          with (S (List.length records)) by lia.
        rewrite <- !app_assoc. reflexivity.
      * replace (Nat.min (S (List.length (_log d))) (S (_max_log_length d)))
          with (S (List.length (_log d))) by lia.
        rewrite <- !app_assoc.
        replace (S (List.length (_log d)) + List.length records
                 - S (_max_log_length d))%nat
          with (List.length (_log d) + S (List.length records)
                - S (_max_log_length d))%nat by lia.
        reflexivity.
    + destruct (_log_file d); simpl; [now rewrite <- app_assoc | reflexivity].
Qed.

(** X1: from a fresh device, the communication log holds the most recent
    records, in the order in which they were made: the list of all
    records with its oldest [n - (max_log_length + 1)] entries dropped. *)
Theorem log_keeps_most_recent_records :
  forall clock script max log_file kw records,
    _log (snd (log_all records
                 (SerialDevice.__init__ clock script max log_file kw)))
    = skipn (List.length records - S max) (map (entry_at clock) records).
Proof.
  intros.
  destruct (log_all_entries records
              (SerialDevice.__init__ clock script max log_file kw)) as [H _].
  - simpl. lia.
  - exact H.
Qed.

(** X2: a log-file sink receives every record, in order, and is never
    trimmed. *)
Theorem log_file_receives_every_record :
  forall clock script max sink kw records,
    _log_file (snd (log_all records
                      (SerialDevice.__init__ clock script max (Some sink) kw)))
    = Some (sink ++ map (entry_at clock) records).
Proof.
  intros.
  destruct (log_all_entries records
              (SerialDevice.__init__ clock script max (Some sink) kw)) as [_ H].
  - simpl. lia.
  - exact H.
Qed.

(** X3: a [write] that returns has re-opened the port if it was closed,
    recorded the exact bytes -- data and line ending -- as the newest
    log entry and transmitted them once; the clock and the incoming
    script are left alone. *)
Theorem write_logs_and_transmits_exact_bytes :
  forall (data line_ending : bytes) (d d1 : device),
    SerialDevice.write data line_ending d = (Ok tt, d1) ->
    trace d1
    = trace d ++ opening d ++ [(now d, ETx (data ++ line_ending)%string)]
    /\ (exists older,
           _log d1
           = older ++ [mkEntry "write" (now d) (Some (data ++ line_ending)%string)])
    /\ port_open d1 = true
    /\ now d1 = now d
    /\ rx d1 = rx d.
Proof.
  intros data line_ending d d1.
  destruct d as [nw r po tr tmo lg mx lf au lq mq].
  unfold opening. run.
  destruct po; simpl; intro E; inversion E; subst d1; clear E; simpl;
    rewrite <- ?app_assoc; repeat split; eauto.
Qed.

Lemma write_logs_and_transmits_exact_bytes_witness :
  trace (snd (SerialDevice.write "L?" nl (bench false [])))
  = [(0, ETx ("L?" ++ nl)%string)]
  /\ _log (snd (SerialDevice.write "L?" nl (bench false [])))
     = [mkEntry "write" 0 (Some ("L?" ++ nl)%string)].
Proof.
  destruct (write_logs_and_transmits_exact_bytes "L?" nl (bench false [])
              (snd (SerialDevice.write "L?" nl (bench false []))))
    as (Htr & _).
  - vm_compute. reflexivity.
  - split; [exact Htr | vm_compute; reflexivity].
Defined.

Lemma read_logs (d : device) r t rest :
  SerialDevice.poll (timeout d) (now d) (now d) (rx d) = (Some r, t, rest) ->
  exists older,
    _log (snd (SerialDevice.read d)) = older ++ [mkEntry "read" t r].
Proof.
  intro Hp.
  destruct d as [nw rs po tr tmo lg mx lf au lq mq]. simpl in Hp.
  run. destruct po; simpl; rewrite Hp; simpl; eauto.
Qed.

(** What [read] returns and where it leaves the device, in terms of
    the polling loop. *)
Lemma read_returns (d d' : device) (r : option bytes) :
  SerialDevice.read d = (Ok r, d') ->
  exists rest,
    SerialDevice.poll (timeout d) (now d) (now d) (rx d) = (Some r, now d', rest)
    /\ rx d' = rest.
Proof.
  intro E.
  destruct (SerialDevice.poll (timeout d) (now d) (now d) (rx d))
    as [[res t] rest] eqn:Hp.
  destruct (read_spec d res t rest Hp) as (d1 & E1 & Hnow & Hrx & _).
  rewrite E in E1. destruct res as [r1|]; [|discriminate].
  inversion E1; subst. eauto.
Qed.

Lemma poll_without_timeout : forall script start t res t' rest,
  SerialDevice.poll None start t script = (Some res, t', rest) ->
  exists dt line, res = Some line /\ In (dt, Some line) script.
Proof.
  induction script as [|[dt payload] script IH]; intros start t res t' rest H;
    simpl in H; [discriminate|].
  destruct payload as [line|].
  - inversion H; subst. exists dt, line. split; [reflexivity | now left].
  - destruct (IH _ _ _ _ _ H) as (dt' & line & Hres & Hin).
    exists dt', line. split; [assumption | now right].
Qed.

(** X4: with no timeout configured, a [read] that returns never returns
    the absent value: it hands back a line that the link delivered. *)
Theorem read_without_timeout_returns_a_line :
  forall (d d' : device) (r : option bytes),
    timeout d = None ->
    SerialDevice.read d = (Ok r, d') ->
    exists dt line, r = Some line /\ In (dt, Some line) (rx d).
Proof.
  intros d d' r Htmo E.
  destruct (read_returns d d' r E) as (rest & Hp & _).
  rewrite Htmo in Hp. exact (poll_without_timeout _ _ _ _ _ _ Hp).
Qed.

Lemma read_without_timeout_returns_a_line_witness :
  exists dt line,
    Some ("ok" ++ nl)%string = Some line
    /\ In (dt, Some line) (rx patient_device).
Proof.
  apply (read_without_timeout_returns_a_line patient_device
           (snd (SerialDevice.read patient_device))).
  - reflexivity.
  - vm_compute. reflexivity.
Defined.

Lemma poll_absent : forall script tmo start t t' rest,
  SerialDevice.poll tmo start t script = (Some None, t', rest) ->
  exists limit, tmo = Some limit /\ limit < t' - start.
Proof.
  induction script as [|[dt payload] script IH]; intros tmo start t t' rest H;
    simpl in H; [discriminate|].
  destruct (SerialDevice.timed_out tmo start (t + dt)) eqn:T.
  - inversion H; subst. destruct tmo as [limit|]; simpl in T; [|discriminate].
    exists limit. split; [reflexivity | now apply Qltb_true].
  - destruct payload as [line|]; [discriminate|]. exact (IH _ _ _ _ _ H).
Qed.

(** X5: [read] returns the absent value only when a timeout is
    configured and more than that time has passed since the call
    started. *)
Theorem read_returns_absent_only_after_deadline :
  forall (d d' : device),
    SerialDevice.read d = (Ok None, d') ->
    exists limit, timeout d = Some limit /\ limit < now d' - now d.
Proof.
  intros d d' E.
  destruct (read_returns d d' None E) as (rest & Hp & _).
  exact (poll_absent _ _ _ _ _ _ Hp).
Qed.

Lemma read_returns_absent_only_after_deadline_witness :
  exists limit,
    timeout (bench false [silence]) = Some limit
    /\ limit < now (snd (SerialDevice.read (bench false [silence])))
               - now (bench false [silence]).
Proof.
  apply (read_returns_absent_only_after_deadline (bench false [silence])
           (snd (SerialDevice.read (bench false [silence])))).
  vm_compute. reflexivity.
Defined.

(** X6: a line that the link delivers after the deadline is consumed
    and thrown away: [read] returns the absent value, the line is gone
    from the link, and the log records a read of nothing. *)
Theorem read_discards_late_line :
  forall (d : device) dt line rest,
    rx d = (dt, Some line) :: rest ->
    too_late (timeout d) dt ->
    exists d',
      SerialDevice.read d = (Ok None, d')
      /\ rx d' = rest
      /\ now d' = now d + dt
      /\ exists older, _log d' = older ++ [mkEntry "read" (now d + dt) None].
Proof.
  intros d dt line rest Hrx Hlate.
  assert (Hp := poll_line (timeout d) (now d) dt line rest).
  rewrite (timed_out_too_late _ _ _ Hlate), <- Hrx in Hp.
  destruct (read_spec d _ _ _ Hp) as (d' & E & Hnow & Hrx' & _).
  destruct (read_logs d _ _ _ Hp) as (older & Hlog).
  rewrite E in Hlog. exists d'. repeat split; try assumption. eauto.
Qed.

Lemma read_discards_late_line_witness :
  exists d',
    SerialDevice.read (bench false [(2, Some ("500" ++ nl)%string)])
    = (Ok None, d')
    /\ rx d' = []
    /\ now d' = now (bench false [(2, Some ("500" ++ nl)%string)]) + 2
    /\ exists older,
         _log d'
         = older
             ++ [mkEntry "read"
                   (now (bench false [(2, Some ("500" ++ nl)%string)]) + 2) None].
Proof.
  apply (read_discards_late_line (bench false [(2, Some ("500" ++ nl)%string)])
           2 ("500" ++ nl)%string []).
  - reflexivity.
  - simpl. lra.
Defined.

(** X7: whatever [read] returns, a line or the absent value, is the
    content of the newest log entry, stamped with the time of the
    return. *)
Theorem read_logs_what_it_returns :
  forall (d d' : device) (r : option bytes),
    SerialDevice.read d = (Ok r, d') ->
    exists older, _log d' = older ++ [mkEntry "read" (now d') r].
Proof.
  intros d d' r E.
  destruct (read_returns d d' r E) as (rest & Hp & _).
  destruct (read_logs d _ _ _ Hp) as (older & Hlog).
  rewrite E in Hlog. eauto.
Qed.

Lemma read_logs_what_it_returns_witness :
  exists older,
    _log (snd (SerialDevice.read (bench false [prompt "ok"])))
    = older
        ++ [mkEntry "read" (now (snd (SerialDevice.read (bench false [prompt "ok"]))))
              (Some ("ok" ++ nl)%string)].
Proof.
  apply (read_logs_what_it_returns (bench false [prompt "ok"])
           (snd (SerialDevice.read (bench false [prompt "ok"])))).
  vm_compute. reflexivity.
Defined.

(** X8: after [close], the next [write] opens the port again before it
    transmits, and leaves it open. *)
Theorem write_after_close_reopens :
  forall (data : bytes) (d : device),
    trace (snd ((SerialDevice.close ;; SerialDevice.write data nl) d))
    = trace d ++ [(now d, EClose); (now d, EOpen);
                  (now d, ETx (data ++ nl)%string)]
    /\ port_open (snd ((SerialDevice.close ;; SerialDevice.write data nl) d))
       = true.
Proof.
  intros data d.
  destruct d as [nw r po tr tmo lg mx lf au lq mq].
  unfold SerialDevice.close. run. simpl.
  rewrite <- !app_assoc. split; reflexivity.
Qed.

(** X9: the base-class [query] is a write followed by a read and
    nothing else: it transmits the command with a newline once, sleeps
    never, and returns what [read] returns. *)
Theorem serial_query_is_write_then_read :
  forall (cmd : bytes) (d : device) res t rest,
    SerialDevice.poll (timeout d) (now d) (now d) (rx d) = (Some res, t, rest) ->
    exists d2,
      SerialDevice.query cmd d = (Ok res, d2)
      /\ trace d2 = trace d ++ opening d ++ [(now d, ETx (cmd ++ nl)%string)]
      /\ now d2 = t
      /\ rx d2 = rest
      /\ last_query_time_s d2 = last_query_time_s d.
Proof.
  intros cmd d res t rest Hp.
  destruct (serial_query_spec cmd d (Some res) t rest Hp)
    as (d2 & E & Hnow & Hrx & _ & Htr & _ & _ & _ & Hlast).
  exists d2. auto.
Qed.

Lemma serial_query_is_write_then_read_witness :
  exists d2,
    SerialDevice.query "L?" (bench false [prompt "500"])
    = (Ok (Some ("500" ++ nl)%string), d2)
    /\ trace d2
       = trace (bench false [prompt "500"]) ++ opening (bench false [prompt "500"])
           ++ [(now (bench false [prompt "500"]), ETx ("L?" ++ nl)%string)]
    /\ now d2 = 0 + 0.001
    /\ rx d2 = []
    /\ last_query_time_s d2 = last_query_time_s (bench false [prompt "500"]).
Proof.
  apply (serial_query_is_write_then_read "L?" (bench false [prompt "500"])
           (Some ("500" ++ nl)%string) (0 + 0.001) []).
  reflexivity.
Defined.

(** X10: the deadline of [read] covers the whole call, not one poll:
    after an empty poll, a line is returned only if both polls together
    took no longer than the timeout; otherwise the line is discarded and
    the absent value returned. *)
Theorem read_deadline_spans_polls :
  forall (d : device) limit dt0 dt1 line rest,
    timeout d = Some limit ->
    rx d = (dt0, None) :: (dt1, Some line) :: rest ->
    dt0 <= limit ->
    exists r d',
      SerialDevice.read d = (Ok r, d')
      /\ rx d' = rest
      /\ now d' = now d + dt0 + dt1
      /\ (dt0 + dt1 <= limit -> r = Some line)
      /\ (limit < dt0 + dt1 -> r = None).
Proof.
  intros d limit dt0 dt1 line rest Htmo Hrx H0.
  assert (Hp : SerialDevice.poll (timeout d) (now d) (now d) (rx d)
               = (Some (if Qltb limit (now d + dt0 + dt1 - now d)
                        then None else Some line),
                  now d + dt0 + dt1, rest)).
  { rewrite Htmo, Hrx. cbn [SerialDevice.poll SerialDevice.timed_out].
    replace (Qltb limit (now d + dt0 - now d)) with false
      by (symmetry; apply Qltb_false; lra).
    destruct (Qltb limit (now d + dt0 + dt1 - now d)); reflexivity. }
  destruct (read_spec d _ _ _ Hp) as (d' & E & Hnow & Hrx' & _).
  eexists. exists d'. split; [exact E|]. split; [exact Hrx'|].
  split; [exact Hnow|]. split; intro H.
  - replace (Qltb limit (now d + dt0 + dt1 - now d)) with false;
      [reflexivity|]. symmetry. apply Qltb_false. lra.
  - replace (Qltb limit (now d + dt0 + dt1 - now d)) with true;
      [reflexivity|]. symmetry. apply Qltb_true. lra.
Qed.

Lemma read_deadline_spans_polls_witness :
  exists d',
    SerialDevice.read (bench false [(0.6, None); (0.6, Some ("500" ++ nl)%string)])
    = (Ok None, d')
    /\ rx d' = [].
Proof.
  destruct (read_deadline_spans_polls
              (bench false [(0.6, None); (0.6, Some ("500" ++ nl)%string)])
              1 0.6 0.6 ("500" ++ nl)%string [] eq_refl eq_refl)
    as (r & d' & E & Hrx & _ & _ & Hlate).
  - lra.
  - assert (Hr : r = None) by (apply Hlate; lra).
    subst r. exists d'. auto.
Defined.

(* ================================================================== *)
(** ** Further properties of the command protocol *)

(** X11: without retry, [query] asks once whatever comes back: a line
    that arrives in time is returned as it is, "unknown command"
    included, and a line that arrives too late gives the absent value;
    in both cases the command was transmitted once and the time of the
    return is remembered as the time of the last query. *)
Theorem query_without_retry_asks_once :
  forall (limit : nat) (code : string) (d : device) dt line rest,
    rx d = (dt, Some line) :: rest ->
    exists r d',
      MTD415TDevice.query (S limit) code false d = (Ok r, d')
      /\ (in_time (timeout d) dt -> r = Some line)
      /\ (too_late (timeout d) dt -> r = None)
      /\ wire (trace d') = wire (trace d) ++ [query_command code]
      /\ rx d' = rest
      /\ last_query_time_s d' = now d'.
Proof.
  intros limit code d dt line rest Hrx.
  assert (A := query_attempt limit code false d).
  rewrite Hrx, poll_line in A. cbn [andb] in A.
  destruct A as (d' & E & Htr & Hnow & Hrx' & _ & Hlast & _).
  eexists. exists d'. split; [exact E|].
  split; [|split; [|split; [|split]]].
  - intro Hin. now rewrite (timed_out_in_time _ _ _ Hin).
  - intro Hlate. now rewrite (timed_out_too_late _ _ _ Hlate).
  - now rewrite Htr, wire_app, wire_attempt_prefix.
  - exact Hrx'.
  - congruence.
Qed.

Lemma query_without_retry_asks_once_witness :
  exists d',
    MTD415TDevice.query 1 "L" false rejecting_device
    = (Ok (Some unknown_command), d')
    /\ wire (trace d') = wire (trace rejecting_device) ++ [query_command "L"].
Proof.
  destruct (query_without_retry_asks_once 0 "L" rejecting_device 0.001
              unknown_command [] eq_refl)
    as (r & d' & E & Hin & _ & Hw & _).
  exists d'. rewrite <- Hin; [auto|]. simpl. lra.
Defined.

(** A retrying query returns only what is not retried. *)
Lemma retrying_query_result : forall depth code d r d',
  MTD415TDevice.query depth code true d = (Ok r, d') -> retryable r = false.
Proof.
  induction depth as [|depth IH]; intros code d r d' E; [discriminate|].
  assert (A := query_attempt depth code true d).
  destruct (SerialDevice.poll (timeout d) (transmit_time d) (transmit_time d)
              (rx d)) as [[[result|] t'] rest'].
  - cbn [andb] in A. destruct (retryable result) eqn:R.
    + destruct A as (d1 & E1 & _). rewrite E1 in E. exact (IH _ _ _ _ E).
    + destruct A as (d1 & E1 & _). rewrite E1 in E. inversion E; subst.
      exact R.
  - destruct A as (d1 & E1 & _). rewrite E1 in E. discriminate.
Qed.

(** X12: with retry enabled, a [query] that returns never returns the
    absent value and never returns the line "unknown command". *)
Theorem retrying_query_returns_only_an_answer :
  forall (depth : nat) (code : string) (d d' : device) (r : option bytes),
    MTD415TDevice.query depth code true d = (Ok r, d') ->
    exists line, r = Some line /\ line <> unknown_command.
Proof.
  intros depth code d d' r E.
  assert (R := retrying_query_result depth code d r d' E).
  destruct r as [line|]; [|discriminate R].
  exists line. split; [reflexivity|].
  simpl in R. now apply String.eqb_neq.
Qed.

Lemma retrying_query_returns_only_an_answer_witness :
  exists line,
    Some ("500" ++ nl)%string = Some line /\ line <> unknown_command.
Proof.
  apply (retrying_query_returns_only_an_answer 10 "L" stubborn_device
           (snd (MTD415TDevice.query 10 "L" true stubborn_device))).
  vm_compute. reflexivity.
Defined.

(** X13: with retry enabled, a device that fails every attempt the
    interpreter allows makes [query] end in a recursion error after one
    transmission per allowed call; the absent value is not returned. *)
Theorem retrying_query_exhausts_recursion :
  forall (fs : list (Q * option bytes)) (code : string) (d : device) rest,
    rx d = fs ++ rest ->
    Forall (failing (timeout d)) fs ->
    fst (MTD415TDevice.query (List.length fs) code true d) = Raise RecursionError
    /\ wire (trace (snd (MTD415TDevice.query (List.length fs) code true d)))
       = wire (trace d) ++ repeat (query_command code) (List.length fs).
Proof.
  induction fs as [|item fs IH]; intros code d rest Hrx Hfs.
  - simpl. now rewrite app_nil_r.
  - inversion Hfs as [|? ? Hitem Hfs']; subst.
    destruct (query_retry_step (List.length fs) code d item _ Hrx Hitem)
      as (d1 & E & Hrx1 & Htmo & _ & _ & _ & _ & Hw).
    cbn [List.length]. rewrite E. rewrite <- Htmo in Hfs'.
    destruct (IH code d1 rest Hrx1 Hfs') as [Ho Hwire].
    split; [exact Ho|]. rewrite Hwire, Hw, <- app_assoc. reflexivity.
Qed.

Lemma retrying_query_exhausts_recursion_witness :
  fst (MTD415TDevice.query 2 "L" true stubborn_device) = Raise RecursionError
  /\ wire (trace (snd (MTD415TDevice.query 2 "L" true stubborn_device)))
     = wire (trace stubborn_device) ++ repeat (query_command "L") 2.
Proof.
  apply (retrying_query_exhausts_recursion
           [prompt "unknown command"; prompt "unknown command"] "L"
           stubborn_device [prompt "500"]).
  - reflexivity.
  - apply Forall_cons; [|apply Forall_cons; [|apply Forall_nil]];
      right; (split; [simpl; lra | reflexivity]).
Defined.

Lemma error_flags_result (limit : nat) (d d1 : device) (f : pyval) :
  MTD415TDevice.error_flags limit d = (Ok f, d1) -> exists t, f = PyFlags t.
Proof.
  unfold MTD415TDevice.error_flags, bind. intro E.
  destruct (MTD415TDevice.query limit "E" true d) as [[res|e] d'] eqn:Eq;
    [|discriminate E].
  assert (R := retrying_query_result _ _ _ _ _ Eq).
  destruct res as [line|]; [|discriminate R].
  unfold Py.decode_ascii in E.
  destruct (Py.is_ascii line); [|discriminate E].
  change (ret line d') with (Ok line, d') in E. cbv beta iota in E.
  destruct (Py.int_of_text line); inversion E; eauto.
Qed.

(** X14: the getters that query with retry and convert the reply never
    return the marker "<timeout>": the retrying query hands them no
    absent value to turn into it. *)
Theorem retrying_getters_never_return_timeout_marker :
  forall (r : reading) (limit : nat) (d : device) (v : pyval),
    r <> TecVoltage -> r <> Idn -> r <> Uid ->
    fst (getter r limit d) = Ok v ->
    v <> PyStr "<timeout>".
Proof.
  intros r limit d v H1 H2 H3 Hv.
  assert (Hq : forall code,
             match MTD415TDevice.query limit code true d with
             | (Ok None, _) => False
             | _ => True
             end).
  { intro code.
    destruct (MTD415TDevice.query limit code true d) as [[res|e] d'] eqn:E;
      [|exact I].
    assert (R := retrying_query_result _ _ _ _ _ E).
    destruct res; [exact I | discriminate R]. }
  destruct r as [| | | | | | | s]; try contradiction.
  - unfold getter in Hv.
    destruct (MTD415TDevice.error_flags limit d) as [o d1] eqn:E.
    simpl in Hv. subst o.
    destruct (error_flags_result _ _ _ _ E) as [t ->]. discriminate.
  - unfold getter, MTD415TDevice.errors, bind in Hv.
    destruct (MTD415TDevice.error_flags limit d) as [[f|e] d1] eqn:E;
      [|discriminate Hv].
    destruct (error_flags_result _ _ _ _ E) as [t ->].
    destruct (MTD415TDevice.collect_errors t MTD415TDevice._ERRORS);
      inversion Hv; discriminate.
  - unfold getter, MTD415TDevice.tec_current, MTD415TDevice.scaled_reading,
      bind in Hv. specialize (Hq "A"%string).
    destruct (MTD415TDevice.query limit "A" true d) as [[[line|]|e] d'];
      try contradiction; try discriminate Hv.
    destruct (Py.float_of_text line); inversion Hv; discriminate.
  - unfold getter, MTD415TDevice.temp, MTD415TDevice.scaled_reading,
      bind in Hv. specialize (Hq "Te"%string).
    destruct (MTD415TDevice.query limit "Te" true d) as [[[line|]|e] d'];
      try contradiction; try discriminate Hv.
    destruct (Py.float_of_text line); inversion Hv; discriminate.
  - specialize (Hq (setting_code s)).
    destruct s;
      unfold getter, MTD415TDevice.tec_current_limit,
        MTD415TDevice.temp_setpoint, MTD415TDevice.status_temp_window,
        MTD415TDevice.status_delay, MTD415TDevice.critical_gain,
        MTD415TDevice.critical_period, MTD415TDevice.cycling_time,
        MTD415TDevice.p_gain, MTD415TDevice.i_gain, MTD415TDevice.d_gain,
        MTD415TDevice.scaled_reading, bind in Hv;
      cbn [setting_code] in Hq;
      match type of Hv with
      | context [MTD415TDevice.query limit ?c true d] =>
          destruct (MTD415TDevice.query limit c true d) as [[[line|]|e] d']
      end;
      try contradiction; try discriminate Hv;
      try (destruct (Py.float_of_text line); inversion Hv; discriminate);
      destruct (Py.int_of_text line); inversion Hv; discriminate.
Qed.

Lemma retrying_getters_never_return_timeout_marker_witness :
  PyFloat (inject_Z 1200 / 1000) <> PyStr "<timeout>".
Proof.
  apply (retrying_getters_never_return_timeout_marker (Of TecCurrentLimit) 2
           slow_device).
  - discriminate.
  - discriminate.
  - discriminate.
  - vm_compute. reflexivity.
Defined.

(** X15: [save] prints its warning, sends "M" and drains exactly one
    reply, whatever that reply is and however late it comes; it succeeds
    and never looks at the reply. *)
Theorem save_sends_M_and_drains_one_reply :
  forall (d : device) dt line rest,
    rx d = (dt, Some line) :: rest ->
    exists d',
      MTD415TDevice.save d = (Ok tt, d')
      /\ rx d' = rest
      /\ effects (trace d')
         = effects (trace d)
             ++ EPrint "WARNING: Saving config to flash memory."
             :: effects (opening d) ++ [ETx ("M" ++ nl)%string]
      /\ wire (trace d') = wire (trace d) ++ [("M" ++ nl)%string]
      /\ now d' = now d + dt.
Proof.
  intros d dt line rest Hrx.
  destruct (save_spec d dt line rest Hrx) as (d' & E & Hnow & Hrx' & _ & Htr & _).
  exists d'. split; [exact E|]. split; [exact Hrx'|].
  split; [|split; [|exact Hnow]].
  - rewrite Htr, !effects_app. reflexivity.
  - rewrite Htr, !wire_app, wire_opening. reflexivity.
Qed.

Lemma save_sends_M_and_drains_one_reply_witness :
  exists d',
    MTD415TDevice.save rejecting_device = (Ok tt, d')
    /\ rx d' = []
    /\ effects (trace d')
       = effects (trace rejecting_device)
           ++ EPrint "WARNING: Saving config to flash memory."
           :: effects (opening rejecting_device) ++ [ETx ("M" ++ nl)%string]
    /\ wire (trace d') = wire (trace rejecting_device) ++ [("M" ++ nl)%string]
    /\ now d' = now rejecting_device + 0.001.
Proof.
  apply (save_sends_M_and_drains_one_reply rejecting_device 0.001
           unknown_command []).
  reflexivity.
Defined.

(** X16: [clear_errors] sends "c" and drains exactly one reply, which it
    does not interpret. *)
Theorem clear_errors_sends_c_and_drains_one_reply :
  forall (d : device) dt line rest,
    rx d = (dt, Some line) :: rest ->
    exists d',
      MTD415TDevice.clear_errors d = (Ok tt, d')
      /\ rx d' = rest
      /\ trace d' = trace d ++ opening d ++ [(now d, ETx ("c" ++ nl)%string)]
      /\ now d' = now d + dt.
Proof.
  intros d dt line rest Hrx.
  destruct (write_spec "c" nl d) as (d1 & E1 & Hnow1 & Hrx1 & Hpo1 & Htr1 & Hcfg1).
  assert (Hp := poll_line (timeout d1) (now d1) dt line rest).
  rewrite <- Hrx, <- Hrx1 in Hp.
  destruct (read_spec d1 _ _ _ Hp) as (d2 & E2 & Hnow2 & Hrx2 & Hpo2 & Htr2 & _).
  exists d2. unfold MTD415TDevice.clear_errors, MTD415TDevice.write.
  rewrite (bind_ok _ _ _ _ _ E1), (bind_ok _ _ _ _ _ E2).
  split; [reflexivity|]. split; [exact Hrx2|]. split; [|congruence].
  rewrite Htr2, Htr1.
  replace (opening d1) with (@nil (Q * event))
    by (unfold opening; now rewrite Hpo1).
  now rewrite app_nil_r.
Qed.

Lemma clear_errors_sends_c_and_drains_one_reply_witness :
  exists d',
    MTD415TDevice.clear_errors rejecting_device = (Ok tt, d')
    /\ rx d' = []
    /\ trace d'
       = trace rejecting_device ++ opening rejecting_device
           ++ [(now rejecting_device, ETx ("c" ++ nl)%string)]
    /\ now d' = now rejecting_device + 0.001.
Proof.
  apply (clear_errors_sends_c_and_drains_one_reply rejecting_device 0.001
           unknown_command []).
  reflexivity.
Defined.

Lemma lstrip_padding (pad s : string) :
  all_space pad = true ->
  (match s with
   | EmptyString => False
   | String c _ => Py.is_space c = false
   end) ->
  Py.lstrip (pad ++ s) = s.
Proof.
  intros Hpad Hs. induction pad as [|c pad IH]; simpl in *.
  - destruct s as [|c s]; [contradiction|]. simpl. now rewrite Hs.
  - apply andb_true_iff in Hpad. destruct Hpad as [Hc Hpad].
    rewrite Hc. exact (IH Hpad).
Qed.

Lemma rstrip_padding (s pad : string) :
  no_space s = true -> all_space pad = true -> Py.rstrip (s ++ pad) = s.
Proof.
  intros Hs Hpad. induction s as [|c s IH].
  - simpl. induction pad as [|p pad IHp]; [reflexivity|].
    simpl in Hpad. apply andb_true_iff in Hpad. destruct Hpad as [Hp Hpad].
    simpl. rewrite (IHp Hpad), Hp. reflexivity.
  - simpl in Hs. apply andb_true_iff in Hs. destruct Hs as [Hc Hs].
    apply negb_true_iff in Hc.
    change (Py.rstrip (String c s ++ pad))
      with (match Py.rstrip (s ++ pad) with
            | EmptyString =>
                if Py.is_space c then EmptyString else String c EmptyString
            | r => String c r
            end).
    rewrite (IH Hs), Hc. destruct s; reflexivity.
Qed.

Lemma strip_padded_format_d (before after : string) (n : Z) :
  all_space before = true -> all_space after = true ->
  Py.strip (before ++ Py.format_d n ++ after) = Py.format_d n.
Proof.
  intros Hb Ha. unfold Py.strip.
  assert (Hn := no_space_format_d n).
  rewrite lstrip_padding.
  - apply rstrip_padding; assumption.
  - exact Hb.
  - destruct (Py.format_d n) as [|c s] eqn:E.
    + destruct n as [|p|p]; unfold Py.format_d in E; simpl in E;
        try discriminate E.
      rewrite (digits_nonnil _ (DecimalPos.Unsigned.to_uint_nonnil p)) in E.
      destruct (Pos.to_uint p) eqn:U; try discriminate E.
      exfalso. exact (DecimalPos.Unsigned.to_uint_nonnil p U).
    + simpl in Hn. apply andb_true_iff in Hn. destruct Hn as [Hc _].
      simpl. now apply negb_true_iff.
Qed.

(** X17: [set] succeeds on an echo of the integer it sent, and
    whitespace around the echo does not matter.  It then has transmitted
    the command once and slept never; with auto-save on it has also
    printed the two warnings and sent the save command, whose reply it
    drained.  The time of the last query is left as it was: a set
    command does not count for the throttler. *)
Theorem set_accepts_padded_echo :
  forall (code : string) (n : Z) (d : device) dt before after reply rest,
    all_space before = true -> all_space after = true ->
    rx d = (dt, Some (before ++ Py.format_d n ++ after)%string)
             :: save_exchange d reply ++ rest ->
    in_time (timeout d) dt ->
    exists d1,
      MTD415TDevice.set code (PyInt n) d = (Ok tt, d1)
      /\ rx d1 = rest
      /\ effects (trace d1)
         = effects (trace d) ++ effects (opening d)
             ++ ETx (code ++ Py.format_d n ++ nl)%string :: auto_save_effects d
      /\ last_query_time_s d1 = last_query_time_s d.
Proof.
  intros code n d dt before after reply rest Hb Ha Hrx Hin.
  destruct (set_confirmed code n d dt _ reply rest Hrx Hin
              (strip_padded_format_d before after n Hb Ha))
    as (d1 & E & Hrx1 & _ & Htr & _ & _ & _ & Hlast).
  exists d1. auto.
Qed.

Lemma set_accepts_padded_echo_witness :
  exists d1,
    MTD415TDevice.set "T" (PyInt 15025) echoing_device = (Ok tt, d1)
    /\ rx d1 = [prompt "15025"]
    /\ effects (trace d1)
       = effects (trace echoing_device) ++ effects (opening echoing_device)
           ++ ETx ("T" ++ Py.format_d 15025 ++ nl)%string
           :: auto_save_effects echoing_device
    /\ last_query_time_s d1 = last_query_time_s echoing_device.
Proof.
  apply (set_accepts_padded_echo "T" 15025 echoing_device 0.001
           EmptyString nl (0.001, ("ok" ++ nl)%string) [prompt "15025"]).
  - reflexivity.
  - reflexivity.
  - reflexivity.
  - simpl. lra.
Defined.

Lemma read_outcome (d : device) :
  exists d1,
    SerialDevice.read d = (Raise Blocked, d1)
    \/ exists r, SerialDevice.read d = (Ok r, d1).
Proof.
  destruct (SerialDevice.poll (timeout d) (now d) (now d) (rx d))
    as [[res t] rest] eqn:Hp.
  destruct (read_spec d res t rest Hp) as (d1 & E & _).
  exists d1. destruct res as [r|]; [right; eauto | left; exact E].
Qed.

Lemma save_outcome (d : device) :
  fst (MTD415TDevice.save d) = Ok tt \/ fst (MTD415TDevice.save d) = Raise Blocked.
Proof.
  destruct (print_spec "WARNING: Saving config to flash memory." d)
    as (d1 & E1 & _).
  destruct (write_spec "M" nl d1) as (d2 & E2 & _).
  unfold MTD415TDevice.save, MTD415TDevice.write.
  rewrite (bind_ok _ _ _ _ _ E1), (bind_ok _ _ _ _ _ E2).
  destruct (read_outcome d2) as (d3 & [E3 | [r E3]]).
  - rewrite (bind_raise _ _ _ _ _ E3). now right.
  - rewrite (bind_ok _ _ _ _ _ E3). now left.
Qed.

Lemma print_dump_log_ok (d : device) :
  exists d1, SerialDevice.print_dump_log d = (Ok tt, d1).
Proof. run. simpl. eauto. Qed.

(** X18: [set] has no way to raise its timeout error: whatever the
    setting, the value and the device, the outcome of [set] is never a
    [RuntimeError]. *)
Theorem set_never_raises_its_timeout_error :
  forall (code : string) (v : pyval) (d : device) (msg : string),
    fst (MTD415TDevice.set code v d) <> Raise (RuntimeError msg).
Proof.
  intros code v d msg.
  assert (Hint : forall n,
             fst (MTD415TDevice.set code (PyInt n) d) <> Raise (RuntimeError msg)).
  { intro n.
    destruct (write_spec (code ++ Py.format_d n) nl d) as (d1 & E1 & _).
    unfold MTD415TDevice.set, MTD415TDevice.write. cbn [Py.int].
    rewrite (bind_ok (ret n) _ d d n eq_refl), (bind_ok _ _ _ _ _ E1).
    destruct (read_outcome d1) as (d2 & [E2 | [[line|] E2]]).
    - rewrite (bind_raise _ _ _ _ _ E2). discriminate.
    - rewrite (bind_ok _ _ _ _ _ E2).
      rewrite (bind_ok _ _ d2 d2 (Some (Py.strip line)) eq_refl).
      destruct (negb (String.eqb (Py.strip line) (Py.format_d n))).
      + destruct (print_dump_log_ok d2) as (d3 & E3).
        rewrite (bind_ok _ _ _ _ _ E3). discriminate.
      + rewrite (bind_ok (gets _auto_save) _ d2 d2 (_auto_save d2) eq_refl).
        destruct (_auto_save d2); [|discriminate].
        destruct (print_spec
                    "WARNING: Using auto-save mode! This warning persists." d2)
          as (d3 & E3 & _).
        rewrite (bind_ok _ _ _ _ _ E3).
        destruct (save_outcome d3) as [H | H]; rewrite H; discriminate.
    - rewrite (bind_ok _ _ _ _ _ E2).
      erewrite bind_raise by reflexivity. discriminate. }
  destruct v as [|n|q|s|t|t]; try discriminate; [apply Hint | apply Hint |].
  unfold MTD415TDevice.set. cbn [Py.int].
  destruct (Py.int_of_text s) as [n|] eqn:Es.
  - change (fst (MTD415TDevice.set code (PyInt n) d) <> Raise (RuntimeError msg)).
    apply Hint.
  - discriminate.
Qed.

(** X19: [set] converts its value with [int()] before anything else: a
    float is truncated towards zero and sent as that integer, while a
    string that holds a letter, or a value that is neither a number nor
    a string, ends the call with the device untouched and nothing
    transmitted. *)
Theorem set_converts_value_before_transmitting :
  forall (code : string) (d : device),
    (forall q, Py.binary64 q ->
               MTD415TDevice.set code (PyFloat q) d
               = MTD415TDevice.set code (PyInt (Py.trunc q)) d)
    /\ (forall s, has_letter s = true ->
                  MTD415TDevice.set code (PyStr s) d
                  = (Raise (ValueError "invalid literal for int()"), d))
    /\ (forall v, Py.number v = None -> (forall s, v <> PyStr s) ->
                  MTD415TDevice.set code v d
                  = (Raise (TypeError "int() argument must be a string or a number"),
                     d))
    /\ (forall q dt reply rest,
          Py.binary64 q ->
          rx d = (dt, Some (Py.format_d (Py.trunc q) ++ nl)%string)
                   :: save_exchange d reply ++ rest ->
          in_time (timeout d) dt ->
          fst (MTD415TDevice.set code (PyFloat q) d) = Ok tt
          /\ wire (trace (snd (MTD415TDevice.set code (PyFloat q) d)))
             = wire (trace d) ++ set_commands d code (Py.trunc q)).
Proof.
  intros code d. split; [reflexivity|]. split; [|split].
  - intros s Hs. unfold MTD415TDevice.set. cbn [Py.int].
    rewrite (int_of_text_letter s Hs). reflexivity.
  - intros v Hv Hs. destruct v; try discriminate Hv; try reflexivity.
    exfalso. exact (Hs _ eq_refl).
  - intros q dt reply rest _ Hrx Hin.
    change (MTD415TDevice.set code (PyFloat q) d)
      with (MTD415TDevice.set code (PyInt (Py.trunc q)) d).
    destruct (set_echoed code (Py.trunc q) d dt reply rest Hrx Hin)
      as (d1 & E & _ & _ & Hw).
    rewrite E. auto.
Qed.

Lemma set_converts_value_before_transmitting_witness :
  MTD415TDevice.set "d" (PyFloat 32768.5) (bench false [prompt "32768"])
  = MTD415TDevice.set "d" (PyInt 32768) (bench false [prompt "32768"])
  /\ MTD415TDevice.set "L" (PyStr "half") (bench false [])
     = (Raise (ValueError "invalid literal for int()"), bench false [])
  /\ MTD415TDevice.set "L" PyNone (bench false [])
     = (Raise (TypeError "int() argument must be a string or a number"),
        bench false [])
  /\ fst (MTD415TDevice.set "d" (PyFloat 32768.5) (bench false [prompt "32768"]))
     = Ok tt
  /\ wire (trace (snd (MTD415TDevice.set "d" (PyFloat 32768.5)
                         (bench false [prompt "32768"]))))
     = wire (trace (bench false [prompt "32768"]))
         ++ set_commands (bench false [prompt "32768"]) "d" (Py.trunc 32768.5).
Proof.
  assert (B : Py.binary64 32768.5) by (split; vm_compute; reflexivity).
  destruct (set_converts_value_before_transmitting "L" (bench false []))
    as (_ & Hstr & Hnone & _).
  destruct (set_converts_value_before_transmitting "d"
              (bench false [prompt "32768"])) as (Htrunc & _ & _ & Hfloat).
  split; [exact (Htrunc 32768.5 B)|].
  split; [apply Hstr; reflexivity|].
  split; [apply Hnone; [reflexivity | discriminate]|].
  apply (Hfloat 32768.5 0.001 (0, EmptyString) [] B).
  - reflexivity.
  - simpl. lra.
Defined.

(* ================================================================== *)
(** ** Further properties of the error register and the getters *)

Lemma flags_of_length (err : Z) : (16 <= List.length (flags_of err))%nat.
Proof.
  unfold flags_of, Py.format_016b.
  rewrite length_map, length_rev, !length_app, repeat_length. lia.
Qed.

(** What [error_flags] and [errors] make of a reply that is an integer. *)
Lemma errors_of_reply (limit : nat) (d : device) dt line rest (err : Z) :
  rx d = (dt, Some line) :: rest ->
  in_time (timeout d) dt ->
  line <> unknown_command ->
  Py.int_of_text line = Some err ->
  fst (MTD415TDevice.error_flags (S limit) d) = Ok (PyFlags (flags_of err))
  /\ fst (MTD415TDevice.errors (S limit) d)
     = Ok (PyNames (map snd (filter (fun e => nth (fst e) (flags_of err) false)
                                    MTD415TDevice._ERRORS))).
Proof.
  intros Hrx Hin Hline Hint.
  destruct (query_once limit "E" true d dt line rest Hrx Hin (or_intror Hline))
    as (d' & Hq & _).
  assert (F : MTD415TDevice.error_flags (S limit) d
              = (Ok (PyFlags (flags_of err)), d')).
  { unfold MTD415TDevice.error_flags, bind. rewrite Hq.
    rewrite (decode_ascii_ok _ d' (int_of_text_is_ascii _ _ Hint)), Hint.
    reflexivity. }
  split; [now rewrite F|].
  unfold MTD415TDevice.errors, bind. rewrite F.
  rewrite collect_errors_filter; [reflexivity|].
  assert (L := flags_of_length err).
  unfold MTD415TDevice._ERRORS. repeat constructor; simpl; lia.
Qed.

(** X20: whatever integer the device reports as its error register --
    negative or wider than 16 bits included -- [errors] returns a tuple
    of names from [_ERRORS] and does not fail on an index. *)
Theorem errors_never_fails_on_an_integer :
  forall (limit : nat) (d : device) dt line rest (err : Z),
    rx d = (dt, Some line) :: rest ->
    in_time (timeout d) dt ->
    line <> unknown_command ->
    Py.int_of_text line = Some err ->
    exists names,
      fst (MTD415TDevice.errors (S limit) d) = Ok (PyNames names)
      /\ incl names (map snd MTD415TDevice._ERRORS).
Proof.
  intros limit d dt line rest err Hrx Hin Hline Hint.
  destruct (errors_of_reply limit d dt line rest err Hrx Hin Hline Hint)
    as [_ E].
  eexists. split; [exact E|].
  intros name Hname. apply in_map_iff in Hname.
  destruct Hname as (e & <- & He). apply filter_In in He.
  apply in_map. exact (proj1 He).
Qed.

Lemma errors_never_fails_on_an_integer_witness :
  exists names,
    fst (MTD415TDevice.errors 1 (bench false [prompt "-70000"]))
    = Ok (PyNames names)
    /\ incl names (map snd MTD415TDevice._ERRORS).
Proof.
  apply (errors_never_fails_on_an_integer 0 (bench false [prompt "-70000"])
           0.001 ("-70000" ++ nl)%string [] (-70000)).
  - reflexivity.
  - simpl. lra.
  - discriminate.
  - reflexivity.
Defined.

Lemma documented_bit (err : Z) (e : nat * string) :
  In e MTD415TDevice._ERRORS ->
  register_bit (Z.land err 24703) (fst e) = register_bit err (fst e).
Proof.
  intro H. unfold register_bit. rewrite Z.land_spec.
  unfold MTD415TDevice._ERRORS in H. simpl in H.
  repeat (destruct H as [<- | H]; [simpl; apply andb_true_r|]).
  contradiction.
Qed.

(** X21: [errors] looks at the documented bits only: two 16-bit register
    values that agree on bits 0 to 6, 13 and 14 (mask 0x607F) give the
    same tuple of errors, whatever their other bits are. *)
Theorem errors_ignore_undocumented_bits :
  forall (limit : nat) (d d' : device) dt dt' line line' rest rest'
         (err err' : Z),
    rx d = (dt, Some line) :: rest ->
    rx d' = (dt', Some line') :: rest' ->
    in_time (timeout d) dt -> in_time (timeout d') dt' ->
    line <> unknown_command -> line' <> unknown_command ->
    Py.int_of_text line = Some err -> Py.int_of_text line' = Some err' ->
    (0 <= err < 65536)%Z -> (0 <= err' < 65536)%Z ->
    Z.land err 24703 = Z.land err' 24703 ->
    fst (MTD415TDevice.errors (S limit) d)
    = fst (MTD415TDevice.errors (S limit) d').
Proof.
  intros limit d d' dt dt' line line' rest rest' err err'
         Hrx Hrx' Hin Hin' Hl Hl' Hi Hi' Hr Hr' Hmask.
  destruct (errors_of_reply limit d dt line rest err Hrx Hin Hl Hi) as [_ E].
  destruct (errors_of_reply limit d' dt' line' rest' err' Hrx' Hin' Hl' Hi')
    as [_ E'].
  rewrite E, E'. do 3 f_equal.
  apply filter_ext_in. intros e He.
  unfold flags_of. rewrite (decode_flags err Hr), (decode_flags err' Hr').
  assert (Hidx : (fst e < 16)%nat).
  { unfold MTD415TDevice._ERRORS in He. simpl in He.
    repeat (destruct He as [<- | He]; [simpl; lia|]). contradiction. }
  assert (Hnth : forall x, nth (fst e) (map (register_bit x) (seq 0 16)) false
                           = register_bit x (fst e)).
  { intro x.
    rewrite (nth_indep _ false (register_bit x 0%nat))
      by (now rewrite length_map, length_seq).
    rewrite map_nth, seq_nth by assumption. reflexivity. }
  rewrite !Hnth, <- (documented_bit err e He), <- (documented_bit err' e He).
  now rewrite Hmask.
Qed.

Lemma errors_ignore_undocumented_bits_witness :
  fst (MTD415TDevice.errors 1 (bench false [prompt "5"]))
  = fst (MTD415TDevice.errors 1 (bench false [prompt "32901"])).
Proof.
  apply (errors_ignore_undocumented_bits 0 (bench false [prompt "5"])
           (bench false [prompt "32901"]) 0.001 0.001
           ("5" ++ nl)%string ("32901" ++ nl)%string [] [] 5 32901).
  all: try reflexivity; try discriminate; try (simpl; lra); try lia.
Defined.



(** X23: [idn] and [uid] hand back the reply line as it came, its line
    ending included, when every byte of it is ASCII; a reply with a
    byte above 127 makes them fail to decode it. *)
Theorem identity_getters_return_reply_verbatim :
  forall (limit : nat) (d : device) dt line rest,
    rx d = (dt, Some line) :: rest ->
    in_time (timeout d) dt ->
    line <> unknown_command ->
    (Py.is_ascii line = true ->
     fst (MTD415TDevice.idn (S limit) d) = Ok (PyStr line)
     /\ fst (MTD415TDevice.uid (S limit) d) = Ok (PyStr line))
    /\ (Py.is_ascii line = false ->
        fst (MTD415TDevice.idn (S limit) d)
        = Raise (UnicodeDecodeError "'ascii' codec can't decode byte")
        /\ fst (MTD415TDevice.uid (S limit) d)
           = Raise (UnicodeDecodeError "'ascii' codec can't decode byte")).
Proof.
  intros limit d dt line rest Hrx Hin Hline.
  destruct (query_once limit "m" true d dt line rest Hrx Hin (or_intror Hline))
    as (d1 & Hq1 & _).
  destruct (query_once limit "u" true d dt line rest Hrx Hin (or_intror Hline))
    as (d2 & Hq2 & _).
  unfold MTD415TDevice.idn, MTD415TDevice.uid, MTD415TDevice.text_reading, bind.
  rewrite Hq1, Hq2. unfold Py.decode_ascii.
  split; intros ->; split; reflexivity.
Qed.

Lemma identity_getters_return_reply_verbatim_witness :
  (fst (MTD415TDevice.idn 1 (bench false [prompt "MTD415T FW0.6.8"]))
   = Ok (PyStr ("MTD415T FW0.6.8" ++ nl))
   /\ fst (MTD415TDevice.uid 1 (bench false [prompt "MTD415T FW0.6.8"]))
      = Ok (PyStr ("MTD415T FW0.6.8" ++ nl)))
  /\ (fst (MTD415TDevice.idn 1 (bench false [prompt (String "255" "")]))
      = Raise (UnicodeDecodeError "'ascii' codec can't decode byte")
      /\ fst (MTD415TDevice.uid 1 (bench false [prompt (String "255" "")]))
         = Raise (UnicodeDecodeError "'ascii' codec can't decode byte")).
Proof.
  split.
  - apply (identity_getters_return_reply_verbatim 0
             (bench false [prompt "MTD415T FW0.6.8"]) 0.001
             ("MTD415T FW0.6.8" ++ nl)%string []).
    + reflexivity.
    + simpl. lra.
    + discriminate.
    + reflexivity.
  - apply (identity_getters_return_reply_verbatim 0
             (bench false [prompt (String "255" "")]) 0.001
             (String "255" "" ++ nl)%string []).
    + reflexivity.
    + simpl. lra.
    + discriminate.
    + reflexivity.
Defined.

(** The trace only grows during a query. *)
Lemma query_trace_grows : forall depth code retry d,
  exists new,
    trace (snd (MTD415TDevice.query depth code retry d)) = trace d ++ new.
Proof.
  induction depth as [|depth IH]; intros code retry d.
  - exists []. simpl. now rewrite app_nil_r.
  - assert (A := query_attempt depth code retry d).
    destruct (SerialDevice.poll (timeout d) (transmit_time d) (transmit_time d)
                (rx d)) as [[[result|] t'] rest'].
    + destruct (retry && retryable result).
      * destruct A as (d1 & E & Htr & _). rewrite E.
        destruct (IH code true d1) as (new & Hnew).
        rewrite Hnew, Htr, <- !app_assoc. eauto.
      * destruct A as (d1 & E & Htr & _). rewrite E. simpl. eauto.
    + destruct A as (d1 & E & Htr & _). rewrite E. simpl. eauto.
Qed.

(** A query starts with its throttling delay and its transmission. *)
Lemma query_begins (depth : nat) (code : string) (retry : bool) (d : device) :
  exists tail,
    trace (snd (MTD415TDevice.query (S depth) code retry d))
    = trace d ++ attempt_prefix code d ++ tail.
Proof.
  assert (A := query_attempt depth code retry d).
  destruct (SerialDevice.poll (timeout d) (transmit_time d) (transmit_time d)
              (rx d)) as [[[result|] t'] rest'].
  - destruct (retry && retryable result).
    + destruct A as (d1 & E & Htr & _). rewrite E.
      destruct (query_trace_grows depth code true d1) as (new & Hnew).
      rewrite Hnew, Htr, <- !app_assoc. eauto.
    + destruct A as (d1 & E & Htr & _). rewrite E. simpl.
      exists []. now rewrite app_nil_r.
  - destruct A as (d1 & E & Htr & _). rewrite E. simpl.
    exists []. now rewrite app_nil_r.
Qed.

(** X24: the constructor stamps the device with the time of its
    creation, so the first query of a new device, issued at once, sleeps
    for the interval of 0.01 s, less the zero time elapsed, and only
    then transmits -- whatever interval was passed to the constructor. *)
Theorem first_query_of_new_device_waits :
  forall clock script port auto_save communication_log interval kw
         (depth : nat) (code : string) (retry : bool),
  exists tail,
    trace (snd (MTD415TDevice.query (S depth) code retry
                  (MTD415TDevice.__init__ clock script port auto_save
                     communication_log interval kw)))
    = (clock, ESleep (0.01 - (clock - clock)))
        :: (clock + (0.01 - (clock - clock)), ETx (query_command code))
        :: tail.
Proof.
  intros.
  destruct (query_begins depth code retry
              (MTD415TDevice.__init__ clock script port auto_save
                 communication_log interval kw)) as (tail & H).
  exists tail. rewrite H.
  unfold attempt_prefix, throttling, transmit_time. simpl.
  replace (Qltb 0 (0.01 - (clock - clock))) with true; [reflexivity|].
  symmetry. apply Qltb_true. lra.
Qed.
